(** * us-legal-mcp: relevance scoring, source adapters and aggregator

    A shallow embedding of the US Legal APIs module as [src/index.ts]
    carries it (the scoring helpers [calculateRelevanceScore],
    [scoreBillRelevance], [scoreDocumentRelevance] and the classes
    [CongressAPI], [FederalRegisterAPI], [USCodeAPI], [CourtListenerAPI],
    [RegulationsGovAPI] and [USLegalAPI]), together with the properties
    stated about them. [src/us-legal-apis.ts] is the same module without
    the scoring.

    Conventions of the embedding.
    - A JS string is a [string]: one [ascii] per UTF-16 code unit, for
      strings whose code units are below 256 (ASCII and Latin-1).
    - A JS number is an integer [Z], standing for the Number nearest to
      it and printed as the runtime prints that Number ([string_of_Z]);
      relevance scores, which the code multiplies by 1.5, are rationals
      [Q].
    - A template literal converts a value to a string as the runtime
      does, raising a [TypeError] where the value has no string form
      ([JS.template]).
    - A JS value of type [any] (an upstream JSON payload, or an object the
      adapters build from one) is a [value].
    - A JS exception is the [Throw] outcome of [Result]; what the adapters
      write to [console.error] is left out.
    - A method that awaits a request is a computation [IO] that reads
      what the network answers and logs the requests it sends.
    - The regular-expression engine of the runtime is a parameter
      ([RegExpEngine]); nothing is assumed about it unless a statement
      says so. *)

From Stdlib Require Import ZArith QArith List String Ascii Bool Lia Lqa.
From Stdlib Require Import DecimalString Permutation Sorted.
Import ListNotations.

#[local] Open Scope string_scope.
#[local] Open Scope list_scope.
#[local] Open Scope Z_scope.

(* ================================================================== *)
(** ** Exceptions and results *)

Inductive exn : Type :=
| TypeError
| SyntaxError
| AxiosError (code : option string) (status : option Z).

Inductive Result (A : Type) : Type :=
| Ok (a : A)
| Throw (e : exn).

Arguments Ok {A} a.
Arguments Throw {A} e.

Definition rbind {A B} (r : Result A) (k : A -> Result B) : Result B :=
  match r with
  | Ok a => k a
  | Throw e => Throw e
  end.

Declare Scope result_scope.
Delimit Scope result_scope with result.
Notation "x <- r ;; k" := (rbind r (fun x => k))
  (at level 61, r at next level, right associativity) : result_scope.
#[local] Open Scope result_scope.

Fixpoint mapM {A B} (f : A -> Result B) (l : list A) : Result (list B) :=
  match l with
  | [] => Ok []
  | x :: xs => y <- f x ;; ys <- mapM f xs ;; Ok (y :: ys)
  end.

(* ================================================================== *)
(** ** Strings *)

Module JSString.

(** [String.prototype.toLowerCase] on one code unit below 256:
    A-Z and the Latin-1 capitals U+00C0..U+00DE (without the
    multiplication sign U+00D7) move up by 32. *)
Definition lower_ascii (c : ascii) : ascii :=
  let n := nat_of_ascii c in
  if ((65 <=? n) && (n <=? 90))%nat then ascii_of_nat (n + 32)
  else if ((192 <=? n) && (n <=? 222) && negb (n =? 215))%nat
       then ascii_of_nat (n + 32)
       else c.

Fixpoint toLowerCase (s : string) : string :=
  match s with
  | EmptyString => EmptyString
  | String c s' => String (lower_ascii c) (toLowerCase s')
  end.

(** The class [\s] below 256: TAB, LF, VT, FF, CR, SPACE, NBSP. *)
Definition is_ws (c : ascii) : bool :=
  let n := nat_of_ascii c in
  (((9 <=? n) && (n <=? 13)) || (n =? 32) || (n =? 160))%nat.

(** [s.split(/\s+/)]: the pieces between maximal runs of white space;
    a leading or trailing run leaves an empty piece, and the empty
    string splits into one empty piece. *)
Fixpoint split_ws (s : string) : list string :=
  match s with
  | EmptyString => [EmptyString]
  | String c s' =>
      if is_ws c then
        match s' with
        | String c' _ => if is_ws c' then split_ws s' else EmptyString :: split_ws s'
        | EmptyString => EmptyString :: split_ws s'
        end
      else
        match split_ws s' with
        | p :: ps => String c p :: ps
        | [] => [String c EmptyString]
        end
  end.

(** [hay.includes(needle)] *)
Fixpoint includes (needle hay : string) : bool :=
  prefix needle hay ||
  match hay with
  | EmptyString => false
  | String _ hay' => includes needle hay'
  end.

(** Number of occurrences of [needle] met when scanning [hay] from the
    left and resuming after each occurrence; [skip] is the number of
    characters of the last occurrence still to pass. *)
Fixpoint count_from (skip : nat) (needle hay : string) : nat :=
  match hay with
  | EmptyString => 0
  | String _ hay' =>
      match skip with
      | S k => count_from k needle hay'
      | O => if prefix needle hay
             then S (count_from (String.length needle - 1) needle hay')
             else count_from 0 needle hay'
      end
  end.

Definition count_occurrences (needle hay : string) : nat :=
  count_from 0 needle hay.

(** The digits of an integer. *)
Definition decimal (n : Z) : string :=
  NilZero.string_of_int (Z.to_int n).

(** A Number holds 53 significant bits. The Number nearest to the integer
    [a >= 0], a tie going to the even significand: what a numeric literal
    and [JSON.parse] make of the digits of [a]. *)
Definition nearestNumber (a : Z) : Z :=
  let e := Z.log2 a in
  if e <? 53 then a
  else
    let ulp := 2 ^ (e - 52) in
    let q := a / ulp in
    let r := a mod ulp in
    if (ulp <? 2 * r) || ((2 * r =? ulp) && Z.odd q)
    then (q + 1) * ulp
    else q * ulp.

(** Whether the integer [v] reads back as the Number [x >= 2^53]: it lies
    between the midpoints to the two neighbours of [x], the midpoints
    included when the significand of [x] is even. Below a power of two
    the neighbour is half as far; all is compared times four. *)
Definition readsBack (x v : Z) : bool :=
  let e := Z.log2 x in
  let ulp := 2 ^ (e - 52) in
  let lo := 4 * x - (if x =? 2 ^ e then ulp else 2 * ulp) in
  let hi := 4 * x + 2 * ulp in
  if Z.even (x / ulp)
  then (lo <=? 4 * v) && (4 * v <=? hi)
  else (lo <? 4 * v) && (4 * v <? hi).

(** The integer of fewest significant digits that reads back as [x],
    looked for among the multiples of [10^p], [p] counting down; of the
    two around [x] the nearer one, and the even one when they are as
    near. *)
Fixpoint shortest (x : Z) (p : nat) : Z :=
  match p with
  | O => x
  | S p' =>
      let pw := 10 ^ Z.of_nat p in
      let below := x / pw * pw in
      let above := below + pw in
      let fromBelow := (0 <? below) && readsBack x below in
      let fromAbove := readsBack x above in
      if fromBelow && fromAbove then
        if x - below <? above - x then below
        else if above - x <? x - below then above
        else if Z.even (below / pw) then below else above
      else if fromBelow then below
      else if fromAbove then above
      else shortest x p'
  end.

Fixpoint stripZeros (s : string) : string :=
  match s with
  | EmptyString => EmptyString
  | String c s' =>
      match stripZeros s' with
      | EmptyString => if Ascii.eqb c "0" then EmptyString
                       else String c EmptyString
      | t => String c t
      end
  end.

(** [n.toString()] and [`${n}`] for the Number nearest to the integer
    [n]: its digits up to 2^53; beyond, the fewest digits that read back
    as the same Number, followed by zeros up to 21 digits and in
    exponent form from 1e21 on. *)
Definition string_of_Z (n : Z) : string :=
  let x := nearestNumber (Z.abs n) in
  let sign := if n <? 0 then "-" else "" in
  if 2 ^ 1024 <=? x then sign ++ "Infinity"
  else
    let digits :=
      decimal (if Z.log2 x <? 53 then x
               else shortest x (String.length (decimal x))) in
    if (String.length digits <=? 21)%nat then sign ++ digits
    else
      match stripZeros digits with
      | EmptyString => sign ++ digits
      | String d EmptyString =>
          sign ++ String d "e+"
               ++ decimal (Z.of_nat (String.length digits) - 1)
      | String d rest =>
          sign ++ String d ("." ++ rest) ++ "e+"
               ++ decimal (Z.of_nat (String.length digits) - 1)
      end.

End JSString.
Import JSString.

(* ================================================================== *)
(** ** The regular-expression engine *)

(** [(subject.match(new RegExp(pattern, "g")) || []).length]:
    [None] when the constructor rejects [pattern] with a SyntaxError,
    [Some n] when the pattern compiles and matches [n] times. *)
Definition RegExpEngine : Type := string -> string -> option nat.

Module Pattern.

Fixpoint mem (c : ascii) (s : string) : bool :=
  match s with
  | EmptyString => false
  | String c' s' => Ascii.eqb c c' || mem c s'
  end.

(** The syntax characters of a pattern. *)
Definition syntax_chars : string := "^$\.*+?()[]{}|".

Fixpoint plain (p : string) : bool :=
  match p with
  | EmptyString => true
  | String c p' => negb (mem c syntax_chars) && plain p'
  end.

(** A pattern that opens a group and can never close it: it has a [(],
    no [)], and neither [\[] nor a backslash that could make the [(] a
    literal one. *)
Definition unterminated_group (p : string) : bool :=
  mem "("%char p && negb (mem ")"%char p)
  && negb (mem "["%char p) && negb (mem "\"%char p).

(** What is assumed of an engine where a statement needs it. *)
Definition rejects_unterminated_groups (regexp : RegExpEngine) : Prop :=
  forall p s, unterminated_group p = true -> regexp p s = None.

Definition counts_plain_patterns (regexp : RegExpEngine) : Prop :=
  forall p s, plain p = true -> p <> EmptyString ->
              regexp p s = Some (count_occurrences p s).

(** An engine for the two kinds of pattern above; a pattern that uses
    other syntax is counted like a plain one, which the runtime does not
    do. It instantiates statements that assume
    [rejects_unterminated_groups] or [counts_plain_patterns]. *)
Definition fragment_engine : RegExpEngine :=
  fun p s =>
    if unterminated_group p then None else Some (count_occurrences p s).

End Pattern.

(* ================================================================== *)
(** ** Values of type [any] *)

(** [VNum n] is the Number nearest to the integer [n] (numbers with a
    fraction are left out); an object keeps its fields in order, its keys
    are distinct and a lookup takes the first field of a key. *)
#[warnings="-register-all"] Inductive value : Type :=
| VUndef
| VNull
| VBool (b : bool)
| VNum (n : Z)
| VStr (s : string)
| VArr (elems : list value)
| VObj (fields : list (string * value)).

Module JS.

Fixpoint assoc (k : string) (fields : list (string * value)) : value :=
  match fields with
  | [] => VUndef
  | (k', v) :: rest => if String.eqb k k' then v else assoc k rest
  end.

(** [v.k]. The keys the adapters read (title, name, text, ...) are own
    properties of objects only: on a string, number, boolean or array
    they are undefined. *)
Definition prop (v : value) (k : string) : Result value :=
  match v with
  | VUndef | VNull => Throw TypeError
  | VObj fields => Ok (assoc k fields)
  | _ => Ok VUndef
  end.

(** [v?.k] *)
Definition optprop (v : value) (k : string) : Result value :=
  match v with
  | VUndef | VNull => Ok VUndef
  | _ => prop v k
  end.

Definition truthy (v : value) : bool :=
  match v with
  | VUndef | VNull => false
  | VBool b => b
  | VNum n => negb (n =? 0)
  | VStr s => negb (String.eqb s "")
  | VArr _ | VObj _ => true
  end.

(** [a || b] *)
Definition or (a b : value) : value := if truthy a then a else b.

(** [v.map(f)]: only an array has a callable [map]. *)
Definition map (v : value) (f : value -> Result value) : Result value :=
  match v with
  | VArr elems => l <- mapM f elems ;; Ok (VArr l)
  | _ => Throw TypeError
  end.

(** [v?.map(f)] *)
Definition optmap (v : value) (f : value -> Result value) : Result value :=
  match v with
  | VUndef | VNull => Ok VUndef
  | _ => map v f
  end.

(** [v.toLowerCase()] *)
Definition toLowerCase (v : value) : Result string :=
  match v with
  | VStr s => Ok (JSString.toLowerCase s)
  | _ => Throw TypeError
  end.

(** [for (const x of v)]: an array yields its elements, a string its
    characters, nothing else the adapters meet is iterable. *)
Definition iterate (v : value) : Result (list value) :=
  match v with
  | VArr elems => Ok elems
  | VStr s => Ok (List.map (fun c => VStr (String c EmptyString))
                           (list_ascii_of_string s))
  | _ => Throw TypeError
  end.

(** The receiver of [v.map(f)], [v.filter(f)], ...: only an array has
    these methods. *)
Definition iterate_array (v : value) : Result (list value) :=
  match v with
  | VArr elems => Ok elems
  | _ => Throw TypeError
  end.

Definition isArray (v : value) : bool :=
  match v with VArr _ => true | _ => false end.

(** The string form of a value, where it has one (see [template]). *)
Fixpoint toString (v : value) : string :=
  match v with
  | VUndef => "undefined"
  | VNull => "null"
  | VBool true => "true"
  | VBool false => "false"
  | VNum n => string_of_Z n
  | VStr s => s
  | VArr elems =>
      (fix join (l : list value) : string :=
         match l with
         | [] => ""
         | x :: xs =>
             let sx := match x with
                       | VUndef | VNull => ""
                       | _ => toString x
                       end in
             match xs with
             | [] => sx
             | _ :: _ => (sx ++ "," ++ join xs)%string
             end
         end) elems
  | VObj _ => "[object Object]"
  end.

(** [`${v}`] as the runtime does it: an object with a field [toString]
    (which JSON cannot make callable) has no string form and the
    conversion raises; an array joins the forms of its elements. Away
    from such objects it is [toString]. *)
Fixpoint template (v : value) : Result string :=
  match v with
  | VArr elems =>
      (fix join (l : list value) : Result string :=
         match l with
         | [] => Ok ""%string
         | x :: xs =>
             sx <- match x with
                   | VUndef | VNull => Ok ""%string
                   | _ => template x
                   end ;;
             match xs with
             | [] => Ok sx
             | _ :: _ => rest <- join xs ;; Ok (sx ++ "," ++ rest)%string
             end
         end) elems
  | VObj fields =>
      if existsb (fun f => String.eqb (fst f) "toString") fields
      then Throw TypeError
      else Ok "[object Object]"%string
  | _ => Ok (toString v)
  end.

(** [l.slice(0, end)] *)
Definition slice0 {A} (end_ : Z) (l : list A) : list A :=
  let len := Z.of_nat (List.length l) in
  let k := if end_ <? 0 then Z.max (len + end_) 0 else Z.min end_ len in
  firstn (Z.to_nat k) l.

End JS.

(* ================================================================== *)
(** ** Relevance scoring utilities *)

Section Scorer.

Variable regexp : RegExpEngine.

(** [query.toLowerCase().split(/\s+/).filter((term) => term.length > 2)] *)
Definition queryTerms (query : string) : list string :=
  filter (fun term => (2 <? String.length term)%nat)
         (split_ws (toLowerCase query)).

(** The loop over [queryTerms]; the state is [(score, matchedTerms)]. *)
Fixpoint termLoop (lowerText : string) (terms : list string)
         (st : Z * nat) : Result (Z * nat) :=
  match terms with
  | [] => Ok st
  | term :: rest =>
      if includes term lowerText then
        match regexp term lowerText with
        | None => Throw SyntaxError
        | Some occurrences =>
            termLoop lowerText rest
                     (fst st + Z.of_nat (Nat.min occurrences 3), S (snd st))
        end
      else termLoop lowerText rest st
  end.

Definition calculateRelevanceScore (text query : string) : Result Z :=
  if String.eqb text "" || String.eqb query "" then Ok 0
  else
    let lowerText := toLowerCase text in
    let terms := queryTerms query in
    if (List.length terms =? 0)%nat then Ok 0
    else
      let score := if includes (toLowerCase query) lowerText then 10 else 0 in
      st <- termLoop lowerText terms (score, O) ;;
      Ok (if (snd st =? List.length terms)%nat then fst st + 5 else fst st).

(** [calculateRelevanceScore] as its callers use it, on a field of type
    [any]: a falsy text (or an empty query) returns 0 before anything is
    called on the text; any other text that is not a string has no
    [toLowerCase]. *)
Definition calculateRelevanceScore_any (text : value) (query : string)
  : Result Z :=
  if negb (JS.truthy text) || String.eqb query "" then Ok 0
  else match text with
       | VStr s => calculateRelevanceScore s query
       | _ => Throw TypeError
       end.

(** [if (field) score += calculateRelevanceScore(field, query) * weight] *)
Definition weighted (field : value) (query : string) (weight : Q)
           (score : Q) : Result Q :=
  if JS.truthy field then
    n <- calculateRelevanceScore_any field query ;;
    Ok (score + inject_Z n * weight)%Q
  else Ok score.

(** [(typeof subject === "string" ? subject : subject.name || "")
     .toLowerCase()] *)
Definition subjectName (subject : value) : Result string :=
  match subject with
  | VStr _ => JS.toLowerCase subject
  | _ => name <- JS.prop subject "name" ;;
         JS.toLowerCase (JS.or name (VStr ""))
  end.

(** The loop over [bill.subjects]; the inner loop stops at the first
    term a subject contains. *)
Fixpoint subjectLoop (subjects : list value) (terms : list string)
         (score : Q) : Result Q :=
  match subjects with
  | [] => Ok score
  | subject :: rest =>
      name <- subjectName subject ;;
      subjectLoop rest terms
        (if existsb (fun term => includes term name) terms
         then (score + 20)%Q else score)
  end.

Definition scoreBillRelevance (bill : value) (query : string) : Result Q :=
  let score := 0%Q in
  let terms := queryTerms query in
  title <- JS.prop bill "title" ;;
  score <- weighted title query 4 score ;;
  shortTitle <- JS.prop bill "shortTitle" ;;
  score <- weighted shortTitle query 4 score ;;
  summary <- JS.prop bill "summary" ;;
  summaryText <- JS.optprop summary "text" ;;
  score <- weighted summaryText query 2 score ;;
  latestAction <- JS.prop bill "latestAction" ;;
  actionText <- JS.optprop latestAction "text" ;;
  score <- weighted actionText query (3 # 2) score ;;
  subjects <- JS.prop bill "subjects" ;;
  if JS.truthy subjects && (0 <? List.length terms)%nat then
    items <- JS.iterate subjects ;;
    subjectLoop items terms score
  else Ok score.

(** The loop over [doc.agency_names]. *)
Fixpoint agencyLoop (agencies : list value) (terms : list string)
         (score : Q) : Result Q :=
  match agencies with
  | [] => Ok score
  | agency :: rest =>
      agencyLower <- JS.toLowerCase agency ;;
      agencyLoop rest terms
        (if existsb (fun term => includes term agencyLower) terms
         then (score + 10)%Q else score)
  end.

Definition scoreDocumentRelevance (doc : value) (query : string)
  : Result Q :=
  let score := 0%Q in
  title <- JS.prop doc "title" ;;
  score <- weighted title query 3 score ;;
  abstract <- JS.prop doc "abstract" ;;
  score <- weighted abstract query 2 score ;;
  agency_names <- JS.prop doc "agency_names" ;;
  if JS.truthy agency_names && JS.isArray agency_names then
    items <- JS.iterate agency_names ;;
    agencyLoop items (queryTerms query) score
  else Ok score.

End Scorer.

(* ================================================================== *)
(** ** Requests to the upstream services *)

Module Axios.

Record Request : Type := mkRequest {
  url : string;
  params : list (string * string);
  headers : list (string * string);
  timeout : option Z
}.

Record Response : Type := mkResponse {
  status : Z;
  statusText : string;
  data : value
}.

(** What the network does with a request: no response at all (with the
    code of the transport error: ETIMEDOUT, ECONNABORTED, ECONNREFUSED,
    ...) or a response. *)
Inductive Upstream : Type :=
| NetworkError (code : string)
| HttpResponse (r : Response).

Definition World : Type := Request -> Upstream.

(** The default [validateStatus] of axios. *)
Definition validateStatus (status : Z) : bool :=
  (200 <=? status) && (status <? 300).

End Axios.

(** A computation that sends requests: it reads the world and appends the
    requests it sends to a log. *)
Definition IO (A : Type) : Type :=
  Axios.World -> list Axios.Request -> Result A * list Axios.Request.

Definition ioret {A} (a : A) : IO A := fun _ log => (Ok a, log).

Definition iobind {A B} (m : IO A) (k : A -> IO B) : IO B :=
  fun w log =>
    match m w log with
    | (Ok a, log') => k a w log'
    | (Throw e, log') => (Throw e, log')
    end.

Definition lift {A} (r : Result A) : IO A := fun _ log => (r, log).

(** [try { body } catch (error) { handler }] *)
Definition try_catch {A} (body : IO A) (handler : exn -> IO A) : IO A :=
  fun w log =>
    match body w log with
    | (Ok a, log') => (Ok a, log')
    | (Throw e, log') => handler e w log'
    end.

Declare Scope io_scope.
Delimit Scope io_scope with io.
Notation "x <~ m ;; k" := (iobind m (fun x => k))
  (at level 61, m at next level, right associativity) : io_scope.
#[local] Open Scope io_scope.

(** [await axios.get(url, config)]: the promise rejects on a transport
    error and on a status that [validate] refuses. Of the rejection the
    adapters read the transport code and the status only. *)
Definition axios_get (validate : Z -> bool) (req : Axios.Request)
  : IO Axios.Response :=
  fun w log =>
    let log' := log ++ [req] in
    match w req with
    | Axios.NetworkError code => (Throw (AxiosError (Some code) None), log')
    | Axios.HttpResponse r =>
        if validate (Axios.status r) then (Ok r, log')
        else (Throw (AxiosError None (Some (Axios.status r))), log')
    end.

(* ================================================================== *)
(** ** API base URLs *)

Module API_ENDPOINTS.
Definition CONGRESS : string := "https://api.congress.gov/v3".
Definition FEDERAL_REGISTER : string := "https://www.federalregister.gov/api/v1".
Definition US_CODE : string := "https://uscode.house.gov/api".
Definition REGULATIONS_GOV : string := "https://api.regulations.gov/v4".
Definition GPO : string := "https://api.govinfo.gov".
Definition COURT_LISTENER : string := "https://www.courtlistener.com/api/rest/v3".
End API_ENDPOINTS.

(* ================================================================== *)
(** ** Building records and requests *)

(** An object literal [{ k1: e1, k2: e2, ... }], its fields evaluated in
    order. *)
Fixpoint evalFields (fields : list (string * Result value))
  : Result (list (string * value)) :=
  match fields with
  | [] => Ok []
  | (k, e) :: rest => v <- e ;; l <- evalFields rest ;; Ok ((k, v) :: l)
  end.

Definition object (fields : list (string * Result value)) : Result value :=
  l <- evalFields fields ;; Ok (VObj l).

(** [...(s && { k: s })] for a string [s] *)
Definition spread_string (k : string) (s : string) : list (string * string) :=
  if String.eqb s "" then [] else [(k, s)].

(** [...(n && { k: n.toString() })] for an optional number [n] *)
Definition spread_number (k : string) (n : option Z) : list (string * string) :=
  match n with
  | Some n => if n =? 0 then [] else [(k, string_of_Z n)]
  | None => []
  end.

(** [...(s && { k: s })] for an optional string [s] *)
Definition spread_option (k : string) (s : option string)
  : list (string * string) :=
  match s with
  | Some s => spread_string k s
  | None => []
  end.

(** A parameter with a default value, [limit: number = 20]. *)
Definition default (d : Z) (n : option Z) : Z :=
  match n with Some n => n | None => d end.

(** [scored.sort((a, b) => b.relevanceScore - a.relevanceScore)]: the sort is
    stable, so the result is the one permutation in descending order of
    score that keeps candidates of equal score in their upstream order;
    insertion from the right computes it. A scored candidate
    [{ ...candidate, relevanceScore }] is the pair of the score and the
    candidate (no canonical record has a field [relevanceScore]), and
    [({ relevanceScore, ...candidate }) => candidate] is [snd]. *)
Definition Scored : Type := (Q * value)%type.

Fixpoint insert_desc (x : Scored) (sorted : list Scored) : list Scored :=
  match sorted with
  | [] => [x]
  | y :: rest =>
      if Qle_bool (fst y) (fst x) then x :: sorted
      else y :: insert_desc x rest
  end.

Definition sort_desc (l : list Scored) : list Scored :=
  fold_right insert_desc [] l.

(** [relevanceScore >= 5] *)
Definition highRelevance (c : Scored) : bool := Qle_bool 5 (fst c).

(* ================================================================== *)
(** ** Congress.gov API functions *)

Module CongressAPI.

Definition sponsor (s : value) : Result value :=
  object [ ("bioguideId", JS.prop s "bioguideId");
           ("firstName", JS.prop s "firstName");
           ("lastName", JS.prop s "lastName");
           ("party", JS.prop s "party");
           ("state", JS.prop s "state") ].

(** The object literal the three bill methods share; they differ in the
    callback that maps a subject. *)
Definition billRecord (subject : value -> Result value) (bill : value)
  : Result value :=
  object [ ("congress", JS.prop bill "congress");
           ("type", JS.prop bill "type");
           ("number", JS.prop bill "number");
           ("title", JS.prop bill "title");
           ("shortTitle", JS.prop bill "shortTitle");
           ("summary", summary <- JS.prop bill "summary" ;;
                       JS.optprop summary "text");
           ("url", JS.prop bill "url");
           ("introducedDate", JS.prop bill "introducedDate");
           ("latestAction",
              latestAction <- JS.prop bill "latestAction" ;;
              if JS.truthy latestAction
              then object [ ("actionDate", JS.prop latestAction "actionDate");
                            ("text", JS.prop latestAction "text") ]
              else Ok VUndef);
           ("subjects", subjects <- JS.prop bill "subjects" ;;
                        JS.optmap subjects subject);
           ("sponsors", sponsors <- JS.prop bill "sponsors" ;;
                        JS.optmap sponsors sponsor) ].

(** [(s) => s.name || s] *)
Definition subjectNameOrSelf (s : value) : Result value :=
  name <- JS.prop s "name" ;; Ok (JS.or name s).

(** [(s) => s.name] *)
Definition subjectNameOnly (s : value) : Result value := JS.prop s "name".

(** The argument of the diagnostic written for the first five scored
    bills; of it only [b.title.substring(0, 40)] can fail, when a title is
    not a string. *)
Definition logTopScores (scoredBills : list Scored) : Result unit :=
  _ <- mapM (fun b : Scored =>
               title <- JS.prop (snd b) "title" ;;
               match title with
               | VStr _ => Ok tt
               | _ => Throw TypeError
               end)
            (JS.slice0 5 scoredBills) ;;
  Ok tt.

Section Methods.

Variable regexp : RegExpEngine.
Variable apiKey : string.

(** The request of [searchBills], for the limit in force. *)
Definition searchBillsRequest (query : string) (congress : option Z)
           (limit : Z) : Axios.Request :=
  let fetchLimit := Z.min (limit * 5) 250 in
  let params := [ ("q", query);
                  ("limit", string_of_Z fetchLimit);
                  ("format", "json") ]
                ++ spread_string "api_key" apiKey
                ++ spread_number "congress" congress in
  Axios.mkRequest (API_ENDPOINTS.CONGRESS ++ "/bill") params [] None.

(** What [searchBills] does with [response.data]. *)
Definition rankBills (query : string) (limit : Z) (data : value)
  : Result value :=
  rawBills <- JS.prop data "bills" ;;
  bills <- JS.iterate_array (JS.or rawBills (VArr [])) ;;
  bills <- mapM (billRecord subjectNameOrSelf) bills ;;
  scoredBills <- mapM (fun bill =>
                         relevanceScore <- scoreBillRelevance regexp bill query ;;
                         Ok (relevanceScore, bill)) bills ;;
  let scoredBills := sort_desc scoredBills in
  _ <- (if (0 <? List.length scoredBills)%nat
        then logTopScores scoredBills else Ok tt) ;;
  let highRelevanceBills := filter highRelevance scoredBills in
  if limit <=? Z.of_nat (List.length highRelevanceBills) then
    Ok (VArr (List.map snd (JS.slice0 limit highRelevanceBills)))
  else if (0 <? List.length scoredBills)%nat then
    Ok (VArr (List.map snd (JS.slice0 limit scoredBills)))
  else Ok (VArr []).

Definition searchBills (query : string) (congress : option Z)
           (limit : option Z) : IO value :=
  let limit := default 20 limit in
  try_catch
    (response <~ axios_get Axios.validateStatus
                   (searchBillsRequest query congress limit) ;;
     lift (rankBills query limit (Axios.data response)))
    (fun _ => ioret (VArr [])).

Definition getBillDetails (congress : Z) (billType : string)
           (billNumber : Z) : IO value :=
  try_catch
    (let params := [ ("format", "json") ]
                   ++ spread_string "api_key" apiKey in
     response <~ axios_get Axios.validateStatus
                   (Axios.mkRequest
                      (API_ENDPOINTS.CONGRESS ++ "/bill/"
                         ++ string_of_Z congress ++ "/" ++ billType ++ "/"
                         ++ string_of_Z billNumber)
                      params [] None) ;;
     lift (
       bill <- JS.prop (Axios.data response) "bill" ;;
       billRecord subjectNameOnly bill))
    (fun _ => ioret VNull).

Definition getRecentBills (congress : option Z) (limit : option Z)
  : IO value :=
  let limit := default 20 limit in
  try_catch
    (let params := [ ("limit", string_of_Z limit);
                     ("format", "json") ]
                   ++ spread_string "api_key" apiKey
                   ++ spread_number "congress" congress in
     response <~ axios_get Axios.validateStatus
                   (Axios.mkRequest (API_ENDPOINTS.CONGRESS ++ "/bill")
                                    params [] None) ;;
     lift (
       rawBills <- JS.prop (Axios.data response) "bills" ;;
       bills <- JS.optmap rawBills (billRecord subjectNameOnly) ;;
       Ok (JS.or bills (VArr []))))
    (fun _ => ioret (VArr [])).

Definition member (m : value) : Result value :=
  object [ ("member",
              object [ ("bioguideId", who <- JS.prop m "member" ;;
                                      JS.optprop who "bioguideId");
                       ("firstName", who <- JS.prop m "member" ;;
                                     JS.optprop who "firstName");
                       ("lastName", who <- JS.prop m "member" ;;
                                    JS.optprop who "lastName");
                       ("party", who <- JS.prop m "member" ;;
                                 JS.optprop who "party");
                       ("state", who <- JS.prop m "member" ;;
                                 JS.optprop who "state") ]);
           ("votePosition", JS.prop m "votePosition") ].

Definition voteRecord (vote : value) : Result value :=
  object [ ("rollNumber", JS.prop vote "rollNumber");
           ("url", JS.prop vote "url");
           ("voteDate", JS.prop vote "voteDate");
           ("voteQuestion", JS.prop vote "voteQuestion");
           ("voteResult", JS.prop vote "voteResult");
           ("voteTitle", JS.prop vote "voteTitle");
           ("voteType", JS.prop vote "voteType");
           ("chamber", JS.prop vote "chamber");
           ("congress", JS.prop vote "congress");
           ("session", JS.prop vote "session");
           ("members", members <- JS.prop vote "members" ;;
                       JS.optmap members member) ].

Definition searchVotes (congress : option Z) (chamber : option string)
           (limit : option Z) : IO value :=
  let limit := default 20 limit in
  try_catch
    (let params := [ ("limit", string_of_Z limit);
                     ("format", "json") ]
                   ++ spread_string "api_key" apiKey
                   ++ spread_number "congress" congress
                   ++ spread_option "chamber" chamber in
     response <~ axios_get Axios.validateStatus
                   (Axios.mkRequest (API_ENDPOINTS.CONGRESS ++ "/vote")
                                    params [] None) ;;
     lift (
       rawVotes <- JS.prop (Axios.data response) "votes" ;;
       votes <- JS.optmap rawVotes voteRecord ;;
       Ok (JS.or votes (VArr []))))
    (fun _ => ioret (VArr [])).

Definition subcommittee (sub : value) : Result value :=
  object [ ("systemCode", JS.prop sub "systemCode");
           ("name", JS.prop sub "name");
           ("url", JS.prop sub "url") ].

Definition committeeRecord (committee : value) : Result value :=
  object [ ("systemCode", JS.prop committee "systemCode");
           ("name", JS.prop committee "name");
           ("url", JS.prop committee "url");
           ("chamber", JS.prop committee "chamber");
           ("committeeType", JS.prop committee "committeeType");
           ("subcommittees",
              subcommittees <- JS.prop committee "subcommittees" ;;
              JS.optmap subcommittees subcommittee) ].

Definition getCommittees (congress : option Z) (chamber : option string)
  : IO value :=
  try_catch
    (let params := [ ("format", "json") ]
                   ++ spread_string "api_key" apiKey
                   ++ spread_number "congress" congress
                   ++ spread_option "chamber" chamber in
     response <~ axios_get Axios.validateStatus
                   (Axios.mkRequest (API_ENDPOINTS.CONGRESS ++ "/committee")
                                    params [] None) ;;
     lift (
       rawCommittees <- JS.prop (Axios.data response) "committees" ;;
       committees <- JS.optmap rawCommittees committeeRecord ;;
       Ok (JS.or committees (VArr []))))
    (fun _ => ioret (VArr [])).

End Methods.

End CongressAPI.

(* ================================================================== *)
(** ** Federal Register API functions *)

Module FederalRegisterAPI.

(** The fields every document method copies; [getDocumentDetails] adds
    [sections]. *)
Definition documentFields (doc : value) : list (string * Result value) :=
  [ ("document_number", JS.prop doc "document_number");
    ("title", JS.prop doc "title");
    ("abstract", JS.prop doc "abstract");
    ("publication_date", JS.prop doc "publication_date");
    ("effective_date", JS.prop doc "effective_date");
    ("agency_names", JS.prop doc "agency_names");
    ("document_type", JS.prop doc "document_type");
    ("pdf_url", JS.prop doc "pdf_url");
    ("html_url", JS.prop doc "html_url");
    ("json_url", JS.prop doc "json_url") ].

Definition documentRecord (doc : value) : Result value :=
  object (documentFields doc).

Definition section (s : value) : Result value :=
  object [ ("title", JS.prop s "title");
           ("content", JS.prop s "content") ].

Section Methods.

Variable regexp : RegExpEngine.

(** The request of [searchDocuments], for the limit in force. *)
Definition searchDocumentsRequest (query : string) (limit : Z)
  : Axios.Request :=
  let fetchLimit := Z.min (limit * 3) 100 in
  let params := [ ("q", query);
                  ("per_page", string_of_Z fetchLimit);
                  ("order", "relevance") ] in
  Axios.mkRequest (API_ENDPOINTS.FEDERAL_REGISTER ++ "/documents")
                  params [] None.

(** What [searchDocuments] does with [response.data]. *)
Definition rankDocuments (query : string) (limit : Z) (data : value)
  : Result value :=
  results <- JS.prop data "results" ;;
  documents <- JS.iterate_array (JS.or results (VArr [])) ;;
  documents <- mapM documentRecord documents ;;
  scoredDocs <- mapM (fun doc =>
                        relevanceScore <- scoreDocumentRelevance regexp doc query ;;
                        Ok (relevanceScore, doc)) documents ;;
  let scoredDocs := sort_desc scoredDocs in
  let relevantDocs :=
    List.map snd (JS.slice0 limit (filter highRelevance scoredDocs)) in
  if (Z.of_nat (List.length relevantDocs) <? limit)
     && (0 <? List.length scoredDocs)%nat then
    Ok (VArr (List.map snd (JS.slice0 limit scoredDocs)))
  else Ok (VArr relevantDocs).

Definition searchDocuments (query : string) (limit : option Z)
  : IO value :=
  let limit := default 20 limit in
  try_catch
    (response <~ axios_get Axios.validateStatus
                   (searchDocumentsRequest query limit) ;;
     lift (rankDocuments query limit (Axios.data response)))
    (fun _ => ioret (VArr [])).

Definition getRecentDocuments (limit : option Z) : IO value :=
  let limit := default 20 limit in
  try_catch
    (let params := [ ("per_page", string_of_Z limit);
                     ("order", "newest") ] in
     response <~ axios_get Axios.validateStatus
                   (Axios.mkRequest
                      (API_ENDPOINTS.FEDERAL_REGISTER ++ "/documents")
                      params [] None) ;;
     lift (
       results <- JS.prop (Axios.data response) "results" ;;
       documents <- JS.optmap results documentRecord ;;
       Ok (JS.or documents (VArr []))))
    (fun _ => ioret (VArr [])).

Definition getDocumentDetails (documentNumber : string) : IO value :=
  try_catch
    (response <~ axios_get Axios.validateStatus
                   (Axios.mkRequest
                      (API_ENDPOINTS.FEDERAL_REGISTER ++ "/documents/"
                         ++ documentNumber ++ ".json")
                      [] [] None) ;;
     lift (
       let doc := Axios.data response in
       object (documentFields doc
               ++ [ ("sections", sections <- JS.prop doc "sections" ;;
                                 JS.optmap sections section) ])))
    (fun _ => ioret VNull).

End Methods.

End FederalRegisterAPI.

(* ================================================================== *)
(** ** US Code API functions *)

Module USCodeAPI.

Definition sectionRecord (section : value) : Result value :=
  object [ ("title", JS.prop section "title");
           ("section", JS.prop section "section");
           ("text", JS.prop section "text");
           ("url", JS.prop section "url");
           ("last_updated", JS.prop section "last_updated");
           ("source", JS.prop section "source") ].

(** [validateStatus: (status) => status < 500] *)
Definition validateStatus (status : Z) : bool := status <? 500.

(** The request of [searchCode], for the limit in force. *)
Definition searchCodeRequest (query : string) (title : option Z)
           (limit : Z) : Axios.Request :=
  let params := [ ("q", query);
                  ("limit", string_of_Z limit) ]
                ++ spread_number "title" title in
  Axios.mkRequest (API_ENDPOINTS.US_CODE ++ "/search") params []
                  (Some 30000).

Definition searchCode (query : string) (title : option Z)
           (limit : option Z) : IO value :=
  let limit := default 20 limit in
  try_catch
    (response <~ axios_get validateStatus
                   (searchCodeRequest query title limit) ;;
     if 400 <=? Axios.status response then ioret (VArr [])
     else
       lift (
         results <- JS.prop (Axios.data response) "results" ;;
         sections <- JS.optmap results sectionRecord ;;
         Ok (JS.or sections (VArr []))))
    (fun _ => ioret (VArr [])).

Definition getSection (title : Z) (section : string) : IO value :=
  try_catch
    (response <~ axios_get Axios.validateStatus
                   (Axios.mkRequest
                      (API_ENDPOINTS.US_CODE ++ "/title/" ++ string_of_Z title
                         ++ "/section/" ++ section)
                      [] [] None) ;;
     lift (sectionRecord (Axios.data response)))
    (fun _ => ioret VNull).

End USCodeAPI.

(* ================================================================== *)
(** ** CourtListener API functions *)

Module CourtListenerAPI.

(** [opinion.a || opinion.b] *)
Definition either (opinion : value) (a b : string) : Result value :=
  x <- JS.prop opinion a ;;
  if JS.truthy x then Ok x else JS.prop opinion b.

(** [`https://www.courtlistener.com/opinion/${id}/`] *)
Definition synthesizedUrl (id : value) : Result value :=
  text <- JS.template id ;;
  Ok (VStr ("https://www.courtlistener.com/opinion/" ++ text ++ "/")).

Definition absoluteUrl (opinion : value) : Result value :=
  explicit <- either opinion "absoluteUrl" "absolute_url" ;;
  if JS.truthy explicit then Ok explicit
  else
    id <- JS.prop opinion "id" ;;
    if JS.truthy id then synthesizedUrl id else Ok VUndef.

(** The record [searchOpinions] and [getRecentOpinions] build. *)
Definition opinionRecord (opinion : value) : Result value :=
  absoluteUrl <- absoluteUrl opinion ;;
  object [ ("id", JS.prop opinion "id");
           ("case_name", either opinion "caseName" "case_name");
           ("case_name_full", either opinion "caseNameFull" "case_name_full");
           ("date_filed", either opinion "dateFiled" "date_filed");
           ("date_modified", either opinion "dateModified" "date_modified");
           ("court", either opinion "court" "court_name");
           ("court_id", either opinion "courtId" "court_id");
           ("jurisdiction", JS.prop opinion "jurisdiction");
           ("citation", JS.prop opinion "citation");
           ("citation_count", either opinion "citationCount" "citation_count");
           ("precedential_status",
              either opinion "precedentialStatus" "precedential_status");
           ("url", Ok absoluteUrl);
           ("absolute_url", Ok absoluteUrl);
           ("download_url", either opinion "downloadUrl" "download_url");
           ("plain_text", either opinion "plainText" "plain_text");
           ("html", JS.prop opinion "html");
           ("html_lawbox", either opinion "htmlLawbox" "html_lawbox");
           ("html_columbia", either opinion "htmlColumbia" "html_columbia");
           ("html_anon_2020", either opinion "htmlAnon2020" "html_anon_2020");
           ("judges", JS.prop opinion "judges");
           ("docket", JS.prop opinion "docket");
           ("docket_number", either opinion "docketNumber" "docket_number");
           ("slug", JS.prop opinion "slug") ].

(** The record [getOpinion] builds, from the first naming convention
    alone. *)
Definition opinionDetails (opinion : value) : Result value :=
  object [ ("id", JS.prop opinion "id");
           ("case_name", JS.prop opinion "caseName");
           ("case_name_full", JS.prop opinion "caseNameFull");
           ("date_filed", JS.prop opinion "dateFiled");
           ("date_modified", JS.prop opinion "dateModified");
           ("court", JS.prop opinion "court");
           ("court_id", JS.prop opinion "courtId");
           ("jurisdiction", JS.prop opinion "jurisdiction");
           ("citation", JS.prop opinion "citation");
           ("citation_count", JS.prop opinion "citationCount");
           ("precedential_status", JS.prop opinion "precedentialStatus");
           ("url", JS.prop opinion "absoluteUrl");
           ("absolute_url", JS.prop opinion "absoluteUrl");
           ("download_url", JS.prop opinion "downloadUrl");
           ("plain_text", JS.prop opinion "plainText");
           ("html", JS.prop opinion "html");
           ("html_lawbox", JS.prop opinion "htmlLawbox");
           ("html_columbia", JS.prop opinion "htmlColumbia");
           ("html_anon_2020", JS.prop opinion "htmlAnon2020");
           ("judges", JS.prop opinion "judges");
           ("docket", JS.prop opinion "docket");
           ("docket_number", JS.prop opinion "docketNumber");
           ("slug", JS.prop opinion "slug") ].

Section Methods.

(** [apiKey || process.env.COURT_LISTENER_API_KEY], possibly
    undefined. *)
Variable apiKey : option string.

(** [if (this.apiKey) headers["Authorization"] = `Token ${this.apiKey}`] *)
Definition authorization : list (string * string) :=
  match apiKey with
  | Some k => if String.eqb k "" then []
              else [ ("Authorization", ("Token " ++ k)%string) ]
  | None => []
  end.

Definition searchOpinions (query : string) (court : option string)
           (limit : option Z) : IO value :=
  let limit := default 20 limit in
  try_catch
    (let params := [ ("q", query);
                     ("type", "o");
                     ("page_size", string_of_Z limit);
                     ("ordering", "-date_filed") ]
                   ++ spread_option "court" court in
     let headers := [ ("Accept", "application/json") ] ++ authorization in
     response <~ axios_get Axios.validateStatus
                   (Axios.mkRequest
                      (API_ENDPOINTS.COURT_LISTENER ++ "/search/")
                      params headers None) ;;
     lift (
       results <- JS.prop (Axios.data response) "results" ;;
       opinions <- JS.optmap results opinionRecord ;;
       Ok (JS.or opinions (VArr []))))
    (fun _ => ioret (VArr [])).

Definition getRecentOpinions (court : option string) (limit : option Z)
  : IO value :=
  let limit := default 20 limit in
  try_catch
    (let params := [ ("type", "o");
                     ("page_size", string_of_Z limit);
                     ("ordering", "-date_filed") ]
                   ++ spread_option "court" court in
     let headers := [ ("Accept", "application/json") ] ++ authorization in
     response <~ axios_get Axios.validateStatus
                   (Axios.mkRequest
                      (API_ENDPOINTS.COURT_LISTENER ++ "/search/")
                      params headers None) ;;
     lift (
       results <- JS.prop (Axios.data response) "results" ;;
       opinions <- JS.optmap results opinionRecord ;;
       Ok (JS.or opinions (VArr []))))
    (fun _ => ioret (VArr [])).

Definition getOpinion (opinionId : Z) : IO value :=
  try_catch
    (let headers := authorization in
     response <~ axios_get Axios.validateStatus
                   (Axios.mkRequest
                      (API_ENDPOINTS.COURT_LISTENER ++ "/search/"
                         ++ string_of_Z opinionId ++ "/")
                      [] headers None) ;;
     lift (opinionDetails (Axios.data response)))
    (fun _ => ioret VNull).

End Methods.

End CourtListenerAPI.

(* ================================================================== *)
(** ** Regulations.gov API functions *)

Module RegulationsGovAPI.

Definition commentRecord (comment : value) : Result value :=
  object [ ("id", JS.prop comment "id");
           ("comment", attributes <- JS.prop comment "attributes" ;;
                       JS.prop attributes "comment");
           ("posted_date", attributes <- JS.prop comment "attributes" ;;
                           JS.prop attributes "postedDate");
           ("agency_id", attributes <- JS.prop comment "attributes" ;;
                         JS.prop attributes "agencyId");
           ("document_id", attributes <- JS.prop comment "attributes" ;;
                           JS.prop attributes "documentId");
           ("submitter_name", attributes <- JS.prop comment "attributes" ;;
                              JS.prop attributes "submitterName");
           ("organization", attributes <- JS.prop comment "attributes" ;;
                            JS.prop attributes "organization") ].

Section Methods.

Variable apiKey : string.

(** The request of [searchComments], for the limit in force. *)
Definition searchCommentsRequest (query : string) (limit : Z)
  : Axios.Request :=
  let params := [ ("q", query);
                  ("page[size]", string_of_Z limit);
                  ("sort", "-postedDate") ]
                ++ spread_string "api_key" apiKey in
  Axios.mkRequest (API_ENDPOINTS.REGULATIONS_GOV ++ "/comments")
                  params [] None.

Definition searchComments (query : string) (limit : option Z)
  : IO value :=
  let limit := default 20 limit in
  try_catch
    (response <~ axios_get Axios.validateStatus
                   (searchCommentsRequest query limit) ;;
     lift (
       rawComments <- JS.prop (Axios.data response) "data" ;;
       comments <- JS.optmap rawComments commentRecord ;;
       Ok (JS.or comments (VArr []))))
    (fun _ => ioret (VArr [])).

End Methods.

End RegulationsGovAPI.

(* ================================================================== *)
(** ** Main US Legal API class *)

Module USLegalAPI.

(** The keys the five adapters were built with. *)
Record t : Type := new {
  congress : string;
  regulationsGov : string;
  courtListener : option string
}.

(** [Math.ceil(limit / 4)] *)
Definition ceil_quarter (limit : Z) : Z := - ((- limit) / 4).

Section Methods.

Variable regexp : RegExpEngine.
Variable this : t.

(** The four searches start in the order of the array given to
    [Promise.all]; each sends its request before it first waits. *)
Definition searchAll (query : string) (limit : option Z) : IO value :=
  let limit := default 20 limit in
  bills <~ CongressAPI.searchBills regexp (congress this) query None
             (Some (ceil_quarter limit)) ;;
  regulations <~ FederalRegisterAPI.searchDocuments regexp query
                   (Some (ceil_quarter limit)) ;;
  codeSections <~ USCodeAPI.searchCode query None
                    (Some (ceil_quarter limit)) ;;
  comments <~ RegulationsGovAPI.searchComments (regulationsGov this) query
                (Some (ceil_quarter limit)) ;;
  ioret (VObj [ ("bills", bills);
                ("regulations", regulations);
                ("codeSections", codeSections);
                ("comments", comments) ]).

End Methods.

End USLegalAPI.


(* ================================================================== *)
(** ** The tool handler *)

Module Handler.

(** The line feed and the double quote of the rendered texts. *)
Definition nl : string := String "010"%char EmptyString.
Definition dq : string := String "034"%char EmptyString.

Definition cat (pieces : list string) : string := String.concat "" pieces.

(** [v?.[0]] *)
Definition optfirst (v : value) : value :=
  match v with
  | VArr (x :: _) => x
  | VStr (String c _) => VStr (String c EmptyString)
  | VObj fields => JS.assoc "0" fields
  | _ => VUndef
  end.

(** [`${index + 1}`] *)
Definition ordinal (index : nat) : string := string_of_Z (Z.of_nat index + 1).

(** [list.map((x, index) => line(x, index))] from [index] on *)
Fixpoint mapLines (line : value -> nat -> Result string) (index : nat)
         (l : list value) : Result (list string) :=
  match l with
  | [] => Ok []
  | x :: xs =>
      s <- line x index ;;
      rest <- mapLines line (S index) xs ;;
      Ok (s :: rest)
  end.

(** [list.map(line).join("\n")] *)
Definition lines (line : value -> nat -> Result string) (l : list value)
  : Result string :=
  ls <- mapLines line O l ;; Ok (String.concat nl ls).

(** The field [k] of a record, as a template shows it. *)
Definition shown (record : value) (k : string) : Result string :=
  v <- JS.prop record k ;; JS.template v.

(** [`${record.k || fallback}`] *)
Definition shownOr (record : value) (k : string) (fallback : string)
  : Result string :=
  v <- JS.prop record k ;; JS.template (JS.or v (VStr fallback)).

Definition billLine (bill : value) (index : nat) : Result string :=
  title <- shown bill "title" ;;
  type <- shown bill "type" ;;
  number <- shown bill "number" ;;
  status <- (latestAction <- JS.prop bill "latestAction" ;;
             text <- JS.optprop latestAction "text" ;;
             JS.template (JS.or text (VStr "No status"))) ;;
  url <- shown bill "url" ;;
  Ok (cat [ ordinal index; ". **"; title; "**"; nl;
            "   "; type; " "; number; " - "; status; nl;
            "   "; url; nl ]).

Definition documentLine (doc : value) (index : nat) : Result string :=
  title <- shown doc "title" ;;
  document_number <- shown doc "document_number" ;;
  agency <- (agency_names <- JS.prop doc "agency_names" ;;
             JS.template (JS.or (optfirst agency_names) (VStr "Unknown agency"))) ;;
  html_url <- shown doc "html_url" ;;
  Ok (cat [ ordinal index; ". **"; title; "**"; nl;
            "   "; document_number; " - "; agency; nl;
            "   "; html_url; nl ]).

Definition sectionLine (section : value) (index : nat) : Result string :=
  heading <- shown section "section" ;;
  title <- shown section "title" ;;
  again <- shown section "section" ;;
  url <- shown section "url" ;;
  Ok (cat [ ordinal index; ". **Section "; heading; "**"; nl;
            "   Title "; title; ", Section "; again; nl;
            "   "; url; nl ]).

Definition commentLine (comment : value) (index : nat) : Result string :=
  title <- shown comment "title" ;;
  organization <- shown comment "organization" ;;
  posted_date <- shown comment "posted_date" ;;
  url <- shown comment "url" ;;
  Ok (cat [ ordinal index; ". **"; title; "**"; nl;
            "   "; organization; " - "; posted_date; nl;
            "   "; url; nl ]).

Definition topBillLine (bill : value) (index : nat) : Result string :=
  title <- shown bill "title" ;;
  type <- shown bill "type" ;;
  number <- shown bill "number" ;;
  url <- shown bill "url" ;;
  Ok (cat [ ordinal index; ". **"; title; "** (Bill)"; nl;
            "   "; type; " "; number; nl;
            "   "; url; nl ]).

Definition topRegulationLine (doc : value) (index : nat) : Result string :=
  title <- shown doc "title" ;;
  document_number <- shown doc "document_number" ;;
  html_url <- shown doc "html_url" ;;
  Ok (cat [ ordinal index; ". **"; title; "** (Regulation)"; nl;
            "   "; document_number; nl;
            "   "; html_url; nl ]).

Definition opinionLine (opinion : value) (index : nat) : Result string :=
  case_name <- shown opinion "case_name" ;;
  court <- shown opinion "court" ;;
  date_filed <- shown opinion "date_filed" ;;
  precedential_status <- shown opinion "precedential_status" ;;
  url <- shown opinion "url" ;;
  Ok (cat [ ordinal index; ". **"; case_name; "**"; nl;
            "   Court: "; court; " - "; date_filed; nl;
            "   "; precedential_status; nl;
            "   "; url; nl ]).

Definition voteLine (vote : value) (index : nat) : Result string :=
  voteTitle <- shown vote "voteTitle" ;;
  chamber <- shown vote "chamber" ;;
  voteDate <- shown vote "voteDate" ;;
  voteResult <- shown vote "voteResult" ;;
  url <- shown vote "url" ;;
  Ok (cat [ ordinal index; ". **"; voteTitle; "**"; nl;
            "   "; chamber; " - "; voteDate; nl;
            "   Result: "; voteResult; nl;
            "   "; url; nl ]).

Definition committeeLine (committee : value) (index : nat) : Result string :=
  name <- shown committee "name" ;;
  chamber <- shownOr committee "chamber" "N/A" ;;
  committeeType <- shownOr committee "committeeType" "N/A" ;;
  url <- shown committee "url" ;;
  Ok (cat [ ordinal index; ". **"; name; "**"; nl;
            "   "; chamber; " - "; committeeType; nl;
            "   "; url; nl ]).

(** [`Found ${list.length} result(s)\n\n`] *)
Definition found (l : list value) : string :=
  cat [ "Found "; string_of_Z (Z.of_nat (List.length l)); " result(s)"; nl; nl ].

(** The arguments of a call when it has some, as the handler's type
    assertions declare them. *)
Record ToolArguments : Type := mkToolArguments {
  query : string;
  congress : option Z;
  title : option Z;
  court : option string;
  chamber : option string;
  limit : option Z
}.

(** [{ content: [{ type: "text", text }] }] *)
Definition textResult (text : string) : value :=
  VObj [ ("content", VArr [ VObj [ ("type", VStr "text");
                                   ("text", VStr text) ] ]) ].

(** [`${congress || 118}`] *)
Definition congressOr118 (congress : option Z) : string :=
  match congress with
  | Some c => if c =? 0 then "118"%string else string_of_Z c
  | None => "118"%string
  end.

Section Handle.

Variable regexp : RegExpEngine.
Variable usLegalAPI : USLegalAPI.t.

(** [error instanceof Error ? error.message : "Unknown error"]; every
    exception here is an [Error], and its message is the runtime's. *)
Variable message : exn -> string.

(** [const { ... } = args]: a call without arguments has nothing to
    take them from. *)
Definition destructure (args : option ToolArguments) : IO ToolArguments :=
  lift (match args with
        | Some given => Ok given
        | None => Throw TypeError
        end).

(** A tool that shows a list: the call, the heading and the line of a
    record. *)
Definition listTool (args : option ToolArguments)
           (call : ToolArguments -> IO value)
           (heading : ToolArguments -> string)
           (line : value -> nat -> Result string) : IO value :=
  args <~ destructure args ;;
  result <~ call args ;;
  lift (
    records <- JS.iterate_array result ;;
    body <- lines line records ;;
    Ok (textResult (cat [ heading args; found records; body ]))).

Definition searchAllTool (args : option ToolArguments) : IO value :=
  args <~ destructure args ;;
  results <~ USLegalAPI.searchAll regexp usLegalAPI (query args) (limit args) ;;
  lift (
    bills <- (l <- JS.prop results "bills" ;; JS.iterate_array l) ;;
    regulations <- (l <- JS.prop results "regulations" ;; JS.iterate_array l) ;;
    codeSections <- (l <- JS.prop results "codeSections" ;; JS.iterate_array l) ;;
    comments <- (l <- JS.prop results "comments" ;; JS.iterate_array l) ;;
    topBills <- lines topBillLine (JS.slice0 3 bills) ;;
    topRegulations <- lines topRegulationLine (JS.slice0 3 regulations) ;;
    Ok (textResult
          (cat [ "**Comprehensive US Legal Search Results for "; dq;
                 query args; dq; "**"; nl; nl;
                 "- Bills: "; string_of_Z (Z.of_nat (List.length bills)); nl;
                 "- Regulations: ";
                 string_of_Z (Z.of_nat (List.length regulations)); nl;
                 "- Code Sections: ";
                 string_of_Z (Z.of_nat (List.length codeSections)); nl;
                 "- Comments: ";
                 string_of_Z (Z.of_nat (List.length comments)); nl; nl;
                 "**Top Results:**"; nl; nl;
                 topBills; topRegulations ]))).

(** The handler of [CallToolRequestSchema]. The adapters are the classes
    of this file. *)
Definition handleCallTool (name : string)
           (args : option ToolArguments) : IO value :=
  try_catch
    (if String.eqb name "search_congress_bills" then
       listTool args
         (fun args =>
            CongressAPI.searchBills regexp (USLegalAPI.congress usLegalAPI)
              (query args) (congress args) (limit args))
         (fun args =>
            cat [ "**Congress Bills Search Results for "; dq; query args; dq;
                  "**"; nl; nl ])
         billLine
     else if String.eqb name "search_federal_register" then
       listTool args
         (fun args =>
            FederalRegisterAPI.searchDocuments regexp (query args) (limit args))
         (fun args =>
            cat [ "**Federal Register Search Results for "; dq; query args; dq;
                  "**"; nl; nl ])
         documentLine
     else if String.eqb name "search_us_code" then
       listTool args
         (fun args =>
            USCodeAPI.searchCode (query args) (title args) (limit args))
         (fun args =>
            cat [ "**US Code Search Results for "; dq; query args; dq;
                  "**"; nl; nl ])
         sectionLine
     else if String.eqb name "search_public_comments" then
       listTool args
         (fun args =>
            RegulationsGovAPI.searchComments
              (USLegalAPI.regulationsGov usLegalAPI) (query args) (limit args))
         (fun args =>
            cat [ "**Public Comments Search Results for "; dq; query args; dq;
                  "**"; nl; nl ])
         commentLine
     else if String.eqb name "search_all_legal" then searchAllTool args
     else if String.eqb name "get_recent_bills" then
       listTool args
         (fun args =>
            CongressAPI.getRecentBills (USLegalAPI.congress usLegalAPI)
              (congress args) (limit args))
         (fun args =>
            cat [ "**Recent Bills in Congress "; congressOr118 (congress args);
                  "**"; nl; nl ])
         billLine
     else if String.eqb name "get_recent_regulations" then
       listTool args
         (fun args => FederalRegisterAPI.getRecentDocuments (limit args))
         (fun _ => cat [ "**Recent Federal Register Documents**"; nl; nl ])
         documentLine
     else if String.eqb name "search_court_opinions" then
       listTool args
         (fun args =>
            CourtListenerAPI.searchOpinions
              (USLegalAPI.courtListener usLegalAPI) (query args) (court args)
              (limit args))
         (fun args =>
            cat [ "**Court Opinions Search Results for "; dq; query args; dq;
                  "**"; nl; nl ])
         opinionLine
     else if String.eqb name "get_recent_court_opinions" then
       listTool args
         (fun args =>
            CourtListenerAPI.getRecentOpinions
              (USLegalAPI.courtListener usLegalAPI) (court args) (limit args))
         (fun _ => cat [ "**Recent Court Opinions**"; nl; nl ])
         opinionLine
     else if String.eqb name "search_congress_votes" then
       listTool args
         (fun args =>
            CongressAPI.searchVotes (USLegalAPI.congress usLegalAPI)
              (congress args) (chamber args) (limit args))
         (fun _ => cat [ "**Congress Votes**"; nl; nl ])
         voteLine
     else if String.eqb name "get_congress_committees" then
       listTool args
         (fun args =>
            CongressAPI.getCommittees (USLegalAPI.congress usLegalAPI)
              (congress args) (chamber args))
         (fun _ => cat [ "**Congress Committees**"; nl; nl ])
         committeeLine
     else ioret (textResult (cat [ "Unknown tool: "; name ])))
    (fun error =>
       ioret (textResult (cat [ "Error executing tool "; name; ": ";
                                message error ]))).

End Handle.

(** The answer of the handler of [ListToolsRequestSchema]. *)
Definition listTools : value :=
  VObj
    [ ("tools",
       VArr
        [ VObj
            [ ("name", VStr "search_congress_bills");
              ("description",
               VStr "Search for bills and resolutions in Congress.gov");
              ("inputSchema",
               VObj
                [ ("type", VStr "object");
                  ("properties",
                   VObj
                    [ ("query",
                       VObj
                        [ ("type", VStr "string");
                          ("description",
                           VStr "Search query for bills (e.g., 'immigration', 'healthcare', 'infrastructure')") ]);
                      ("congress",
                       VObj
                        [ ("type", VStr "number");
                          ("description",
                           VStr "Congress number (e.g., 118 for current Congress)");
                          ("minimum", VNum 100);
                          ("maximum", VNum 120) ]);
                      ("limit",
                       VObj
                        [ ("type", VStr "number");
                          ("description",
                           VStr "Number of results to return (max 50)");
                          ("minimum", VNum 1);
                          ("maximum", VNum 50);
                          ("default", VNum 20) ]) ]);
                  ("required", VArr [ VStr "query" ]) ]) ];
          VObj
            [ ("name", VStr "search_federal_register");
              ("description",
               VStr "Search for documents in the Federal Register (regulations, executive orders, etc.)");
              ("inputSchema",
               VObj
                [ ("type", VStr "object");
                  ("properties",
                   VObj
                    [ ("query",
                       VObj
                        [ ("type", VStr "string");
                          ("description",
                           VStr "Search query for regulations (e.g., 'environmental', 'healthcare', 'immigration')") ]);
                      ("limit",
                       VObj
                        [ ("type", VStr "number");
                          ("description",
                           VStr "Number of results to return (max 50)");
                          ("minimum", VNum 1);
                          ("maximum", VNum 50);
                          ("default", VNum 20) ]) ]);
                  ("required", VArr [ VStr "query" ]) ]) ];
          VObj
            [ ("name", VStr "search_us_code");
              ("description",
               VStr "Search for sections in the US Code (federal statutes)");
              ("inputSchema",
               VObj
                [ ("type", VStr "object");
                  ("properties",
                   VObj
                    [ ("query",
                       VObj
                        [ ("type", VStr "string");
                          ("description",
                           VStr "Search query for US Code sections") ]);
                      ("title",
                       VObj
                        [ ("type", VStr "number");
                          ("description",
                           VStr "Specific title number to search within (optional)") ]);
                      ("limit",
                       VObj
                        [ ("type", VStr "number");
                          ("description",
                           VStr "Number of results to return (max 50)");
                          ("minimum", VNum 1);
                          ("maximum", VNum 50);
                          ("default", VNum 20) ]) ]);
                  ("required", VArr [ VStr "query" ]) ]) ];
          VObj
            [ ("name", VStr "search_public_comments");
              ("description",
               VStr "Search for public comments on regulations from Regulations.gov");
              ("inputSchema",
               VObj
                [ ("type", VStr "object");
                  ("properties",
                   VObj
                    [ ("query",
                       VObj
                        [ ("type", VStr "string");
                          ("description",
                           VStr "Search query for public comments") ]);
                      ("limit",
                       VObj
                        [ ("type", VStr "number");
                          ("description",
                           VStr "Number of results to return (max 50)");
                          ("minimum", VNum 1);
                          ("maximum", VNum 50);
                          ("default", VNum 20) ]) ]);
                  ("required", VArr [ VStr "query" ]) ]) ];
          VObj
            [ ("name", VStr "search_all_legal");
              ("description",
               VStr "Comprehensive search across all US legal sources (Congress, Federal Register, US Code, Comments)");
              ("inputSchema",
               VObj
                [ ("type", VStr "object");
                  ("properties",
                   VObj
                    [ ("query",
                       VObj
                        [ ("type", VStr "string");
                          ("description",
                           VStr "Search query across all legal sources") ]);
                      ("limit",
                       VObj
                        [ ("type", VStr "number");
                          ("description",
                           VStr "Number of results to return per source (max 50)");
                          ("minimum", VNum 1);
                          ("maximum", VNum 50);
                          ("default", VNum 10) ]) ]);
                  ("required", VArr [ VStr "query" ]) ]) ];
          VObj
            [ ("name", VStr "get_recent_bills");
              ("description",
               VStr "Get the most recently introduced bills in Congress");
              ("inputSchema",
               VObj
                [ ("type", VStr "object");
                  ("properties",
                   VObj
                    [ ("congress",
                       VObj
                        [ ("type", VStr "number");
                          ("description",
                           VStr "Congress number (e.g., 118 for current Congress)");
                          ("minimum", VNum 100);
                          ("maximum", VNum 120) ]);
                      ("limit",
                       VObj
                        [ ("type", VStr "number");
                          ("description",
                           VStr "Number of results to return (max 50)");
                          ("minimum", VNum 1);
                          ("maximum", VNum 50);
                          ("default", VNum 20) ]) ]) ]) ];
          VObj
            [ ("name", VStr "get_recent_regulations");
              ("description",
               VStr "Get the most recently published Federal Register documents");
              ("inputSchema",
               VObj
                [ ("type", VStr "object");
                  ("properties",
                   VObj
                    [ ("limit",
                       VObj
                        [ ("type", VStr "number");
                          ("description",
                           VStr "Number of results to return (max 50)");
                          ("minimum", VNum 1);
                          ("maximum", VNum 50);
                          ("default", VNum 20) ]) ]) ]) ];
          VObj
            [ ("name", VStr "search_court_opinions");
              ("description",
               VStr "Search for court opinions and decisions from CourtListener (federal and state courts)");
              ("inputSchema",
               VObj
                [ ("type", VStr "object");
                  ("properties",
                   VObj
                    [ ("query",
                       VObj
                        [ ("type", VStr "string");
                          ("description",
                           VStr "Search query for court opinions (e.g., 'immigration', 'copyright', 'constitutional')") ]);
                      ("court",
                       VObj
                        [ ("type", VStr "string");
                          ("description",
                           VStr "Optional court filter (e.g., 'scotus', 'ca1', 'ca2')") ]);
                      ("limit",
                       VObj
                        [ ("type", VStr "number");
                          ("description",
                           VStr "Number of results to return (max 50)");
                          ("minimum", VNum 1);
                          ("maximum", VNum 50);
                          ("default", VNum 20) ]) ]);
                  ("required", VArr [ VStr "query" ]) ]) ];
          VObj
            [ ("name", VStr "get_recent_court_opinions");
              ("description",
               VStr "Get the most recently published court opinions from CourtListener");
              ("inputSchema",
               VObj
                [ ("type", VStr "object");
                  ("properties",
                   VObj
                    [ ("court",
                       VObj
                        [ ("type", VStr "string");
                          ("description",
                           VStr "Optional court filter (e.g., 'scotus', 'ca1', 'ca2')") ]);
                      ("limit",
                       VObj
                        [ ("type", VStr "number");
                          ("description",
                           VStr "Number of results to return (max 50)");
                          ("minimum", VNum 1);
                          ("maximum", VNum 50);
                          ("default", VNum 20) ]) ]) ]) ];
          VObj
            [ ("name", VStr "search_congress_votes");
              ("description", VStr "Search for voting records in Congress");
              ("inputSchema",
               VObj
                [ ("type", VStr "object");
                  ("properties",
                   VObj
                    [ ("congress",
                       VObj
                        [ ("type", VStr "number");
                          ("description",
                           VStr "Congress number (e.g., 118 for current Congress)");
                          ("minimum", VNum 100);
                          ("maximum", VNum 120) ]);
                      ("chamber",
                       VObj
                        [ ("type", VStr "string");
                          ("enum", VArr [ VStr "House"; VStr "Senate" ]);
                          ("description",
                           VStr "Chamber filter (House or Senate)") ]);
                      ("limit",
                       VObj
                        [ ("type", VStr "number");
                          ("description",
                           VStr "Number of results to return (max 50)");
                          ("minimum", VNum 1);
                          ("maximum", VNum 50);
                          ("default", VNum 20) ]) ]) ]) ];
          VObj
            [ ("name", VStr "get_congress_committees");
              ("description", VStr "Get list of Congressional committees");
              ("inputSchema",
               VObj
                [ ("type", VStr "object");
                  ("properties",
                   VObj
                    [ ("congress",
                       VObj
                        [ ("type", VStr "number");
                          ("description",
                           VStr "Congress number (e.g., 118 for current Congress)");
                          ("minimum", VNum 100);
                          ("maximum", VNum 120) ]);
                      ("chamber",
                       VObj
                        [ ("type", VStr "string");
                          ("enum", VArr [ VStr "House"; VStr "Senate" ]);
                          ("description",
                           VStr "Chamber filter (House or Senate)") ]) ]) ]) ] ]) ].

End Handler.

(* ================================================================== *)
(** ** Vocabulary of the statements *)

(** A subject tag matches when its lower-case name contains one of the
    terms. *)
Definition tagMatches (terms : list string) (tag : value) : bool :=
  match subjectName tag with
  | Ok name => existsb (fun term => includes term name) terms
  | Throw _ => false
  end.

Definition matchingTags (terms : list string) (tags : list value) : nat :=
  List.length (filter (tagMatches terms) tags).

(** A tag has a name: it is a string, or an object whose [name] is a
    string or is falsy. *)
Definition namedTag (tag : value) : Prop :=
  exists name, subjectName tag = Ok name.

(** What an adapter of the shape
    [try { response = await axios.get(...); return compute(response) }
     catch { return fallback }]
    resolves to, given what the network did with its request. *)
Definition settle (validate : Z -> bool)
           (compute : Axios.Response -> Result value) (fallback : value)
           (u : Axios.Upstream) : value :=
  match u with
  | Axios.NetworkError _ => fallback
  | Axios.HttpResponse r =>
      if validate (Axios.status r) then
        match compute r with
        | Ok v => v
        | Throw _ => fallback
        end
      else fallback
  end.

(** The relevance-floor policy on candidates already sorted by score:
    the first [limit] of those that score 5 or more when there are at
    least [limit] of them, the first [limit] of all otherwise. *)
Definition floorPolicy (limit : Z) (sorted : list Scored) : list value :=
  let high := filter highRelevance sorted in
  List.map snd
    (firstn (Z.to_nat limit)
            (if limit <=? Z.of_nat (List.length high) then high else sorted)).

(** The methods of the five adapters, as a caller invokes them. *)
Inductive AdapterCall : Type :=
| SearchBills (query : string) (congress limit : option Z)
| GetBillDetails (congress : Z) (billType : string) (billNumber : Z)
| GetRecentBills (congress limit : option Z)
| SearchVotes (congress : option Z) (chamber : option string) (limit : option Z)
| GetCommittees (congress : option Z) (chamber : option string)
| SearchDocuments (query : string) (limit : option Z)
| GetRecentDocuments (limit : option Z)
| GetDocumentDetails (documentNumber : string)
| SearchCode (query : string) (title limit : option Z)
| GetSection (title : Z) (section : string)
| SearchOpinions (query : string) (court : option string) (limit : option Z)
| GetRecentOpinions (court : option string) (limit : option Z)
| GetOpinion (opinionId : Z)
| SearchComments (query : string) (limit : option Z).

Definition invoke (regexp : RegExpEngine) (api : USLegalAPI.t)
           (c : AdapterCall) : IO value :=
  match c with
  | SearchBills query congress limit =>
      CongressAPI.searchBills regexp (USLegalAPI.congress api) query congress limit
  | GetBillDetails congress billType billNumber =>
      CongressAPI.getBillDetails (USLegalAPI.congress api) congress billType billNumber
  | GetRecentBills congress limit =>
      CongressAPI.getRecentBills (USLegalAPI.congress api) congress limit
  | SearchVotes congress chamber limit =>
      CongressAPI.searchVotes (USLegalAPI.congress api) congress chamber limit
  | GetCommittees congress chamber =>
      CongressAPI.getCommittees (USLegalAPI.congress api) congress chamber
  | SearchDocuments query limit =>
      FederalRegisterAPI.searchDocuments regexp query limit
  | GetRecentDocuments limit => FederalRegisterAPI.getRecentDocuments limit
  | GetDocumentDetails documentNumber =>
      FederalRegisterAPI.getDocumentDetails documentNumber
  | SearchCode query title limit => USCodeAPI.searchCode query title limit
  | GetSection title section => USCodeAPI.getSection title section
  | SearchOpinions query court limit =>
      CourtListenerAPI.searchOpinions (USLegalAPI.courtListener api) query court limit
  | GetRecentOpinions court limit =>
      CourtListenerAPI.getRecentOpinions (USLegalAPI.courtListener api) court limit
  | GetOpinion opinionId =>
      CourtListenerAPI.getOpinion (USLegalAPI.courtListener api) opinionId
  | SearchComments query limit =>
      RegulationsGovAPI.searchComments (USLegalAPI.regulationsGov api) query limit
  end.

(** The methods declared to return a list; the others return one record
    or null. *)
Definition returnsList (c : AdapterCall) : bool :=
  match c with
  | GetBillDetails _ _ _ | GetDocumentDetails _ | GetSection _ _
  | GetOpinion _ => false
  | _ => true
  end.

(** An upstream failure: no response (timeout, connection refused, ...)
    or a response with a 4xx or 5xx status. *)
Definition upstreamFailure (u : Axios.Upstream) : Prop :=
  match u with
  | Axios.NetworkError _ => True
  | Axios.HttpResponse r => 400 <= Axios.status r
  end.

(** A response with a 4xx status. *)
Definition clientError (u : Axios.Upstream) : Prop :=
  match u with
  | Axios.NetworkError _ => False
  | Axios.HttpResponse r => 400 <= Axios.status r < 500
  end.

(** The fields of a court opinion that arrive under two names: the
    canonical field, the name tried first and the name tried second. *)
Definition dualNamedFields : list (string * (string * string)) :=
  [ ("case_name", ("caseName", "case_name"));
    ("case_name_full", ("caseNameFull", "case_name_full"));
    ("date_filed", ("dateFiled", "date_filed"));
    ("date_modified", ("dateModified", "date_modified"));
    ("court", ("court", "court_name"));
    ("court_id", ("courtId", "court_id"));
    ("citation_count", ("citationCount", "citation_count"));
    ("precedential_status", ("precedentialStatus", "precedential_status"));
    ("download_url", ("downloadUrl", "download_url"));
    ("plain_text", ("plainText", "plain_text"));
    ("html_lawbox", ("htmlLawbox", "html_lawbox"));
    ("html_columbia", ("htmlColumbia", "html_columbia"));
    ("html_anon_2020", ("htmlAnon2020", "html_anon_2020"));
    ("docket_number", ("docketNumber", "docket_number")) ].

(** The fields of a court opinion copied under their own name. *)
Definition copiedOpinionFields : list string :=
  [ "id"; "jurisdiction"; "citation"; "html"; "judges"; "docket"; "slug" ].

(** The scalars (null, booleans, numbers and strings) inside a value. *)
Fixpoint leaves (v : value) : list value :=
  match v with
  | VUndef => []
  | VArr elems => flat_map leaves elems
  | VObj fields => flat_map (fun '(_, x) => leaves x) fields
  | _ => [v]
  end.

(** [JSON.parse(JSON.stringify(v))]: an undefined field of an object is
    left out and an undefined element of an array becomes null. *)
Fixpoint serialize (v : value) : value :=
  match v with
  | VArr elems =>
      VArr (List.map (fun x => match x with
                               | VUndef => VNull
                               | _ => serialize x
                               end) elems)
  | VObj fields =>
      VObj (flat_map (fun '(k, x) => match x with
                                     | VUndef => []
                                     | _ => [(k, serialize x)]
                                     end) fields)
  | _ => v
  end.

(** A parsed JSON payload holds no undefined. *)
Fixpoint is_json (v : value) : bool :=
  match v with
  | VUndef => false
  | VArr elems => forallb is_json elems
  | VObj fields => forallb (fun '(_, x) => is_json x) fields
  | _ => true
  end.

(** Every scalar of the serialized [v] is an allowed one. *)
Definition drawn (allowed : value -> Prop) (v : value) : Prop :=
  forall x, In x (leaves (serialize v)) -> allowed x.

(** The scalars of the payload [raw]. *)
Definition fromPayload (raw : value) : value -> Prop :=
  fun x => In x (leaves raw).

(** [v] is undefined or a piece of the payload [raw]. *)
Definition part (raw v : value) : Prop :=
  v = VUndef \/ (is_json v = true /\ incl (leaves v) (leaves raw)).


(** Every character of [s] passes the test [p]. *)
Fixpoint every (p : ascii -> bool) (s : string) : bool :=
  match s with
  | EmptyString => true
  | String c s' => p c && every p s'
  end.

(** The list methods that rank nothing: the field of the payload they read
    and the record they build from each of its elements. *)
Definition listing (c : AdapterCall)
  : option (string * (value -> Result value)) :=
  match c with
  | GetRecentBills _ _ =>
      Some ("bills", CongressAPI.billRecord CongressAPI.subjectNameOnly)
  | SearchVotes _ _ _ => Some ("votes", CongressAPI.voteRecord)
  | GetCommittees _ _ => Some ("committees", CongressAPI.committeeRecord)
  | GetRecentDocuments _ => Some ("results", FederalRegisterAPI.documentRecord)
  | SearchCode _ _ _ => Some ("results", USCodeAPI.sectionRecord)
  | SearchOpinions _ _ _ | GetRecentOpinions _ _ =>
      Some ("results", CourtListenerAPI.opinionRecord)
  | SearchComments _ _ => Some ("data", RegulationsGovAPI.commentRecord)
  | _ => None
  end.

(** The statuses a method reads a payload from: [searchCode] lets axios
    accept every status below 500 and gives up from 400 on; the others
    leave axios its default. *)
Definition readsStatus (c : AdapterCall) (status : Z) : bool :=
  match c with
  | SearchCode _ _ _ => status <? 400
  | _ => Axios.validateStatus status
  end.

(** The tools the server advertises, read from its answer to
    [ListToolsRequestSchema]. *)
Definition fieldOf (k : string) (v : value) : value :=
  match v with
  | VObj fields => JS.assoc k fields
  | _ => VUndef
  end.

Definition elements (v : value) : list value :=
  match v with
  | VArr elems => elems
  | _ => []
  end.

Definition nameOf (tool : value) : string :=
  match fieldOf "name" tool with
  | VStr name => name
  | _ => ""%string
  end.

Definition advertised : list string :=
  List.map nameOf (elements (fieldOf "tools" Handler.listTools)).

(** The input schema of an advertised tool. *)
Definition inputSchema (name : string) : value :=
  match find (fun tool => String.eqb (nameOf tool) name)
             (elements (fieldOf "tools" Handler.listTools)) with
  | Some tool => fieldOf "inputSchema" tool
  | None => VUndef
  end.

(** What the schema of a tool says of a property: its [type], its
    [default], ... *)
Definition schemaOf (name property key : string) : value :=
  fieldOf key (fieldOf property (fieldOf "properties" (inputSchema name))).

(** The same arguments with another [limit]. *)
Definition withLimit (args : Handler.ToolArguments) (limit : option Z)
  : Handler.ToolArguments :=
  Handler.mkToolArguments (Handler.query args) (Handler.congress args)
    (Handler.title args) (Handler.court args) (Handler.chamber args) limit.

(** What a tool reports when it found nothing. *)
Definition emptyReport (name : string) : string :=
  if String.eqb name "search_all_legal"
  then Handler.cat [ "- Bills: 0"; Handler.nl;
                     "- Regulations: 0"; Handler.nl;
                     "- Code Sections: 0"; Handler.nl;
                     "- Comments: 0"; Handler.nl; Handler.nl;
                     "**Top Results:**"; Handler.nl; Handler.nl ]
  else Handler.found [].

(** A value that has a string form, the one [JS.toString] gives: all
    but the objects that hide [toString], and the lists that hold one. *)
Definition printable (v : value) : Prop :=
  JS.template v = Ok (JS.toString v).










(** The field of the payload a list method reads its list from. *)
Definition payloadList (c : AdapterCall) : option string :=
  match c with
  | SearchBills _ _ _ | GetRecentBills _ _ => Some "bills"
  | SearchVotes _ _ _ => Some "votes"
  | GetCommittees _ _ => Some "committees"
  | SearchDocuments _ _ | GetRecentDocuments _ | SearchCode _ _ _
  | SearchOpinions _ _ _ | GetRecentOpinions _ _ => Some "results"
  | SearchComments _ _ => Some "data"
  | _ => None
  end.

(** The single-record methods that normalize the payload itself;
    [getBillDetails] normalizes its field [bill]. *)
Definition readsBody (c : AdapterCall) : bool :=
  match c with
  | GetDocumentDetails _ | GetSection _ _ | GetOpinion _ => true
  | _ => false
  end.

(* ================================================================== *)
(** * Properties *)


Section ScorerFacts.

Variable regexp : RegExpEngine.

Lemma termLoop_lower_bound lowerText terms st st' :
  termLoop regexp lowerText terms st = Ok st' -> fst st <= fst st'.
Proof.
  revert st. induction terms as [|t ts IH]; intros st H; simpl in H.
  - injection H as <-. lia.
  - destruct (includes t lowerText).
    + destruct (regexp t lowerText) as [n|]; [|discriminate].
      apply IH in H. simpl in H. lia.
    + now apply IH.
Qed.

Lemma toLowerCase_empty s : toLowerCase s = "" -> s = "".
Proof. destruct s; [reflexivity | discriminate]. Qed.

Lemma prefix_empty_r s : prefix s "" = true -> s = "".
Proof. destruct s; [reflexivity | discriminate]. Qed.

Lemma includes_empty_r s : includes s "" = true -> s = "".
Proof.
  simpl. rewrite orb_false_r. apply prefix_empty_r.
Qed.

Lemma queryTerms_empty : queryTerms "" = [].
Proof. reflexivity. Qed.

Lemma queryTerms_length term query :
  In term (queryTerms query) -> (2 < String.length term)%nat.
Proof.
  unfold queryTerms. intros H. apply filter_In in H as [_ H].
  now apply Nat.ltb_lt.
Qed.

Lemma termLoop_total lowerText terms :
  (forall term, In term terms -> regexp term lowerText <> None) ->
  forall st, exists st', termLoop regexp lowerText terms st = Ok st'.
Proof.
  induction terms as [|t ts IH]; intros Hok st; simpl.
  - now exists st.
  - destruct (includes t lowerText).
    + destruct (regexp t lowerText) as [n|] eqn:E.
      * apply IH. intros; apply Hok; now right.
      * exfalso. apply (Hok t); [now left | exact E].
    + apply IH. intros; apply Hok; now right.
Qed.

Lemma termLoop_raises lowerText terms term :
  In term terms -> includes term lowerText = true ->
  regexp term lowerText = None ->
  forall st, termLoop regexp lowerText terms st = Throw SyntaxError.
Proof.
  intros Hin Hinc Hrej.
  induction terms as [|t ts IH]; intros st; simpl; [contradiction|].
  destruct Hin as [->|Hin].
  - now rewrite Hinc, Hrej.
  - destruct (includes t lowerText); [|now apply IH].
    destruct (regexp t lowerText); [now apply IH | reflexivity].
Qed.

Lemma calculateRelevanceScore_empty_text query :
  calculateRelevanceScore regexp "" query = Ok 0.
Proof. reflexivity. Qed.

Lemma calculateRelevanceScore_empty_query text :
  calculateRelevanceScore regexp text "" = Ok 0.
Proof.
  unfold calculateRelevanceScore. now rewrite orb_true_r.
Qed.

Lemma calculateRelevanceScore_no_terms text query :
  queryTerms query = [] -> calculateRelevanceScore regexp text query = Ok 0.
Proof.
  intros H. unfold calculateRelevanceScore. rewrite H. simpl.
  now destruct (_ || _).
Qed.

Lemma calculateRelevanceScore_nonneg text query n :
  calculateRelevanceScore regexp text query = Ok n -> 0 <= n.
Proof.
  unfold calculateRelevanceScore.
  destruct (_ || _); [intros [= <-]; lia|].
  destruct (_ =? _)%nat; [intros [= <-]; lia|].
  destruct (termLoop _ _ _ _) as [st|] eqn:E; simpl; [|discriminate].
  apply termLoop_lower_bound in E. simpl in E.
  intros [= <-].
  destruct (includes _ _), (_ =? _)%nat; lia.
Qed.

Lemma includes_nonempty term text :
  (0 < String.length term)%nat -> includes term (toLowerCase text) = true ->
  text <> "".
Proof.
  intros Hlen Hinc ->. apply includes_empty_r in Hinc. subst term.
  simpl in Hlen. lia.
Qed.

Lemma queryTerms_nonempty_query query :
  queryTerms query <> [] -> query <> "".
Proof. intros H ->. now apply H. Qed.

(** Where the guards of [calculateRelevanceScore] let the loop run. *)
Lemma calculateRelevanceScore_loop text query :
  text <> "" -> queryTerms query <> [] ->
  calculateRelevanceScore regexp text query =
  (st <- termLoop regexp (toLowerCase text) (queryTerms query)
           (if includes (toLowerCase query) (toLowerCase text) then 10 else 0, O) ;;
   Ok (if (snd st =? List.length (queryTerms query))%nat
       then fst st + 5 else fst st)).
Proof.
  intros Ht Hq. unfold calculateRelevanceScore.
  apply String.eqb_neq in Ht.
  pose proof (queryTerms_nonempty_query _ Hq) as Hq'.
  apply String.eqb_neq in Hq'. rewrite Ht, Hq'. simpl.
  destruct (queryTerms query); [contradiction | reflexivity].
Qed.

(** A retained term that the text contains and the engine rejects makes
    the whole scoring raise. *)
Lemma calculateRelevanceScore_raises text query term :
  In term (queryTerms query) ->
  includes term (toLowerCase text) = true ->
  regexp term (toLowerCase text) = None ->
  calculateRelevanceScore regexp text query = Throw SyntaxError.
Proof.
  intros Hin Hinc Hrej.
  pose proof (queryTerms_length _ _ Hin) as Hlen.
  rewrite calculateRelevanceScore_loop.
  - now rewrite (termLoop_raises _ _ _ Hin Hinc Hrej).
  - eapply includes_nonempty; [|exact Hinc]. lia.
  - intros E. rewrite E in Hin. contradiction.
Qed.

(** With an engine that counts plain patterns, a plain term the text
    contains adds the lesser of its number of occurrences and 3. *)
Lemma termLoop_plain_term lowerText term rest st :
  Pattern.counts_plain_patterns regexp ->
  Pattern.plain term = true -> term <> "" ->
  includes term lowerText = true ->
  termLoop regexp lowerText (term :: rest) st =
  termLoop regexp lowerText rest
           (fst st + Z.of_nat (Nat.min (count_occurrences term lowerText) 3),
            S (snd st)).
Proof.
  intros Hplain Hp Hne Hinc. simpl.
  now rewrite Hinc, (Hplain term lowerText Hp Hne).
Qed.

End ScorerFacts.

Lemma fragment_engine_rejects :
  Pattern.rejects_unterminated_groups Pattern.fragment_engine.
Proof.
  intros p s H. unfold Pattern.fragment_engine. now rewrite H.
Qed.

Lemma fragment_engine_counts :
  Pattern.counts_plain_patterns Pattern.fragment_engine.
Proof.
  intros p s Hp _. unfold Pattern.fragment_engine.
  replace (Pattern.unterminated_group p) with false; [reflexivity|].
  symmetry. unfold Pattern.unterminated_group.
  assert (Pattern.mem "("%char p = false) as ->; [|reflexivity].
  induction p as [|c p IH]; [reflexivity|].
  cbn [Pattern.plain] in Hp. apply andb_true_iff in Hp as [Hc Hp].
  cbn [Pattern.mem]. rewrite (IH Hp), orb_false_r.
  destruct (Ascii.eqb_spec "("%char c) as [<-|];
    [vm_compute in Hc; discriminate | reflexivity].
Qed.

(** C4, as amended. When the lower-case text contains the lower-case
    query verbatim, at least one term of the query is longer than two
    characters and the engine accepts every retained term, the score is
    a number and is at least 10. *)
Theorem score_verbatim_query_at_least_10 (regexp : RegExpEngine) text query :
  includes (toLowerCase query) (toLowerCase text) = true ->
  queryTerms query <> [] ->
  (forall term, In term (queryTerms query) ->
                regexp term (toLowerCase text) <> None) ->
  exists n, calculateRelevanceScore regexp text query = Ok n /\ 10 <= n.
Proof.
  intros Hinc Hterms Hacc.
  assert (text <> "") as Htext.
  { intros ->. apply includes_empty_r, toLowerCase_empty in Hinc.
    subst query. now apply Hterms. }
  rewrite (calculateRelevanceScore_loop regexp _ _ Htext Hterms), Hinc.
  destruct (termLoop_total regexp _ _ Hacc (10, O)) as [st Hst].
  rewrite Hst. simpl.
  apply termLoop_lower_bound in Hst. simpl in Hst.
  eexists; split; [reflexivity|].
  destruct (_ =? _)%nat; lia.
Qed.

Lemma score_verbatim_query_at_least_10_witness :
  exists n, calculateRelevanceScore Pattern.fragment_engine
              "Clean Air Act" "clean air" = Ok n /\ 10 <= n.
Proof.
  apply (score_verbatim_query_at_least_10 Pattern.fragment_engine
           "Clean Air Act" "clean air").
  - reflexivity.
  - discriminate.
  - intros term [<-|[<-|[]]]; discriminate.
Defined.

(** C4, counterexample. The text contains the query "of" verbatim, yet no
    term of the query is longer than two characters and the score is 0,
    whatever the engine. *)
Lemma score_verbatim_short_query_is_0 :
  includes (toLowerCase "of") (toLowerCase "Act of 1990") = true /\
  forall regexp, calculateRelevanceScore regexp "Act of 1990" "of" = Ok 0.
Proof. split; reflexivity. Qed.

(** C5. The score is 0 for an empty text, an empty query and a query
    without a term longer than two characters, and it is never negative
    when it is a number; but it is not always a number: with an engine
    that rejects an unclosed group, scoring "501(c)(3) Organizations"
    against "501(c" raises. *)
Theorem score_nonneg_but_partial (regexp : RegExpEngine) :
  Pattern.rejects_unterminated_groups regexp ->
  (forall query, calculateRelevanceScore regexp "" query = Ok 0) /\
  (forall text, calculateRelevanceScore regexp text "" = Ok 0) /\
  (forall text query, queryTerms query = [] ->
                      calculateRelevanceScore regexp text query = Ok 0) /\
  (forall text query n, calculateRelevanceScore regexp text query = Ok n ->
                        0 <= n) /\
  calculateRelevanceScore regexp "501(c)(3) Organizations" "501(c"
  = Throw SyntaxError.
Proof.
  intros Hrej. repeat split.
  - apply calculateRelevanceScore_empty_query.
  - apply calculateRelevanceScore_no_terms.
  - apply calculateRelevanceScore_nonneg.
  - apply (calculateRelevanceScore_raises regexp _ _ "501(c").
    + now left.
    + reflexivity.
    + now apply Hrej.
Qed.

Lemma score_nonneg_but_partial_witness :
  calculateRelevanceScore Pattern.fragment_engine
    "501(c)(3) Organizations" "501(c" = Throw SyntaxError.
Proof.
  apply (score_nonneg_but_partial Pattern.fragment_engine
           fragment_engine_rejects).
Defined.

(** C6. The code hands each term to the engine as a pattern. With the text
    "Section 230(c) immunity" and the query "section 230(c", the term
    "230(c" occurs once in the text and should add min(1, 3) = 1; the
    engine rejects it and the scoring raises. *)
Theorem score_term_with_open_group_raises (regexp : RegExpEngine) :
  Pattern.rejects_unterminated_groups regexp ->
  queryTerms "section 230(c" = ["section"; "230(c"] /\
  count_occurrences "230(c" (toLowerCase "Section 230(c) immunity") = 1%nat /\
  calculateRelevanceScore regexp "Section 230(c) immunity" "section 230(c"
  = Throw SyntaxError.
Proof.
  intros Hrej. split; [reflexivity|]. split; [reflexivity|].
  apply (calculateRelevanceScore_raises regexp _ _ "230(c").
  - right; now left.
  - reflexivity.
  - now apply Hrej.
Qed.

Lemma score_term_with_open_group_raises_witness :
  calculateRelevanceScore Pattern.fragment_engine
    "Section 230(c) immunity" "section 230(c" = Throw SyntaxError.
Proof.
  apply (score_term_with_open_group_raises Pattern.fragment_engine
           fragment_engine_rejects).
Defined.

Section BillScoreFacts.

Variable regexp : RegExpEngine.

Lemma subjectLoop_bonus terms tags :
  forall score s,
    subjectLoop tags terms score = Ok s ->
    (s == score + 20 * inject_Z (Z.of_nat (matchingTags terms tags)))%Q.
Proof.
  unfold matchingTags.
  induction tags as [|tag tags IH]; intros score s H; cbn [subjectLoop] in H.
  - injection H as <-. cbn [filter List.length Z.of_nat].
    change (inject_Z 0) with 0%Q. lra.
  - cbn [filter]. unfold tagMatches at 1.
    destruct (subjectName tag) as [name|]; [cbn [rbind] in H|discriminate].
    apply IH in H.
    destruct (existsb _ terms); cbn [List.length].
    + rewrite H, Nat2Z.inj_succ, <- Z.add_1_r, inject_Z_plus.
      change (inject_Z 1) with 1%Q. lra.
    + exact H.
Qed.

Lemma subjectLoop_total terms tags :
  Forall namedTag tags ->
  forall score, exists s, subjectLoop tags terms score = Ok s.
Proof.
  induction 1 as [|tag tags [name Hname] _ IH]; intros score; simpl.
  - now eexists.
  - rewrite Hname. simpl. apply IH.
Qed.

Lemma matchingTags_no_terms tags : matchingTags [] tags = 0%nat.
Proof.
  unfold matchingTags. induction tags as [|tag tags IH]; [reflexivity|].
  simpl. unfold tagMatches at 1. now destruct (subjectName tag).
Qed.

End BillScoreFacts.

(** C7. Two bills that differ in their subject tags only, the first with
    no tag containing a query term: when the first has score [s0], the
    second has score [s0] plus 20 for each of its tags that contains at
    least one retained query term, each tag counted once; so with one
    matching tag or more it scores at least 20 higher. *)
Theorem subject_tag_bonus (regexp : RegExpEngine)
        (fields0 fields1 : list (string * value)) (tags0 tags1 : list value)
        (query : string) (s0 : Q) :
  (forall k, k <> "subjects" -> JS.assoc k fields1 = JS.assoc k fields0) ->
  JS.assoc "subjects" fields0 = VArr tags0 ->
  JS.assoc "subjects" fields1 = VArr tags1 ->
  Forall namedTag tags1 ->
  matchingTags (queryTerms query) tags0 = 0%nat ->
  scoreBillRelevance regexp (VObj fields0) query = Ok s0 ->
  exists s1,
    scoreBillRelevance regexp (VObj fields1) query = Ok s1 /\
    (s1 == s0 + 20 * inject_Z (Z.of_nat (matchingTags (queryTerms query) tags1)))%Q /\
    ((1 <= matchingTags (queryTerms query) tags1)%nat -> (s0 + 20 <= s1)%Q).
Proof.
  intros Hsame Hsub0 Hsub1 Hnamed Hnone.
  unfold scoreBillRelevance. cbn [JS.prop rbind].
  rewrite !Hsame by discriminate. rewrite Hsub0, Hsub1.
  destruct (weighted regexp (JS.assoc "title" fields0) query 4 0)
    as [a|]; [cbn [rbind]|discriminate].
  destruct (weighted regexp (JS.assoc "shortTitle" fields0) query 4 a)
    as [b|]; [cbn [rbind]|discriminate].
  destruct (JS.optprop (JS.assoc "summary" fields0) "text")
    as [st|]; [cbn [rbind]|discriminate].
  destruct (weighted regexp st query 2 b) as [c|]; [cbn [rbind]|discriminate].
  destruct (JS.optprop (JS.assoc "latestAction" fields0) "text")
    as [at_|]; [cbn [rbind]|discriminate].
  destruct (weighted regexp at_ query (3 # 2) c) as [d|];
    [cbn [rbind]|discriminate].
  cbn [JS.truthy JS.iterate andb rbind].
  destruct (0 <? List.length (queryTerms query))%nat eqn:Hterms.
  - intros H0. apply subjectLoop_bonus in H0. rewrite Hnone in H0.
    destruct (subjectLoop_total (queryTerms query) tags1 Hnamed d) as [s1 H1].
    exists s1. split; [exact H1|].
    apply subjectLoop_bonus in H1.
    assert (s1 == s0 + 20 * inject_Z (Z.of_nat (matchingTags (queryTerms query) tags1)))%Q
      as E by (rewrite H1, H0; change (inject_Z (Z.of_nat 0)) with 0%Q; lra).
    split; [exact E|]. intros Hone. rewrite E.
    assert (1 <= inject_Z (Z.of_nat (matchingTags (queryTerms query) tags1)))%Q.
    { rewrite <- (Zle_Qle 1). lia. }
    lra.
  - intros [= <-]. exists d. split; [reflexivity|].
    apply Nat.ltb_ge in Hterms.
    destruct (queryTerms query); [|simpl in Hterms; lia].
    rewrite matchingTags_no_terms. change (inject_Z (Z.of_nat 0)) with 0%Q.
    split; [lra | lia].
Qed.

Lemma subject_tag_bonus_witness :
  exists s1,
    scoreBillRelevance Pattern.fragment_engine
      (VObj [("title", VStr "Clean Air Act");
             ("subjects", VArr [VStr "Air quality";
                                VObj [("name", VStr "Clean Water")]])])
      "clean air" = Ok s1 /\
    (s1 == 68 + 20 * 2)%Q /\ (68 + 20 <= s1)%Q.
Proof.
  destruct (subject_tag_bonus Pattern.fragment_engine
              [("title", VStr "Clean Air Act");
               ("subjects", VArr [VStr "Taxation"])]
              [("title", VStr "Clean Air Act");
               ("subjects", VArr [VStr "Air quality";
                                  VObj [("name", VStr "Clean Water")]])]
              [VStr "Taxation"]
              [VStr "Air quality"; VObj [("name", VStr "Clean Water")]]
              "clean air" 68%Q) as [s1 [H1 [H2 H3]]].
  - intros k Hk. cbn [JS.assoc].
    destruct (String.eqb k "title"); [reflexivity|].
    apply String.eqb_neq in Hk. now rewrite Hk.
  - reflexivity.
  - reflexivity.
  - repeat constructor; eexists; reflexivity.
  - reflexivity.
  - reflexivity.
  - exists s1. split; [exact H1|]. split; [exact H2|]. apply H3.
    vm_compute. lia.
Defined.

(* ------------------------------------------------------------------ *)
(** ** Running an adapter *)

Lemma adapter_run validate req (compute : Axios.Response -> Result value)
      fallback w log :
  try_catch (response <~ axios_get validate req ;; lift (compute response))
            (fun _ => ioret fallback) w log
  = (Ok (settle validate compute fallback (w req)), log ++ [req]).
Proof.
  unfold try_catch, iobind, axios_get, lift, ioret, settle.
  destruct (w req) as [code|r]; [reflexivity|].
  destruct (validate (Axios.status r)); [|reflexivity].
  now destruct (compute r).
Qed.

Lemma searchBills_run regexp apiKey query congress limit w log :
  CongressAPI.searchBills regexp apiKey query congress limit w log
  = (Ok (settle Axios.validateStatus
           (fun r => CongressAPI.rankBills regexp query (default 20 limit)
                                           (Axios.data r))
           (VArr [])
           (w (CongressAPI.searchBillsRequest apiKey query congress
                                              (default 20 limit)))),
     log ++ [CongressAPI.searchBillsRequest apiKey query congress
                                            (default 20 limit)]).
Proof. apply adapter_run. Qed.

Lemma searchDocuments_run regexp query limit w log :
  FederalRegisterAPI.searchDocuments regexp query limit w log
  = (Ok (settle Axios.validateStatus
           (fun r => FederalRegisterAPI.rankDocuments regexp query
                       (default 20 limit) (Axios.data r))
           (VArr [])
           (w (FederalRegisterAPI.searchDocumentsRequest query
                                                         (default 20 limit)))),
     log ++ [FederalRegisterAPI.searchDocumentsRequest query
                                                       (default 20 limit)]).
Proof. apply adapter_run. Qed.

Lemma searchCode_run query title limit w log :
  USCodeAPI.searchCode query title limit w log
  = (Ok (settle USCodeAPI.validateStatus
           (fun r => if 400 <=? Axios.status r then Ok (VArr [])
                     else
                       (results <- JS.prop (Axios.data r) "results" ;;
                        sections <- JS.optmap results USCodeAPI.sectionRecord ;;
                        Ok (JS.or sections (VArr []))))
           (VArr [])
           (w (USCodeAPI.searchCodeRequest query title (default 20 limit)))),
     log ++ [USCodeAPI.searchCodeRequest query title (default 20 limit)]).
Proof.
  rewrite <- adapter_run. unfold USCodeAPI.searchCode, try_catch, iobind.
  destruct (axios_get _ _ w log) as [[r|e] log']; [|reflexivity].
  now destruct (400 <=? Axios.status r).
Qed.

Lemma searchComments_run apiKey query limit w log :
  RegulationsGovAPI.searchComments apiKey query limit w log
  = (Ok (settle Axios.validateStatus
           (fun r => rawComments <- JS.prop (Axios.data r) "data" ;;
                     comments <- JS.optmap rawComments
                                   RegulationsGovAPI.commentRecord ;;
                     Ok (JS.or comments (VArr [])))
           (VArr [])
           (w (RegulationsGovAPI.searchCommentsRequest apiKey query
                                                       (default 20 limit)))),
     log ++ [RegulationsGovAPI.searchCommentsRequest apiKey query
                                                     (default 20 limit)]).
Proof. apply adapter_run. Qed.

(* ------------------------------------------------------------------ *)
(** ** Lists *)

Lemma mapM_length {A B} (f : A -> Result B) l l' :
  mapM f l = Ok l' -> List.length l' = List.length l.
Proof.
  revert l'. induction l as [|x xs IH]; intros l' H; simpl in H.
  - now injection H as <-.
  - destruct (f x); [simpl in H|discriminate].
    destruct (mapM f xs); [simpl in H|discriminate].
    injection H as <-. simpl. f_equal. now apply IH.
Qed.

Lemma mapM_raises {A B} (f : A -> Result B) l x e :
  In x l -> f x = Throw e -> exists e', mapM f l = Throw e'.
Proof.
  intros Hin Hx. induction l as [|y ys IH]; [contradiction|].
  simpl. destruct Hin as [->|Hin].
  - rewrite Hx. now eexists.
  - destruct (f y); [simpl|now eexists].
    destruct (IH Hin) as [e' ->]. now eexists.
Qed.

Lemma mapM_In {A B} (f : A -> Result B) l l' x :
  mapM f l = Ok l' -> In x l -> exists y, f x = Ok y /\ In y l'.
Proof.
  revert l'. induction l as [|a l IH]; intros l' H Hin; [contradiction|].
  simpl in H. destruct (f a) as [b|] eqn:Ea; [simpl in H|discriminate].
  destruct (mapM f l) as [bs|]; [simpl in H|discriminate].
  injection H as <-. destruct Hin as [->|Hin].
  - exists b. split; [exact Ea | now left].
  - destruct (IH bs eq_refl Hin) as [y [Hy Hin']].
    exists y. split; [exact Hy | now right].
Qed.

Lemma slice0_firstn {A} (limit : Z) (l : list A) :
  0 <= limit -> JS.slice0 limit l = firstn (Z.to_nat limit) l.
Proof.
  intros Hl. unfold JS.slice0.
  destruct (limit <? 0) eqn:E; [apply Z.ltb_lt in E; lia|].
  destruct (Z.le_ge_cases limit (Z.of_nat (List.length l))) as [H|H].
  - now rewrite Z.min_l.
  - rewrite Z.min_r, Nat2Z.id, firstn_all by assumption.
    symmetry. apply firstn_all2. lia.
Qed.

Lemma insert_desc_length x l :
  List.length (insert_desc x l) = S (List.length l).
Proof.
  induction l as [|y l IH]; [reflexivity|]. simpl.
  destruct (Qle_bool (fst y) (fst x)); simpl; congruence.
Qed.

Lemma sort_desc_length l : List.length (sort_desc l) = List.length l.
Proof.
  induction l as [|x l IH]; [reflexivity|]. simpl.
  now rewrite insert_desc_length, IH.
Qed.

Lemma insert_desc_perm x l : Permutation (x :: l) (insert_desc x l).
Proof.
  induction l as [|y l IH]; [reflexivity|]. simpl.
  destruct (Qle_bool (fst y) (fst x)); [reflexivity|].
  rewrite perm_swap. now apply perm_skip.
Qed.

Lemma sort_desc_perm l : Permutation l (sort_desc l).
Proof.
  induction l as [|x l IH]; [reflexivity|]. simpl.
  rewrite <- insert_desc_perm. now apply perm_skip.
Qed.



Lemma floorPolicy_length limit sorted :
  1 <= limit ->
  List.length (floorPolicy limit sorted)
  = Z.to_nat (Z.min limit (Z.of_nat (List.length sorted))).
Proof.
  intros Hl. unfold floorPolicy. rewrite length_map, length_firstn.
  pose proof (filter_length_le highRelevance sorted) as Hle.
  destruct (Z.leb_spec limit (Z.of_nat (List.length (filter highRelevance sorted))));
    lia.
Qed.

(* ------------------------------------------------------------------ *)
(** ** The relevance floor *)

Section FloorPolicy.

Variable regexp : RegExpEngine.

(** When every candidate is normalized and scored and the diagnostic is
    written, [searchBills] applies the floor policy to the candidates
    sorted by score. *)
Lemma rankBills_floor_policy query limit data raw bills scored :
  JS.prop data "bills" = Ok (VArr raw) ->
  mapM (CongressAPI.billRecord CongressAPI.subjectNameOrSelf) raw = Ok bills ->
  mapM (fun bill => relevanceScore <- scoreBillRelevance regexp bill query ;;
                    Ok (relevanceScore, bill)) bills = Ok scored ->
  CongressAPI.logTopScores (sort_desc scored) = Ok tt ->
  1 <= limit ->
  CongressAPI.rankBills regexp query limit data
  = Ok (VArr (floorPolicy limit (sort_desc scored))) /\
  List.length (floorPolicy limit (sort_desc scored))
  = Z.to_nat (Z.min limit (Z.of_nat (List.length raw))).
Proof.
  intros Hdata Hbills Hscored Hlog Hl. split.
  - unfold CongressAPI.rankBills. rewrite Hdata. cbn [rbind JS.or JS.truthy JS.iterate_array].
    rewrite Hbills. cbn [rbind]. rewrite Hscored. cbn [rbind].
    rewrite Hlog. unfold floorPolicy. rewrite !slice0_firstn by lia.
    destruct (0 <? List.length (sort_desc scored))%nat eqn:Hn; cbn [rbind].
    + now destruct (limit <=? _).
    + apply Nat.ltb_ge in Hn.
      destruct (sort_desc scored); [|simpl in Hn; lia].
      cbn [filter List.length].
      destruct (limit <=? _); now rewrite firstn_nil.
  - rewrite floorPolicy_length, sort_desc_length by assumption.
    unfold Scored.
    now rewrite (mapM_length _ _ _ Hscored), (mapM_length _ _ _ Hbills).
Qed.

Lemma rankDocuments_floor_policy query limit data raw documents scored :
  JS.prop data "results" = Ok (VArr raw) ->
  mapM FederalRegisterAPI.documentRecord raw = Ok documents ->
  mapM (fun doc => relevanceScore <- scoreDocumentRelevance regexp doc query ;;
                   Ok (relevanceScore, doc)) documents = Ok scored ->
  1 <= limit ->
  FederalRegisterAPI.rankDocuments regexp query limit data
  = Ok (VArr (floorPolicy limit (sort_desc scored))) /\
  List.length (floorPolicy limit (sort_desc scored))
  = Z.to_nat (Z.min limit (Z.of_nat (List.length raw))).
Proof.
  intros Hdata Hdocs Hscored Hl. split.
  - unfold FederalRegisterAPI.rankDocuments. rewrite Hdata.
    cbn [rbind JS.or JS.truthy JS.iterate_array].
    rewrite Hdocs. cbn [rbind]. rewrite Hscored. cbn [rbind].
    unfold floorPolicy. rewrite !slice0_firstn by lia.
    rewrite length_map, length_firstn.
    set (sorted := sort_desc scored).
    set (high := filter highRelevance sorted).
    pose proof (filter_length_le highRelevance sorted) as Hle. fold high in Hle.
    destruct (Z.leb_spec limit (Z.of_nat (List.length high))) as [H|H].
    + replace (Z.of_nat (Nat.min (Z.to_nat limit) (List.length high)) <? limit)
        with false; [reflexivity|].
      symmetry. apply Z.ltb_ge. lia.
    + replace (Z.of_nat (Nat.min (Z.to_nat limit) (List.length high)) <? limit)
        with true by (symmetry; apply Z.ltb_lt; lia).
      destruct (0 <? List.length sorted)%nat eqn:Hn; [reflexivity|].
      apply Nat.ltb_ge in Hn. unfold high.
      destruct sorted; [|simpl in Hn; lia].
      simpl. now rewrite firstn_nil.
  - rewrite floorPolicy_length, sort_desc_length by assumption.
    unfold Scored.
    now rewrite (mapM_length _ _ _ Hscored), (mapM_length _ _ _ Hdocs).
Qed.

End FloorPolicy.

(* ------------------------------------------------------------------ *)
(** ** A rejected term empties the search *)

(** A field of an object literal is the value of the first expression
    given for its key. *)
Lemma evalFields_assoc fields l :
  evalFields fields = Ok l ->
  forall k, JS.assoc k l =
            match find (fun p => String.eqb k (fst p)) fields with
            | Some (_, Ok v) => v
            | _ => VUndef
            end.
Proof.
  revert l. induction fields as [|[k' e] fields IH]; intros l H k.
  - now injection H as <-.
  - cbn [evalFields] in H. destruct e as [v|]; [cbn [rbind] in H|discriminate].
    destruct (evalFields fields) as [l'|]; [cbn [rbind] in H|discriminate].
    injection H as <-. cbn [JS.assoc find fst].
    destruct (String.eqb k k'); [reflexivity|]. now apply IH.
Qed.

Section RejectedTerm.

Variable regexp : RegExpEngine.

Lemma billRecord_title subject fields rec :
  CongressAPI.billRecord subject (VObj fields) = Ok rec ->
  JS.prop rec "title" = Ok (JS.assoc "title" fields).
Proof.
  unfold CongressAPI.billRecord, object. intros H.
  destruct (evalFields _) as [l|] eqn:E; [|discriminate].
  injection H as <-. cbn [JS.prop].
  now rewrite (evalFields_assoc _ _ E "title").
Qed.

Lemma documentRecord_title fields rec :
  FederalRegisterAPI.documentRecord (VObj fields) = Ok rec ->
  JS.prop rec "title" = Ok (JS.assoc "title" fields).
Proof.
  unfold FederalRegisterAPI.documentRecord, object. intros H.
  destruct (evalFields _) as [l|] eqn:E; [|discriminate].
  injection H as <-. cbn [JS.prop].
  now rewrite (evalFields_assoc _ _ E "title").
Qed.

Lemma weighted_raises title query term weight score :
  In term (queryTerms query) ->
  includes term (toLowerCase title) = true ->
  regexp term (toLowerCase title) = None ->
  weighted regexp (VStr title) query weight score = Throw SyntaxError.
Proof.
  intros Hin Hinc Hrej.
  pose proof (queryTerms_length _ _ Hin) as Hlen.
  assert (title <> "") as Ht by (eapply includes_nonempty; [|exact Hinc]; lia).
  assert (query <> "") as Hq.
  { apply queryTerms_nonempty_query. intros E. now rewrite E in Hin. }
  apply String.eqb_neq in Ht, Hq.
  unfold weighted, calculateRelevanceScore_any. cbn [JS.truthy].
  rewrite Ht, Hq. cbn [negb orb].
  now rewrite (calculateRelevanceScore_raises regexp _ _ _ Hin Hinc Hrej).
Qed.

Lemma scoreBillRelevance_raises bill title query term :
  JS.prop bill "title" = Ok (VStr title) ->
  In term (queryTerms query) ->
  includes term (toLowerCase title) = true ->
  regexp term (toLowerCase title) = None ->
  scoreBillRelevance regexp bill query = Throw SyntaxError.
Proof.
  intros Htitle Hin Hinc Hrej. unfold scoreBillRelevance.
  rewrite Htitle. cbn [rbind].
  now rewrite (weighted_raises _ _ _ _ _ Hin Hinc Hrej).
Qed.

Lemma scoreDocumentRelevance_raises doc title query term :
  JS.prop doc "title" = Ok (VStr title) ->
  In term (queryTerms query) ->
  includes term (toLowerCase title) = true ->
  regexp term (toLowerCase title) = None ->
  scoreDocumentRelevance regexp doc query = Throw SyntaxError.
Proof.
  intros Htitle Hin Hinc Hrej. unfold scoreDocumentRelevance.
  rewrite Htitle. cbn [rbind].
  now rewrite (weighted_raises _ _ _ _ _ Hin Hinc Hrej).
Qed.

Lemma prop_VStr_object v k s :
  JS.prop v k = Ok (VStr s) ->
  exists fields, v = VObj fields /\ JS.assoc k fields = VStr s.
Proof.
  destruct v; simpl; try discriminate.
  intros [= H]. now eexists.
Qed.

Lemma rankBills_raises query limit data raw bill title term :
  JS.prop data "bills" = Ok (VArr raw) ->
  In bill raw ->
  JS.prop bill "title" = Ok (VStr title) ->
  In term (queryTerms query) ->
  includes term (toLowerCase title) = true ->
  regexp term (toLowerCase title) = None ->
  exists e, CongressAPI.rankBills regexp query limit data = Throw e.
Proof.
  intros Hdata Hbill Htitle Hin Hinc Hrej.
  unfold CongressAPI.rankBills. rewrite Hdata.
  cbn [rbind JS.or JS.truthy JS.iterate_array].
  destruct (mapM _ raw) as [bills|] eqn:Hbills; [cbn [rbind]|now eexists].
  destruct (mapM_In _ _ _ _ Hbills Hbill) as [rec [Hrec Hin']].
  destruct (prop_VStr_object _ _ _ Htitle) as [fields [-> Hassoc]].
  apply billRecord_title in Hrec. rewrite Hassoc in Hrec.
  destruct (mapM_raises
              (fun bill => relevanceScore <- scoreBillRelevance regexp bill query ;;
                           Ok (relevanceScore, bill))
              bills rec SyntaxError Hin') as [e ->]; [|now eexists].
  now rewrite (scoreBillRelevance_raises _ _ _ _ Hrec Hin Hinc Hrej).
Qed.

Lemma searchBills_rejected_term apiKey query congress limit w log
      r raw bill title term :
  w (CongressAPI.searchBillsRequest apiKey query congress (default 20 limit))
  = Axios.HttpResponse r ->
  JS.prop (Axios.data r) "bills" = Ok (VArr raw) ->
  In bill raw ->
  JS.prop bill "title" = Ok (VStr title) ->
  In term (queryTerms query) ->
  includes term (toLowerCase title) = true ->
  regexp term (toLowerCase title) = None ->
  CongressAPI.searchBills regexp apiKey query congress limit w log
  = (Ok (VArr []),
     log ++ [CongressAPI.searchBillsRequest apiKey query congress
                                            (default 20 limit)]).
Proof.
  intros Hw Hdata Hbill Htitle Hin Hinc Hrej.
  rewrite searchBills_run, Hw. unfold settle.
  destruct (rankBills_raises query (default 20 limit) _ _ _ _ _
              Hdata Hbill Htitle Hin Hinc Hrej) as [e ->].
  now destruct (Axios.validateStatus _).
Qed.

End RejectedTerm.

(** C1. Where every candidate is normalized and scored, [searchBills] and
    [searchDocuments] return the floor policy applied to the candidates
    sorted by score, min(limit, number of candidates) records. But the
    result is empty although the upstream returned candidates when the
    scoring raises: with an engine that rejects an unclosed group, the
    query "501(c" and an upstream bill titled
    "501(c)(3) Nonprofit Reform Act" give the empty list. *)
Theorem search_floor_policy_and_its_failure (regexp : RegExpEngine) :
  Pattern.rejects_unterminated_groups regexp ->
  (forall apiKey query congress limit w log r raw bills scored,
      1 <= limit ->
      w (CongressAPI.searchBillsRequest apiKey query congress limit)
      = Axios.HttpResponse r ->
      Axios.validateStatus (Axios.status r) = true ->
      JS.prop (Axios.data r) "bills" = Ok (VArr raw) ->
      mapM (CongressAPI.billRecord CongressAPI.subjectNameOrSelf) raw = Ok bills ->
      mapM (fun bill => relevanceScore <- scoreBillRelevance regexp bill query ;;
                        Ok (relevanceScore, bill)) bills = Ok scored ->
      CongressAPI.logTopScores (sort_desc scored) = Ok tt ->
      fst (CongressAPI.searchBills regexp apiKey query congress (Some limit) w log)
      = Ok (VArr (floorPolicy limit (sort_desc scored))) /\
      List.length (floorPolicy limit (sort_desc scored))
      = Z.to_nat (Z.min limit (Z.of_nat (List.length raw)))) /\
  (forall query limit w log r raw documents scored,
      1 <= limit ->
      w (FederalRegisterAPI.searchDocumentsRequest query limit)
      = Axios.HttpResponse r ->
      Axios.validateStatus (Axios.status r) = true ->
      JS.prop (Axios.data r) "results" = Ok (VArr raw) ->
      mapM FederalRegisterAPI.documentRecord raw = Ok documents ->
      mapM (fun doc => relevanceScore <- scoreDocumentRelevance regexp doc query ;;
                       Ok (relevanceScore, doc)) documents = Ok scored ->
      fst (FederalRegisterAPI.searchDocuments regexp query (Some limit) w log)
      = Ok (VArr (floorPolicy limit (sort_desc scored))) /\
      List.length (floorPolicy limit (sort_desc scored))
      = Z.to_nat (Z.min limit (Z.of_nat (List.length raw)))) /\
  (forall apiKey w log,
      w (CongressAPI.searchBillsRequest apiKey "501(c" None 20)
      = Axios.HttpResponse
          (Axios.mkResponse 200 "OK"
             (VObj [("bills",
                     VArr [VObj [("title", VStr "501(c)(3) Nonprofit Reform Act")];
                           VObj [("title", VStr "Charity Oversight Act")]])])) ->
      fst (CongressAPI.searchBills regexp apiKey "501(c" None (Some 20) w log)
      = Ok (VArr [])).
Proof.
  intros Hrej. split; [|split].
  - intros apiKey query congress limit w log r raw bills scored
           Hl Hw Hv Hdata Hbills Hscored Hlog.
    destruct (rankBills_floor_policy regexp query limit _ _ _ _
                Hdata Hbills Hscored Hlog Hl) as [Hrank Hlen].
    split; [|exact Hlen].
    rewrite searchBills_run. cbn [fst default]. rewrite Hw. unfold settle.
    now rewrite Hv, Hrank.
  - intros query limit w log r raw documents scored
           Hl Hw Hv Hdata Hdocs Hscored.
    destruct (rankDocuments_floor_policy regexp query limit _ _ _ _
                Hdata Hdocs Hscored Hl) as [Hrank Hlen].
    split; [|exact Hlen].
    rewrite searchDocuments_run. cbn [fst default]. rewrite Hw. unfold settle.
    now rewrite Hv, Hrank.
  - intros apiKey w log Hw.
    erewrite (searchBills_rejected_term regexp apiKey "501(c" None (Some 20)
                w log _ _ _ "501(c)(3) Nonprofit Reform Act" "501(c" Hw).
    + reflexivity.
    + reflexivity.
    + now left.
    + reflexivity.
    + now left.
    + reflexivity.
    + now apply Hrej.
Qed.

Lemma search_floor_policy_and_its_failure_witness :
  fst (CongressAPI.searchBills Pattern.fragment_engine "" "501(c" None (Some 20)
         (fun _ => Axios.HttpResponse
            (Axios.mkResponse 200 "OK"
               (VObj [("bills",
                       VArr [VObj [("title", VStr "501(c)(3) Nonprofit Reform Act")];
                             VObj [("title", VStr "Charity Oversight Act")]])])))
         [])
  = Ok (VArr []).
Proof.
  apply (search_floor_policy_and_its_failure Pattern.fragment_engine
           fragment_engine_rejects).
  reflexivity.
Defined.

(** C10. With an engine that rejects an unclosed group, a retained term
    with an unclosed group makes the scoring of every text that contains
    it raise, and makes [searchBills] return the empty list, without
    raising, whenever the title of an upstream candidate contains it. *)
Theorem unclosed_group_term_empties_searchBills
        (regexp : RegExpEngine) (query term : string) :
  Pattern.rejects_unterminated_groups regexp ->
  In term (queryTerms query) ->
  Pattern.unterminated_group term = true ->
  (2 < String.length term)%nat /\
  (forall text,
      includes term (toLowerCase text) = true ->
      calculateRelevanceScore regexp text query = Throw SyntaxError) /\
  (forall apiKey congress limit w log r raw bill title,
      w (CongressAPI.searchBillsRequest apiKey query congress (default 20 limit))
      = Axios.HttpResponse r ->
      Axios.validateStatus (Axios.status r) = true ->
      JS.prop (Axios.data r) "bills" = Ok (VArr raw) ->
      In bill raw ->
      JS.prop bill "title" = Ok (VStr title) ->
      includes term (toLowerCase title) = true ->
      CongressAPI.searchBills regexp apiKey query congress limit w log
      = (Ok (VArr []),
         log ++ [CongressAPI.searchBillsRequest apiKey query congress
                                                (default 20 limit)])).
Proof.
  intros Hrej Hin Hopen. split; [now apply queryTerms_length with query|].
  split.
  - intros text Hinc.
    apply (calculateRelevanceScore_raises regexp _ _ term Hin Hinc).
    now apply Hrej.
  - intros apiKey congress limit w log r raw bill title
           Hw _ Hdata Hbill Htitle Hinc.
    apply (searchBills_rejected_term regexp _ _ _ _ _ _ _ _ _ _ term
             Hw Hdata Hbill Htitle Hin Hinc).
    now apply Hrej.
Qed.

Lemma unclosed_group_term_empties_searchBills_witness :
  calculateRelevanceScore Pattern.fragment_engine
    "Amending section 230(c) of the Communications Act" "section 230(c"
  = Throw SyntaxError /\
  fst (CongressAPI.searchBills Pattern.fragment_engine "" "section 230(c"
         None (Some 10)
         (fun _ => Axios.HttpResponse
            (Axios.mkResponse 200 "OK"
               (VObj [("bills",
                       VArr [VObj [("title", VStr "Broadband Act")];
                             VObj [("title",
                                    VStr "Amending section 230(c) of the Communications Act")]])])))
         [])
  = Ok (VArr []).
Proof.
  destruct (unclosed_group_term_empties_searchBills Pattern.fragment_engine
              "section 230(c" "230(c" fragment_engine_rejects)
    as [_ [Hscore Hsearch]].
  - right; now left.
  - reflexivity.
  - split.
    + apply Hscore. reflexivity.
    + erewrite (Hsearch "" None (Some 10) _ []
                  (Axios.mkResponse 200 "OK" _) _
                  (VObj [("title",
                          VStr "Amending section 230(c) of the Communications Act")])).
      * reflexivity.
      * reflexivity.
      * reflexivity.
      * reflexivity.
      * right; now left.
      * reflexivity.
      * reflexivity.
Defined.

(* ------------------------------------------------------------------ *)
(** ** No adapter method raises *)

Lemma optmap_shape raw f y :
  JS.optmap raw f = Ok y -> y = VUndef \/ exists l, y = VArr l.
Proof.
  destruct raw; simpl; try discriminate; try (intros [= <-]; now left).
  destruct (mapM f elems); [|discriminate].
  intros [= <-]. right. now eexists.
Qed.

(** [raw?.map(f) || []] is a list. *)
Lemma optmap_or_empty raw f v :
  (xs <- JS.optmap raw f ;; Ok (JS.or xs (VArr []))) = Ok v ->
  exists l, v = VArr l.
Proof.
  destruct (JS.optmap raw f) as [y|] eqn:E; [cbn [rbind]|discriminate].
  intros [= <-].
  destruct (optmap_shape _ _ _ E) as [->|[l ->]]; now eexists.
Qed.

Lemma prop_optmap_or_empty data key f v :
  (raw <- JS.prop data key ;; xs <- JS.optmap raw f ;;
   Ok (JS.or xs (VArr []))) = Ok v ->
  exists l, v = VArr l.
Proof.
  destruct (JS.prop data key); [cbn [rbind]|discriminate].
  apply optmap_or_empty.
Qed.

Lemma rankBills_shape regexp query limit data v :
  CongressAPI.rankBills regexp query limit data = Ok v -> exists l, v = VArr l.
Proof.
  unfold CongressAPI.rankBills. intros H.
  repeat match type of H with
         | rbind ?e _ = Ok _ =>
             destruct e; cbn [rbind] in H; [|discriminate H]
         end.
  repeat match type of H with
         | (if ?b then _ else _) = Ok _ => destruct b
         end;
    injection H as <-; now eexists.
Qed.

Lemma rankDocuments_shape regexp query limit data v :
  FederalRegisterAPI.rankDocuments regexp query limit data = Ok v ->
  exists l, v = VArr l.
Proof.
  unfold FederalRegisterAPI.rankDocuments. intros H.
  repeat match type of H with
         | rbind ?e _ = Ok _ =>
             destruct e; cbn [rbind] in H; [|discriminate H]
         end.
  destruct (_ && _); injection H as <-; now eexists.
Qed.

(** An adapter whose computation yields lists and whose fallback is the
    empty list resolves to a list. *)
Lemma settle_list validate compute u :
  (forall r v, compute r = Ok v -> exists l, v = VArr l) ->
  exists l, settle validate compute (VArr []) u = VArr l.
Proof.
  intros Hshape. unfold settle. destruct u as [code|r]; [now eexists|].
  destruct (validate (Axios.status r)); [|now eexists].
  destruct (compute r) as [v|] eqn:E; [|now eexists].
  now apply Hshape in E.
Qed.

(** On an upstream failure an adapter that validates the status as axios
    does resolves to its fallback. *)
Lemma settle_failure compute fallback u :
  upstreamFailure u ->
  settle Axios.validateStatus compute fallback u = fallback.
Proof.
  unfold settle, upstreamFailure, Axios.validateStatus.
  destruct u as [code|r]; [reflexivity|]. intros H.
  replace (Axios.status r <? 300) with false by (symmetry; apply Z.ltb_ge; lia).
  now rewrite andb_false_r.
Qed.

Lemma searchCode_failure compute u :
  upstreamFailure u ->
  settle USCodeAPI.validateStatus
         (fun r => if 400 <=? Axios.status r then Ok (VArr []) else compute r)
         (VArr []) u = VArr [].
Proof.
  unfold settle, upstreamFailure. destruct u as [code|r]; [reflexivity|].
  intros H. destruct (USCodeAPI.validateStatus _); [|reflexivity].
  now replace (400 <=? Axios.status r) with true by (symmetry; apply Z.leb_le; lia).
Qed.

Lemma clientError_failure u : clientError u -> upstreamFailure u.
Proof. destruct u; simpl; [contradiction | lia]. Qed.

Lemma prop_fieldOf v k x : JS.prop v k = Ok x -> x = fieldOf k v.
Proof.
  destruct v; cbn [JS.prop fieldOf]; try discriminate; now intros [= <-].
Qed.


(** A payload that holds no array where the list is expected gives the
    empty list, where it gives anything. *)
Lemma unranked_no_list data key f v :
  JS.isArray (fieldOf key data) = false ->
  (raw <- JS.prop data key ;; xs <- JS.optmap raw f ;;
   Ok (JS.or xs (VArr []))) = Ok v ->
  v = VArr [].
Proof.
  intros Harr. destruct (JS.prop data key) as [raw|] eqn:E;
    [cbn [rbind]|discriminate].
  apply prop_fieldOf in E. subst raw.
  destruct (fieldOf key data); try discriminate Harr;
    cbn [JS.optmap JS.map rbind]; try discriminate; now intros [= <-].
Qed.

Lemma rankBills_no_list regexp query limit data v :
  JS.isArray (fieldOf "bills" data) = false ->
  CongressAPI.rankBills regexp query limit data = Ok v -> v = VArr [].
Proof.
  intros Harr. unfold CongressAPI.rankBills.
  destruct (JS.prop data "bills") as [raw|] eqn:E; [cbn [rbind]|discriminate].
  apply prop_fieldOf in E. subst raw. unfold JS.or.
  destruct (fieldOf "bills" data) eqn:Ef; try discriminate Harr;
    destruct (JS.truthy _);
    cbn [JS.iterate_array rbind mapM sort_desc fold_right List.length
         Nat.ltb Nat.leb filter]; try discriminate;
    unfold JS.slice0; rewrite !firstn_nil;
    destruct (limit <=? _); now intros [= <-].
Qed.

Lemma rankDocuments_no_list regexp query limit data v :
  JS.isArray (fieldOf "results" data) = false ->
  FederalRegisterAPI.rankDocuments regexp query limit data = Ok v ->
  v = VArr [].
Proof.
  intros Harr. unfold FederalRegisterAPI.rankDocuments.
  destruct (JS.prop data "results") as [raw|] eqn:E;
    [cbn [rbind]|discriminate].
  apply prop_fieldOf in E. subst raw. unfold JS.or.
  destruct (fieldOf "results" data) eqn:Ef; try discriminate Harr;
    destruct (JS.truthy _);
    cbn [JS.iterate_array rbind mapM sort_desc fold_right List.length
         Nat.ltb Nat.leb filter]; try discriminate;
    unfold JS.slice0; rewrite !firstn_nil;
    destruct (_ && _); now intros [= <-].
Qed.

Lemma settle_no_list validate compute r :
  (forall v, compute r = Ok v -> v = VArr []) ->
  settle validate compute (VArr []) (Axios.HttpResponse r) = VArr [].
Proof.
  intros H. unfold settle. destruct (validate _); [|reflexivity].
  destruct (compute r) as [v|] eqn:E; [now apply H | reflexivity].
Qed.

(** C2, as amended. Every adapter method, whatever the world answers,
    returns a value and raises nothing. A list method returns a list: the
    empty one when the request fails (no response, or a 4xx or 5xx status;
    for [searchCode] on every 4xx), and whenever the payload holds no
    array where the list is expected. A single-record method returns null
    when the request fails and when the payload is null or undefined, and
    [getBillDetails] when the payload holds no bill; but a 2xx response
    with an object for its payload makes [getSection], [getOpinion] and
    [getDocumentDetails] (where the object has no sections) return a
    record, whatever the object holds. *)
Theorem adapters_never_raise (regexp : RegExpEngine) (api : USLegalAPI.t)
        (c : AdapterCall) (w : Axios.World) (log : list Axios.Request) :
  exists v log',
    invoke regexp api c w log = (Ok v, log') /\
    (returnsList c = true -> exists l, v = VArr l) /\
    ((forall req, upstreamFailure (w req)) ->
     v = if returnsList c then VArr [] else VNull) /\
    (forall query title limit,
        c = SearchCode query title limit ->
        (forall req, clientError (w req)) -> v = VArr []) /\
    (forall key r,
        payloadList c = Some key ->
        (forall req, w req = Axios.HttpResponse r) ->
        JS.isArray (fieldOf key (Axios.data r)) = false ->
        v = VArr []) /\
    (forall r,
        returnsList c = false ->
        (forall req, w req = Axios.HttpResponse r) ->
        Axios.data r = VNull \/ Axios.data r = VUndef ->
        v = VNull) /\
    (forall congress billType billNumber r,
        c = GetBillDetails congress billType billNumber ->
        (forall req, w req = Axios.HttpResponse r) ->
        fieldOf "bill" (Axios.data r) = VNull \/
        fieldOf "bill" (Axios.data r) = VUndef ->
        v = VNull) /\
    (forall r fields,
        readsBody c = true ->
        (forall req, w req = Axios.HttpResponse r) ->
        Axios.validateStatus (Axios.status r) = true ->
        Axios.data r = VObj fields ->
        (forall documentNumber,
            c = GetDocumentDetails documentNumber ->
            JS.assoc "sections" fields = VUndef) ->
        exists rec, v = VObj rec).
Proof.
  destruct c; cbn [invoke returnsList payloadList readsBody];
    try (rewrite searchBills_run || rewrite searchDocuments_run
         || rewrite searchCode_run || rewrite searchComments_run);
    try (unfold CongressAPI.getBillDetails, CongressAPI.getRecentBills,
           CongressAPI.searchVotes, CongressAPI.getCommittees,
           FederalRegisterAPI.getRecentDocuments,
           FederalRegisterAPI.getDocumentDetails, USCodeAPI.getSection,
           CourtListenerAPI.searchOpinions, CourtListenerAPI.getRecentOpinions,
           CourtListenerAPI.getOpinion;
         cbv zeta; rewrite adapter_run);
    (eexists; eexists; split; [reflexivity|]);
    (split; [|split; [|split; [|split; [|split; [|split]]]]]);
    try discriminate;
    try (intros _; apply settle_list; intros r v;
         first [ apply rankBills_shape | apply rankDocuments_shape
               | apply prop_optmap_or_empty
               | destruct (400 <=? Axios.status r);
                 [intros [= <-]; now eexists | apply prop_optmap_or_empty] ]);
    try (intros Hfail; first [ apply settle_failure | apply searchCode_failure ];
         apply Hfail);
    try (intros ? ? ? [= ] Hclient; apply searchCode_failure;
         apply clientError_failure, Hclient);
    try (intros ? ? ? ? [= ]; fail);
    try (intros key r [= <-] Hw Harr; rewrite Hw; apply settle_no_list;
         intros v;
         first [ now apply rankBills_no_list
               | now apply rankDocuments_no_list
               | now apply unranked_no_list
               | destruct (400 <=? Axios.status r);
                 [now intros [= <-] | now apply unranked_no_list] ]);
    try (intros r _ Hw Hdata; rewrite Hw; unfold settle;
         destruct (Axios.validateStatus _); [|reflexivity];
         destruct Hdata as [-> | ->]; reflexivity).
  - (* getBillDetails, no bill *)
    intros congress0 billType0 billNumber0 r _ Hw Hbill. rewrite Hw.
    unfold settle. destruct (Axios.validateStatus _); [|reflexivity].
    destruct (JS.prop (Axios.data r) "bill") as [bill|] eqn:E;
      [cbn [rbind]|reflexivity].
    apply prop_fieldOf in E. subst bill.
    destruct Hbill as [-> | ->]; reflexivity.
  - (* getDocumentDetails, an object without sections *)
    intros r fields _ Hw Hstatus Hdata Hsections. rewrite Hw.
    unfold settle. rewrite Hstatus, Hdata.
    unfold object, FederalRegisterAPI.documentFields.
    cbn [app evalFields JS.prop rbind].
    rewrite (Hsections _ eq_refl). cbn [JS.optmap rbind]. now eexists.
  - (* getSection, an object *)
    intros r fields _ Hw Hstatus Hdata _. rewrite Hw.
    unfold settle. rewrite Hstatus, Hdata.
    unfold USCodeAPI.sectionRecord, object.
    cbn [evalFields JS.prop rbind]. now eexists.
  - (* getOpinion, an object *)
    intros r fields _ Hw Hstatus Hdata _. rewrite Hw.
    unfold settle. rewrite Hstatus, Hdata.
    unfold CourtListenerAPI.opinionDetails, object.
    cbn [evalFields JS.prop rbind]. now eexists.
Qed.

(** C2, counterexample. A 200 response whose payload is the empty object
    is no failure for [getSection], [getOpinion] and [getDocumentDetails]:
    each returns a record, all of whose fields are undefined, and not
    null. [getBillDetails] does return null on it. *)
Lemma malformed_payload_gives_record_not_null :
  let w : Axios.World :=
    fun _ => Axios.HttpResponse (Axios.mkResponse 200 "OK" (VObj [])) in
  let call c :=
    fst (invoke Pattern.fragment_engine (USLegalAPI.new "" "" None) c w []) in
  call (GetSection 42 "1983")
  = Ok (VObj [ ("title", VUndef); ("section", VUndef); ("text", VUndef);
               ("url", VUndef); ("last_updated", VUndef);
               ("source", VUndef) ]) /\
  (exists rec, call (GetOpinion 108713) = Ok (VObj rec) /\
               serialize (VObj rec) = VObj []) /\
  (exists rec, call (GetDocumentDetails "2024-01234") = Ok (VObj rec) /\
               serialize (VObj rec) = VObj []) /\
  call (GetBillDetails 118 "hr" 1) = Ok VNull.
Proof.
  cbv zeta. split; [reflexivity|]. split; [|split; [|reflexivity]].
  - eexists. split; reflexivity.
  - eexists. split; reflexivity.
Qed.

(* ------------------------------------------------------------------ *)
(** ** The aggregator *)

Lemma ceil_quarter_spec limit :
  limit <= 4 * USLegalAPI.ceil_quarter limit < limit + 4.
Proof.
  unfold USLegalAPI.ceil_quarter.
  pose proof (Z.div_mod (- limit) 4 ltac:(lia)) as Hdm.
  pose proof (Z.mod_pos_bound (- limit) 4 ltac:(lia)) as Hb.
  lia.
Qed.

Lemma searchCode_shape u :
  exists l,
    settle USCodeAPI.validateStatus
      (fun r => if 400 <=? Axios.status r then Ok (VArr [])
                else
                  (results <- JS.prop (Axios.data r) "results" ;;
                   sections <- JS.optmap results USCodeAPI.sectionRecord ;;
                   Ok (JS.or sections (VArr []))))
      (VArr []) u = VArr l.
Proof.
  apply settle_list. intros r v.
  destruct (400 <=? Axios.status r);
    [intros [= <-]; now eexists | apply prop_optmap_or_empty].
Qed.

(** C3. [searchAll] sends exactly four requests, those of [searchBills],
    [searchDocuments], [searchCode] and [searchComments] called with the
    limit ceil(limit / 4), and returns an object with exactly the keys
    bills, regulations, codeSections and comments, each bound to the list
    its adapter returns; a source whose upstream fails contributes the
    empty list. For a limit of 20 the limit of each source is 5. *)
Theorem searchAll_fans_out (regexp : RegExpEngine) (api : USLegalAPI.t)
        (query : string) (limit : Z) (w : Axios.World)
        (log : list Axios.Request) :
  let per := USLegalAPI.ceil_quarter limit in
  let billsRequest :=
    CongressAPI.searchBillsRequest (USLegalAPI.congress api) query None per in
  let documentsRequest :=
    FederalRegisterAPI.searchDocumentsRequest query per in
  let codeRequest := USCodeAPI.searchCodeRequest query None per in
  let commentsRequest :=
    RegulationsGovAPI.searchCommentsRequest (USLegalAPI.regulationsGov api)
                                            query per in
  limit <= 4 * per < limit + 4 /\
  USLegalAPI.ceil_quarter 20 = 5 /\
  exists bills regulations codeSections comments,
    USLegalAPI.searchAll regexp api query (Some limit) w log
    = (Ok (VObj [ ("bills", VArr bills);
                  ("regulations", VArr regulations);
                  ("codeSections", VArr codeSections);
                  ("comments", VArr comments) ]),
       log ++ [billsRequest; documentsRequest; codeRequest; commentsRequest]) /\
    fst (CongressAPI.searchBills regexp (USLegalAPI.congress api) query None
           (Some per) w []) = Ok (VArr bills) /\
    fst (FederalRegisterAPI.searchDocuments regexp query (Some per) w [])
    = Ok (VArr regulations) /\
    fst (USCodeAPI.searchCode query None (Some per) w [])
    = Ok (VArr codeSections) /\
    fst (RegulationsGovAPI.searchComments (USLegalAPI.regulationsGov api) query
           (Some per) w []) = Ok (VArr comments) /\
    (upstreamFailure (w billsRequest) -> bills = []) /\
    (upstreamFailure (w documentsRequest) -> regulations = []) /\
    (upstreamFailure (w codeRequest) -> codeSections = []) /\
    (upstreamFailure (w commentsRequest) -> comments = []).
Proof.
  intros per billsRequest documentsRequest codeRequest commentsRequest.
  split; [apply ceil_quarter_spec|]. split; [reflexivity|].
  unfold USLegalAPI.searchAll, iobind, ioret. cbn [default]. fold per.
  rewrite !searchBills_run, !searchDocuments_run, !searchCode_run,
          !searchComments_run.
  cbn [default fst]. fold billsRequest documentsRequest codeRequest commentsRequest.
  destruct (settle_list Axios.validateStatus
              (fun r => CongressAPI.rankBills regexp query per (Axios.data r))
              (w billsRequest))
    as [bills Hbills]; [intros r v; apply rankBills_shape|].
  destruct (settle_list Axios.validateStatus
              (fun r => FederalRegisterAPI.rankDocuments regexp query per
                          (Axios.data r))
              (w documentsRequest))
    as [regulations Hregs]; [intros r v; apply rankDocuments_shape|].
  destruct (searchCode_shape (w codeRequest)) as [codeSections Hcode].
  destruct (settle_list Axios.validateStatus
              (fun r => rawComments <- JS.prop (Axios.data r) "data" ;;
                        comments <- JS.optmap rawComments
                                      RegulationsGovAPI.commentRecord ;;
                        Ok (JS.or comments (VArr [])))
              (w commentsRequest))
    as [comments Hcomments]; [intros r v; apply prop_optmap_or_empty|].
  exists bills, regulations, codeSections, comments.
  rewrite Hbills, Hregs, Hcode, Hcomments.
  repeat rewrite <- app_assoc. cbn [app].
  repeat split.
  - intros Hfail. rewrite settle_failure in Hbills by assumption. congruence.
  - intros Hfail. rewrite settle_failure in Hregs by assumption. congruence.
  - intros Hfail. rewrite searchCode_failure in Hcode by assumption. congruence.
  - intros Hfail. rewrite settle_failure in Hcomments by assumption. congruence.
Qed.

(* ------------------------------------------------------------------ *)
(** ** String forms *)

Lemma value_nested_ind (P : value -> Prop) :
  P VUndef -> P VNull -> (forall b, P (VBool b)) -> (forall n, P (VNum n)) ->
  (forall s, P (VStr s)) ->
  (forall elems, Forall P elems -> P (VArr elems)) ->
  (forall fields, Forall (fun p => P (snd p)) fields -> P (VObj fields)) ->
  forall v, P v.
Proof.
  intros HU HN HB HZ HS HA HO. fix IH 1. intros [| |b|n|s|elems|fields].
  - exact HU.
  - exact HN.
  - apply HB.
  - apply HZ.
  - apply HS.
  - apply HA. induction elems as [|x xs IHxs]; constructor; [apply IH | exact IHxs].
  - apply HO. induction fields as [|[k x] fs IHfs]; constructor;
      [apply IH | exact IHfs].
Qed.

(** The conversion to a string raises nothing but a [TypeError]. *)
Lemma template_TypeError v e : JS.template v = Throw e -> e = TypeError.
Proof.
  revert e. induction v as [| |b|n|s|elems IH|fields IH] using value_nested_ind;
    intros e; cbn [JS.template]; try discriminate.
  - induction IH as [|x xs Hx _ IHxs]; [discriminate|].
    assert (forall e', match x with
                       | VUndef | VNull => Ok ""%string
                       | _ => JS.template x
                       end = Throw e' -> e' = TypeError) as Hhead.
    { intros e'. destruct x; try discriminate; apply Hx. }
    destruct (match x with
              | VUndef | VNull => Ok ""%string
              | _ => JS.template x
              end) as [sx|e'] eqn:Ex; cbn [rbind].
    + destruct xs as [|y ys]; [discriminate|].
      match goal with
      | |- rbind ?r _ = _ -> _ => destruct r as [rest|e'] eqn:Er
      end; cbn [rbind]; [discriminate|].
      intros [= <-]. now apply IHxs.
    + intros [= <-]. now apply Hhead.
  - destruct (existsb _ fields); [now intros [= <-] | discriminate].
Qed.

Lemma template_cons x y ys :
  JS.template (VArr (x :: y :: ys))
  = (sx <- match x with
           | VUndef | VNull => Ok ""%string
           | _ => JS.template x
           end ;;
     rest <- JS.template (VArr (y :: ys)) ;;
     Ok (sx ++ "," ++ rest)%string).
Proof. reflexivity. Qed.

Lemma toString_cons x y ys :
  JS.toString (VArr (x :: y :: ys))
  = (match x with
     | VUndef | VNull => ""
     | _ => JS.toString x
     end ++ "," ++ JS.toString (VArr (y :: ys)))%string.
Proof. reflexivity. Qed.

(** Where the conversion returns, it returns the string of [toString]. *)
Lemma template_toString v s : JS.template v = Ok s -> s = JS.toString v.
Proof.
  revert s. induction v as [| |b|n|t|elems IH|fields IH] using value_nested_ind;
    try (now intros s [= <-]).
  - induction IH as [|x xs Hx _ IHxs]; intros s; [now intros [= <-]|].
    assert (forall sx, match x with
                       | VUndef | VNull => Ok ""%string
                       | _ => JS.template x
                       end = Ok sx ->
                       sx = match x with
                            | VUndef | VNull => ""%string
                            | _ => JS.toString x
                            end) as Hhead.
    { intros sx. destruct x; try (now intros [= <-]); apply Hx. }
    destruct xs as [|y ys].
    + change (JS.template (VArr [x]))
        with (sx <- match x with
                    | VUndef | VNull => Ok ""%string
                    | _ => JS.template x
                    end ;; Ok sx).
      change (JS.toString (VArr [x]))
        with (match x with
              | VUndef | VNull => ""%string
              | _ => JS.toString x
              end).
      destruct (match x with
                | VUndef | VNull => Ok ""%string
                | _ => JS.template x
                end) as [sx|e'] eqn:Ex; cbn [rbind]; [|discriminate].
      intros [= <-]. now apply Hhead.
    + rewrite template_cons, toString_cons.
      destruct (match x with
                | VUndef | VNull => Ok ""%string
                | _ => JS.template x
                end) as [sx|e'] eqn:Ex; cbn [rbind]; [|discriminate].
      rewrite <- (Hhead sx eq_refl).
      destruct (JS.template (VArr (y :: ys))) as [rest|e'] eqn:Er;
        cbn [rbind]; [|discriminate].
      intros [= <-]. now rewrite <- (IHxs rest eq_refl).
  - intros s. cbn [JS.template JS.toString].
    destruct (existsb _ fields); [discriminate | now intros [= <-]].
Qed.

(* ------------------------------------------------------------------ *)
(** ** Court opinions *)

Lemma either_object fields a b :
  CourtListenerAPI.either (VObj fields) a b
  = Ok (JS.or (JS.assoc a fields) (JS.assoc b fields)).
Proof.
  unfold CourtListenerAPI.either, JS.or. cbn [JS.prop rbind].
  now destruct (JS.truthy (JS.assoc a fields)).
Qed.

Lemma absoluteUrl_object fields :
  CourtListenerAPI.absoluteUrl (VObj fields)
  = (let explicit := JS.or (JS.assoc "absoluteUrl" fields)
                           (JS.assoc "absolute_url" fields) in
     if JS.truthy explicit then Ok explicit
     else if JS.truthy (JS.assoc "id" fields)
          then CourtListenerAPI.synthesizedUrl (JS.assoc "id" fields)
          else Ok VUndef).
Proof.
  unfold CourtListenerAPI.absoluteUrl. rewrite either_object.
  cbn [rbind JS.prop]. now destruct (JS.truthy (JS.or _ _)).
Qed.

(** The record of an opinion, once its URL is there. *)
Lemma opinionRecord_fields fields url :
  CourtListenerAPI.absoluteUrl (VObj fields) = Ok url ->
  exists rec,
    CourtListenerAPI.opinionRecord (VObj fields) = Ok (VObj rec) /\
    (forall canonical first second,
        In (canonical, (first, second)) dualNamedFields ->
        JS.assoc canonical rec
        = if JS.truthy (JS.assoc first fields) then JS.assoc first fields
          else JS.assoc second fields) /\
    (forall name, In name copiedOpinionFields ->
                  JS.assoc name rec = JS.assoc name fields) /\
    JS.assoc "url" rec = url /\
    JS.assoc "absolute_url" rec = url.
Proof.
  intros Hurl. unfold CourtListenerAPI.opinionRecord.
  rewrite Hurl. cbn [rbind].
  unfold object. cbn [evalFields]. rewrite !either_object.
  cbn [JS.prop rbind]. eexists. split; [reflexivity|].
  split; [|split; [|split]].
  - intros canonical first second Hin. unfold dualNamedFields in Hin.
    repeat (destruct Hin as [[= <- <- <-]|Hin]; [reflexivity|]).
    contradiction.
  - intros name Hin. unfold copiedOpinionFields in Hin.
    repeat (destruct Hin as [<-|Hin]; [reflexivity|]).
    contradiction.
  - reflexivity.
  - reflexivity.
Qed.

Lemma listing_compute key record data raw :
  JS.prop data key = Ok (VArr raw) ->
  (rawList <- JS.prop data key ;;
   records <- JS.optmap rawList record ;;
   Ok (JS.or records (VArr [])))
  = (records <- mapM record raw ;; Ok (VArr records)).
Proof.
  intros ->. cbn [rbind JS.optmap JS.map].
  now destruct (mapM record raw).
Qed.

(** What a list method that ranks nothing returns on a response it reads,
    when the list of the payload is an array. *)
Lemma listing_run regexp api c key record w log r raw :
  listing c = Some (key, record) ->
  (forall req, w req = Axios.HttpResponse r) ->
  readsStatus c (Axios.status r) = true ->
  JS.prop (Axios.data r) key = Ok (VArr raw) ->
  fst (invoke regexp api c w log)
  = Ok (VArr match mapM record raw with
             | Ok records => records
             | Throw _ => []
             end).
Proof.
  intros Hlisting Hw Hstatus Hdata.
  destruct c; cbn [listing] in Hlisting; try discriminate;
    injection Hlisting as <- <-; cbn [invoke readsStatus] in *;
    try (rewrite searchCode_run || rewrite searchComments_run);
    try (unfold CongressAPI.getRecentBills, CongressAPI.searchVotes,
           CongressAPI.getCommittees, FederalRegisterAPI.getRecentDocuments,
           CourtListenerAPI.searchOpinions, CourtListenerAPI.getRecentOpinions;
         cbv zeta; rewrite adapter_run);
    cbn [fst]; rewrite Hw; unfold settle;
    try rewrite Hstatus;
    try (unfold USCodeAPI.validateStatus;
         replace (Axios.status r <? 500) with true
           by (symmetry; apply Z.ltb_lt; apply Z.ltb_lt in Hstatus; lia);
         replace (400 <=? Axios.status r) with false
           by (symmetry; apply Z.leb_gt; now apply Z.ltb_lt));
    rewrite (listing_compute _ _ _ _ Hdata);
    now destruct (mapM _ raw).
Qed.

(** C8, as amended. The record built from a raw opinion takes each
    dual-named field from the first name when the value there is truthy
    and from the second name otherwise; [url] and [absolute_url] are the
    explicit URL when one of its two names holds a truthy value, else the
    URL synthesized from the string form of the id when the id is truthy,
    else undefined. An id that is truthy and has no string form (an object
    that hides [toString]) is the one case where no record is built: the
    normalization raises a [TypeError], and a search whose upstream list
    holds such an opinion returns the empty list. *)
Theorem opinion_fields_by_truthiness (fields : list (string * value)) :
  let explicit :=
    if JS.truthy (JS.assoc "absoluteUrl" fields)
    then JS.assoc "absoluteUrl" fields
    else JS.assoc "absolute_url" fields in
  let id := JS.assoc "id" fields in
  let built (url : value) :=
    exists rec,
      CourtListenerAPI.opinionRecord (VObj fields) = Ok (VObj rec) /\
      (forall canonical first second,
          In (canonical, (first, second)) dualNamedFields ->
          JS.assoc canonical rec
          = if JS.truthy (JS.assoc first fields) then JS.assoc first fields
            else JS.assoc second fields) /\
      (forall name, In name copiedOpinionFields ->
                    JS.assoc name rec = JS.assoc name fields) /\
      JS.assoc "url" rec = url /\
      JS.assoc "absolute_url" rec = url in
  if JS.truthy explicit then built explicit
  else if JS.truthy id then
    match JS.template id with
    | Ok text =>
        text = JS.toString id /\
        built (VStr ("https://www.courtlistener.com/opinion/" ++ text ++ "/"))
    | Throw e =>
        e = TypeError /\
        CourtListenerAPI.opinionRecord (VObj fields) = Throw TypeError /\
        forall apiKey query court limit w log r raw,
          (forall req, w req = Axios.HttpResponse r) ->
          Axios.validateStatus (Axios.status r) = true ->
          JS.prop (Axios.data r) "results" = Ok (VArr raw) ->
          In (VObj fields) raw ->
          fst (CourtListenerAPI.searchOpinions apiKey query court limit w log)
          = Ok (VArr []) /\
          fst (CourtListenerAPI.getRecentOpinions apiKey court limit w log)
          = Ok (VArr [])
    end
  else built VUndef.
Proof.
  intros explicit id built.
  pose proof (absoluteUrl_object fields) as Hurl.
  unfold JS.or in Hurl. cbv zeta in Hurl. fold explicit id in Hurl.
  destruct (JS.truthy explicit);
    [exact (opinionRecord_fields fields _ Hurl)|].
  destruct (JS.truthy id); [|exact (opinionRecord_fields fields _ Hurl)].
  unfold CourtListenerAPI.synthesizedUrl in Hurl.
  destruct (JS.template id) as [text|e] eqn:Et; cbn [rbind] in Hurl.
  - split; [now apply template_toString|].
    exact (opinionRecord_fields fields _ Hurl).
  - assert (e = TypeError) as -> by exact (template_TypeError _ _ Et).
    assert (CourtListenerAPI.opinionRecord (VObj fields) = Throw TypeError)
      as Hraise.
    { unfold CourtListenerAPI.opinionRecord. now rewrite Hurl. }
    split; [reflexivity|]. split; [exact Hraise|].
    intros apiKey query court limit w log r raw Hw Hstatus Hdata Hin.
    destruct (mapM_raises CourtListenerAPI.opinionRecord raw _ _ Hin Hraise)
      as [e' He'].
    split.
    + pose proof (listing_run (fun _ _ => None) (USLegalAPI.new "" "" apiKey)
                    (SearchOpinions query court limit) "results"
                    CourtListenerAPI.opinionRecord w log r raw
                    eq_refl Hw Hstatus Hdata) as Hrun.
      cbn [invoke USLegalAPI.courtListener] in Hrun.
      now rewrite Hrun, He'.
    + pose proof (listing_run (fun _ _ => None) (USLegalAPI.new "" "" apiKey)
                    (GetRecentOpinions court limit) "results"
                    CourtListenerAPI.opinionRecord w log r raw
                    eq_refl Hw Hstatus Hdata) as Hrun.
      cbn [invoke USLegalAPI.courtListener] in Hrun.
      now rewrite Hrun, He'.
Qed.

(** C8, counterexample. A record with both [citationCount] (0) and
    [citation_count] (3) gets the second, and a record with the id 0 and
    no explicit URL gets no URL. *)
Lemma opinion_falsy_first_name_not_preferred :
  exists rec,
    CourtListenerAPI.opinionRecord
      (VObj [ ("id", VNum 0);
              ("citationCount", VNum 0);
              ("citation_count", VNum 3) ]) = Ok (VObj rec) /\
    JS.assoc "citation_count" rec = VNum 3 /\
    JS.assoc "url" rec = VUndef /\
    JS.assoc "absolute_url" rec = VUndef.
Proof. eexists. repeat split. Qed.

(* ------------------------------------------------------------------ *)
(** ** Normalization copies *)

Lemma serialize_json v : is_json v = true -> serialize v = v.
Proof.
  induction v as [| |b|n|s|elems IH|fields IH] using value_nested_ind;
    intros Hj; try reflexivity; cbn [is_json] in Hj; cbn [serialize]; f_equal.
  - induction IH as [|x xs Hx _ IHxs]; [reflexivity|].
    cbn [forallb] in Hj. apply andb_true_iff in Hj as [Hjx Hjxs].
    cbn [List.map]. rewrite (IHxs Hjxs), (Hx Hjx).
    now destruct x.
  - induction IH as [|[k x] fs Hx _ IHfs]; [reflexivity|].
    cbn [forallb] in Hj. apply andb_true_iff in Hj as [Hjx Hjfs].
    cbn [flat_map]. cbn [snd] in Hx. rewrite (IHfs Hjfs), (Hx Hjx).
    now destruct x.
Qed.

Lemma assoc_part k fields raw :
  part raw (VObj fields) -> part raw (JS.assoc k fields).
Proof.
  intros [H|[Hj Hincl]]; [discriminate|].
  induction fields as [|[k' x] fs IH]; [now left|].
  cbn [is_json forallb] in Hj. apply andb_true_iff in Hj as [Hjx Hjfs].
  cbn [leaves flat_map] in Hincl. cbn [JS.assoc].
  destruct (String.eqb k k').
  - right. split; [exact Hjx|]. intros y Hy. apply Hincl, in_or_app. now left.
  - apply IH; [exact Hjfs|]. intros y Hy. apply Hincl, in_or_app. now right.
Qed.

Lemma prop_part raw v k v' :
  part raw v -> JS.prop v k = Ok v' -> part raw v'.
Proof.
  intros Hp. destruct v; cbn [JS.prop]; try discriminate;
    try (intros [= <-]; now left).
  intros [= <-]. now apply assoc_part.
Qed.

Lemma optprop_part raw v k v' :
  part raw v -> JS.optprop v k = Ok v' -> part raw v'.
Proof.
  intros Hp. destruct v; cbn [JS.optprop JS.prop]; try discriminate;
    try (intros [= <-]; now left).
  intros [= <-]. now apply assoc_part.
Qed.




Section Drawn.

Variable raw : value.
Variable allowed : value -> Prop.
Hypothesis allowed_leaves : forall x, In x (leaves raw) -> allowed x.

Lemma part_drawn v : part raw v -> drawn allowed v.
Proof.
  intros [->|[Hj Hincl]] x Hx.
  - contradiction.
  - rewrite (serialize_json _ Hj) in Hx. now apply allowed_leaves, Hincl.
Qed.

Lemma fields_drawn l :
  Forall (fun p => drawn allowed (snd p)) l -> drawn allowed (VObj l).
Proof.
  intros Hall x Hx. cbn [serialize leaves] in Hx.
  apply in_flat_map in Hx as [[k y] [Hky Hxy]].
  apply in_flat_map in Hky as [[k' z] [Hz Hkz]].
  rewrite Forall_forall in Hall. specialize (Hall _ Hz). cbn [snd] in Hall.
  destruct z; try contradiction;
    destruct Hkz as [[= <- <-]|[]]; now apply Hall.
Qed.

Lemma evalFields_drawn fields l :
  evalFields fields = Ok l ->
  Forall (fun f => forall v, snd f = Ok v -> drawn allowed v) fields ->
  drawn allowed (VObj l).
Proof.
  intros H Hall. apply fields_drawn. revert l H.
  induction Hall as [|[k e] fs He _ IH]; intros l H; cbn [evalFields] in H.
  - injection H as <-. constructor.
  - destruct e as [v|]; [cbn [rbind] in H|discriminate].
    destruct (evalFields fs) as [l'|]; [cbn [rbind] in H|discriminate].
    injection H as <-. constructor; [now apply He | now apply IH].
Qed.

Lemma object_drawn fields v :
  object fields = Ok v ->
  Forall (fun f => forall v, snd f = Ok v -> drawn allowed v) fields ->
  drawn allowed v.
Proof.
  unfold object. destruct (evalFields fields) as [l|] eqn:E; [|discriminate].
  cbn [rbind]. intros [= <-]. now apply (evalFields_drawn fields).
Qed.




End Drawn.






(** A field of an object literal holds the value of the first expression
    given for its key, which did not raise. *)
Lemma evalFields_expr fields l :
  evalFields fields = Ok l ->
  forall k, match find (fun p => String.eqb k (fst p)) fields with
            | Some (_, e) => e = Ok (JS.assoc k l)
            | None => JS.assoc k l = VUndef
            end.
Proof.
  revert l. induction fields as [|[k' e] fields IH]; intros l H k.
  - now injection H as <-.
  - cbn [evalFields] in H. destruct e as [v|]; [cbn [rbind] in H|discriminate].
    destruct (evalFields fields) as [l'|]; [cbn [rbind] in H|discriminate].
    injection H as <-. cbn [JS.assoc find fst].
    destruct (String.eqb k k'); [reflexivity|]. now apply IH.
Qed.



(* ------------------------------------------------------------------ *)
(** ** The other records copy too *)

Section Copies.

Variable raw : value.
Hypothesis raw_json : is_json raw = true.

#[local] Abbreviation allowed := (fromPayload raw).

Lemma allowed_leaves : forall x, In x (leaves raw) -> allowed x.
Proof. intros x Hx. exact Hx. Qed.


(** An object literal whose fields read properties of one piece of the
    payload, directly or through one more property. *)
Ltac copied_fields Hpart :=
  repeat (apply Forall_cons;
          [ cbn [snd]; intros ? Hv;
            lazymatch type of Hv with
            | JS.prop _ _ = Ok _ =>
                exact (part_drawn raw allowed allowed_leaves _
                         (prop_part _ _ _ _ Hpart Hv))
            | rbind (JS.prop ?o ?k) _ = Ok _ =>
                let Ex := fresh "Ex" in
                destruct (JS.prop o k) eqn:Ex; [cbn [rbind] in Hv|discriminate Hv];
                pose proof (prop_part _ _ _ _ Hpart Ex);
                lazymatch type of Hv with
                | JS.prop _ _ = Ok _ =>
                    exact (part_drawn raw allowed allowed_leaves _
                             (prop_part _ _ _ _ ltac:(eassumption) Hv))
                | JS.optprop _ _ = Ok _ =>
                    exact (part_drawn raw allowed allowed_leaves _
                             (optprop_part _ _ _ _ ltac:(eassumption) Hv))
                end
            end
          | ]);
  try apply Forall_nil.

Lemma flat_object_drawn piece fields v :
  part raw piece -> object fields = Ok v ->
  Forall (fun f => forall v', snd f = Ok v' -> drawn allowed v') fields ->
  drawn allowed v /\ v <> VUndef.
Proof.
  intros Hp H Hall. split; [now apply (object_drawn allowed fields)|].
  unfold object in H. destruct (evalFields fields); [|discriminate].
  now injection H as <-.
Qed.

Lemma section_drawn s v :
  part raw s -> FederalRegisterAPI.section s = Ok v ->
  drawn allowed v /\ v <> VUndef.
Proof.
  intros Hp H. apply (flat_object_drawn s _ _ Hp H). copied_fields Hp.
Qed.









End Copies.

(* ------------------------------------------------------------------ *)
(** ** What the records keep *)














(** The bill records of [getRecentBills] and [getBillDetails] map a
    subject to its [name] alone: a subject given as a string becomes
    undefined, and null once serialized. *)
Lemma string_subject_becomes_null :
  exists rec,
    CongressAPI.billRecord CongressAPI.subjectNameOnly
      (VObj [("title", VStr "Clean Air Act");
             ("subjects", VArr [VStr "Environment"])]) = Ok rec /\
    JS.prop (serialize rec) "subjects" = Ok (VArr [VNull]).
Proof. eexists. split; reflexivity. Qed.

(** Of the spec: a record with [caseName] and no [case_name] gets its
    case name from [caseName]. *)
Example opinion_caseName_example :
  exists rec,
    CourtListenerAPI.opinionRecord
      (VObj [("id", VNum 108713); ("caseName", VStr "Roe v. Wade")])
    = Ok rec /\
    JS.prop rec "case_name" = Ok (VStr "Roe v. Wade") /\
    JS.prop rec "url"
    = Ok (VStr "https://www.courtlistener.com/opinion/108713/").
Proof. eexists. repeat split. Qed.

(** Of the spec: three candidates that all score below 5 (4, 0 and 0) and
    a limit of 5 give all three, the best first. *)
Example floor_fallback_example :
  fst (CongressAPI.searchBills Pattern.fragment_engine "" "clean air" None
         (Some 5)
         (fun _ => Axios.HttpResponse
            (Axios.mkResponse 200 "OK"
               (VObj [("bills", VArr [VObj [("title", VStr "Water")];
                                      VObj [("title", VStr "Roads")];
                                      VObj [("title", VStr "Air")]])])))
         [])
  = (bills <- mapM (CongressAPI.billRecord CongressAPI.subjectNameOrSelf)
                [VObj [("title", VStr "Air")];
                 VObj [("title", VStr "Water")];
                 VObj [("title", VStr "Roads")]] ;;
     Ok (VArr bills)).
Proof. reflexivity. Qed.

(** Of the spec: ten candidates of which six score 5 or more and a limit
    of 5 give the five best, all of them among the six; candidates of
    equal score keep their upstream order. *)
Example floor_top_five_example :
  fst (CongressAPI.searchBills Pattern.fragment_engine "" "clean air" None
         (Some 5)
         (fun _ => Axios.HttpResponse
            (Axios.mkResponse 200 "OK"
               (VObj [("bills",
                       VArr [VObj [("title", VStr "Water")];
                             VObj [("title", VStr "Clean Air Act")];
                             VObj [("title", VStr "Roads")];
                             VObj [("title", VStr "Air quality")];
                             VObj [("title", VStr "Clean air and clean air")];
                             VObj [("title", VStr "Air, air")];
                             VObj [("title", VStr "Clean air")];
                             VObj [("title", VStr "Schools")];
                             VObj [("title", VStr "Air air air")];
                             VObj [("title", VStr "Air and clean water")]])])))
         [])
  = (bills <- mapM (CongressAPI.billRecord CongressAPI.subjectNameOrSelf)
                [VObj [("title", VStr "Clean air and clean air")];
                 VObj [("title", VStr "Clean Air Act")];
                 VObj [("title", VStr "Clean air")];
                 VObj [("title", VStr "Air and clean water")];
                 VObj [("title", VStr "Air air air")]] ;;
     Ok (VArr bills)).
Proof. reflexivity. Qed.

(* ------------------------------------------------------------------ *)
(** ** Terms and substrings *)

Lemma append_assoc' (a b c : string) :
  ((a ++ b) ++ c = a ++ (b ++ c))%string.
Proof. induction a as [|x a IH]; simpl; [reflexivity | now rewrite IH]. Qed.

Lemma prefix_split a b :
  prefix a b = true <-> exists r, b = (a ++ r)%string.
Proof.
  revert b. induction a as [|x a IH]; intros b.
  - split; [intros _; now exists b | now destruct b].
  - destruct b as [|y b]; simpl.
    + split; [discriminate | intros [r H]; discriminate].
    + destruct (Ascii.ascii_dec x y) as [<-|Hne].
      * rewrite IH. split; intros [r H]; exists r; [now rewrite H | now injection H].
      * split; [discriminate|]. intros [r H]. injection H as H _. now destruct Hne.
Qed.

Lemma includes_split a b :
  includes a b = true <-> exists l r, b = (l ++ a ++ r)%string.
Proof.
  induction b as [|y b IH]; cbn [includes].
  - rewrite orb_false_r, prefix_split. split.
    + intros [r H]. now exists ""%string, r.
    + intros [l [r H]]. destruct l; [now exists r | discriminate].
  - rewrite orb_true_iff, prefix_split, IH. split.
    + intros [[r H]|[l [r H]]].
      * now exists ""%string, r.
      * exists (String y l), r. now rewrite H.
    + intros [l [r H]]. destruct l as [|x l].
      * left. now exists r.
      * right. injection H as _ H. now exists l, r.
Qed.

Lemma includes_trans a b c :
  includes a b = true -> includes b c = true -> includes a c = true.
Proof.
  rewrite !includes_split. intros [l [r ->]] [l' [r' ->]].
  exists (l' ++ l)%string, (r ++ r')%string.
  now rewrite !append_assoc'.
Qed.

Lemma split_ws_space c s :
  is_ws c = true ->
  split_ws (String c s)
  = match s with
    | String c' _ => if is_ws c' then split_ws s else ""%string :: split_ws s
    | EmptyString => ""%string :: split_ws s
    end.
Proof. intros Hc. destruct s; cbn [split_ws]; now rewrite Hc. Qed.

Lemma split_ws_letter c s :
  is_ws c = false ->
  split_ws (String c s)
  = match split_ws s with
    | p :: ps => String c p :: ps
    | [] => [String c ""]
    end.
Proof. intros Hc. destruct s; cbn [split_ws]; now rewrite Hc. Qed.

Lemma split_ws_leading_space c s :
  is_ws c = true -> exists ps, split_ws (String c s) = ""%string :: ps.
Proof.
  revert c. induction s as [|c' s IH]; intros c Hc;
    rewrite (split_ws_space _ _ Hc).
  - now eexists.
  - destruct (is_ws c') eqn:Hc'; [now apply IH | now eexists].
Qed.

Lemma split_ws_head s :
  exists p ps, split_ws s = p :: ps /\ exists r, s = (p ++ r)%string.
Proof.
  induction s as [|c s IH].
  - exists ""%string, []. split; [reflexivity | now exists ""%string].
  - destruct (is_ws c) eqn:Hc.
    + destruct (split_ws_leading_space c s Hc) as [ps Hps].
      exists ""%string, ps. split; [exact Hps | now eexists].
    + destruct IH as [p [ps [Hs [r Hr]]]].
      exists (String c p), ps. split.
      * now rewrite (split_ws_letter _ _ Hc), Hs.
      * exists r. simpl. now rewrite Hr.
Qed.

Lemma split_ws_includes s piece :
  In piece (split_ws s) -> includes piece s = true.
Proof.
  revert piece. induction s as [|c s IH]; intros piece Hin.
  - destruct Hin as [<-|[]]. reflexivity.
  - apply includes_split.
    assert (forall q, In q (split_ws s) ->
                      exists l r, String c s = (l ++ q ++ r)%string) as Htail.
    { intros q Hq. apply IH, includes_split in Hq as [l [r Hs]].
      exists (String c l), r. simpl. now rewrite <- Hs. }
    destruct (is_ws c) eqn:Hc.
    + assert (piece = ""%string \/ In piece (split_ws s)) as [->|Hp].
      { rewrite (split_ws_space _ _ Hc) in Hin.
        destruct s as [|c' s'].
        - destruct Hin as [<-|Hin]; [now left | now right].
        - destruct (is_ws c'); [now right|].
          destruct Hin as [<-|Hin]; [now left | now right]. }
      * now exists ""%string, (String c s).
      * now apply Htail.
    + destruct (split_ws_head s) as [p [ps [Hs [r Hr]]]].
      rewrite (split_ws_letter _ _ Hc), Hs in Hin.
      destruct Hin as [<-|Hin].
      * exists ""%string, r. simpl. now rewrite Hr.
      * apply Htail. rewrite Hs. now right.
Qed.

Lemma queryTerms_includes query term :
  In term (queryTerms query) -> includes term (toLowerCase query) = true.
Proof.
  unfold queryTerms. intros H. apply filter_In in H as [H _].
  now apply split_ws_includes.
Qed.

Lemma lower_ascii_idempotent c : lower_ascii (lower_ascii c) = lower_ascii c.
Proof.
  destruct c as [[] [] [] [] [] [] [] []]; vm_compute; reflexivity.
Qed.

Lemma toLowerCase_idempotent s : toLowerCase (toLowerCase s) = toLowerCase s.
Proof.
  induction s as [|c s IH]; [reflexivity|].
  cbn [toLowerCase]. now rewrite lower_ascii_idempotent, IH.
Qed.

Lemma toLowerCase_eqb_empty s :
  String.eqb (toLowerCase s) "" = String.eqb s "".
Proof. now destruct s. Qed.

Lemma split_ws_every p s :
  every p s = true -> forall piece, In piece (split_ws s) -> every p piece = true.
Proof.
  induction s as [|c s IH]; intros Hs piece Hin.
  - destruct Hin as [<-|[]]. reflexivity.
  - cbn [every] in Hs. apply andb_true_iff in Hs as [Hc Hs].
    destruct (is_ws c) eqn:Hw.
    + rewrite (split_ws_space _ _ Hw) in Hin.
      destruct s as [|c' s'].
      * destruct Hin as [<-|Hin]; [reflexivity | now apply IH].
      * destruct (is_ws c'); [now apply IH|].
        destruct Hin as [<-|Hin]; [reflexivity | now apply IH].
    + rewrite (split_ws_letter _ _ Hw) in Hin.
      destruct (split_ws s) as [|q qs] eqn:E.
      * destruct Hin as [<-|[]]. cbn [every]. now rewrite Hc.
      * destruct Hin as [<-|Hin].
        -- cbn [every]. rewrite Hc. apply IH; [exact Hs | now left].
        -- apply IH; [exact Hs | now right].
Qed.

Lemma split_ws_no_space s piece :
  In piece (split_ws s) -> every (fun c => negb (is_ws c)) piece = true.
Proof.
  revert piece. induction s as [|c s IH]; intros piece Hin.
  - destruct Hin as [<-|[]]. reflexivity.
  - destruct (is_ws c) eqn:Hw.
    + rewrite (split_ws_space _ _ Hw) in Hin.
      destruct s as [|c' s'].
      * destruct Hin as [<-|Hin]; [reflexivity | now apply IH].
      * destruct (is_ws c'); [now apply IH|].
        destruct Hin as [<-|Hin]; [reflexivity | now apply IH].
    + rewrite (split_ws_letter _ _ Hw) in Hin.
      destruct (split_ws s) as [|q qs] eqn:E.
      * destruct Hin as [<-|[]]. cbn [every]. now rewrite Hw.
      * destruct Hin as [<-|Hin].
        -- cbn [every]. rewrite Hw. apply IH. now left.
        -- apply IH. now right.
Qed.

Lemma toLowerCase_every s :
  every (fun c => Ascii.eqb (lower_ascii c) c) (toLowerCase s) = true.
Proof.
  induction s as [|c s IH]; [reflexivity|].
  cbn [toLowerCase every].
  now rewrite lower_ascii_idempotent, Ascii.eqb_refl, IH.
Qed.

Lemma every_lower_fixed s :
  every (fun c => Ascii.eqb (lower_ascii c) c) s = true -> toLowerCase s = s.
Proof.
  induction s as [|c s IH]; [reflexivity|].
  cbn [every toLowerCase]. intros H. apply andb_true_iff in H as [Hc Hs].
  apply Ascii.eqb_eq in Hc. now rewrite Hc, IH.
Qed.

(** X1. Every retained query term is longer than two characters, holds no
    white space and is in lower case. *)
Theorem queryTerms_shape (query term : string) :
  In term (queryTerms query) ->
  (2 < String.length term)%nat /\
  every (fun c => negb (is_ws c)) term = true /\
  toLowerCase term = term.
Proof.
  intros Hin. split; [now apply queryTerms_length with query|].
  unfold queryTerms in Hin. apply filter_In in Hin as [Hin _]. split.
  - now apply split_ws_no_space with (toLowerCase query).
  - apply every_lower_fixed.
    apply (split_ws_every _ (toLowerCase query)); [apply toLowerCase_every | exact Hin].
Qed.

Lemma queryTerms_shape_witness :
  (2 < String.length "air")%nat /\
  every (fun c => negb (is_ws c)) "air" = true /\
  toLowerCase "air" = "air"%string.
Proof.
  apply (queryTerms_shape "  Clean  AIR of " "air").
  right; now left.
Defined.

Section ScoreBounds.

Variable regexp : RegExpEngine.

Lemma termLoop_bounds lowerText terms st st' :
  termLoop regexp lowerText terms st = Ok st' ->
  fst st' <= fst st + 3 * Z.of_nat (List.length terms) /\
  (snd st' <= snd st + List.length terms)%nat.
Proof.
  revert st. induction terms as [|t ts IH]; intros st H; cbn [termLoop] in H.
  - injection H as <-. cbn [List.length]. lia.
  - cbn [List.length]. destruct (includes t lowerText).
    + destruct (regexp t lowerText) as [n|]; [|discriminate].
      apply IH in H. cbn [fst snd] in H. lia.
    + apply IH in H. lia.
Qed.

Lemma termLoop_none_present lowerText terms st :
  (forall term, In term terms -> includes term lowerText = false) ->
  termLoop regexp lowerText terms st = Ok st.
Proof.
  induction terms as [|t ts IH]; intros Hnone; cbn [termLoop]; [reflexivity|].
  rewrite (Hnone t) by now left. apply IH. intros; apply Hnone; now right.
Qed.

Lemma termLoop_all_present lowerText terms st st' :
  (forall term, In term terms -> includes term lowerText = true) ->
  termLoop regexp lowerText terms st = Ok st' ->
  snd st' = (snd st + List.length terms)%nat.
Proof.
  revert st. induction terms as [|t ts IH]; intros st Hall H;
    cbn [termLoop] in H.
  - injection H as <-. cbn [List.length]. lia.
  - rewrite (Hall t) in H by now left.
    destruct (regexp t lowerText) as [n|]; [|discriminate].
    apply IH in H; [|intros; apply Hall; now right].
    cbn [snd List.length] in *. lia.
Qed.

End ScoreBounds.

(** X2. A score is at most 15 plus three times the number of retained
    terms: 10 for the verbatim query, at most 3 for each term and 5 when
    all terms are present. *)
Theorem score_upper_bound (regexp : RegExpEngine) (text query : string) (n : Z) :
  calculateRelevanceScore regexp text query = Ok n ->
  n <= 15 + 3 * Z.of_nat (List.length (queryTerms query)).
Proof.
  unfold calculateRelevanceScore.
  destruct (_ || _); [intros [= <-]; lia|].
  destruct (_ =? _)%nat; [intros [= <-]; lia|].
  destruct (termLoop _ _ _ _) as [st|] eqn:E; cbn [rbind]; [|discriminate].
  apply termLoop_bounds in E. cbn [fst snd] in E.
  intros [= <-]. destruct (includes _ _), (_ =? _)%nat; lia.
Qed.

Lemma score_upper_bound_witness :
  19 <= 15 + 3 * Z.of_nat (List.length (queryTerms "clean air")).
Proof.
  apply (score_upper_bound Pattern.fragment_engine
           "Clean Air Act of 2020: clean air" "clean air" 19).
  reflexivity.
Defined.

(** X3. A text that contains none of the retained terms scores 0, and the
    engine is not consulted: the scoring cannot raise. *)
Theorem score_without_term_is_0 (regexp : RegExpEngine) (text query : string) :
  (forall term, In term (queryTerms query) ->
                includes term (toLowerCase text) = false) ->
  calculateRelevanceScore regexp text query = Ok 0.
Proof.
  intros Hnone. unfold calculateRelevanceScore.
  destruct (_ || _); [reflexivity|].
  destruct (queryTerms query) as [|t ts] eqn:Et; [reflexivity|].
  cbn [List.length Nat.eqb].
  rewrite termLoop_none_present by exact Hnone. cbn [rbind fst snd].
  replace (includes (toLowerCase query) (toLowerCase text)) with false;
    [reflexivity|].
  symmetry. apply not_true_is_false. intros Hv.
  assert (includes t (toLowerCase text) = true) as Ht.
  { apply includes_trans with (toLowerCase query); [|exact Hv].
    apply queryTerms_includes. rewrite Et. now left. }
  rewrite Hnone in Ht by now left. discriminate.
Qed.

Lemma score_without_term_is_0_witness :
  calculateRelevanceScore (fun _ _ => None) "Highway Safety Act" "clean air"
  = Ok 0.
Proof.
  apply score_without_term_is_0.
  intros term [<-|[<-|[]]]; reflexivity.
Defined.

(** X4. When the lower-case text contains the lower-case query verbatim,
    every retained term is present; so, with at least one retained term
    and an engine that accepts the terms, the score is at least 15. *)
Theorem score_verbatim_query_at_least_15 (regexp : RegExpEngine)
        (text query : string) :
  includes (toLowerCase query) (toLowerCase text) = true ->
  queryTerms query <> [] ->
  (forall term, In term (queryTerms query) ->
                regexp term (toLowerCase text) <> None) ->
  (forall term, In term (queryTerms query) ->
                includes term (toLowerCase text) = true) /\
  exists n, calculateRelevanceScore regexp text query = Ok n /\ 15 <= n.
Proof.
  intros Hv Hterms Hacc.
  assert (forall term, In term (queryTerms query) ->
                       includes term (toLowerCase text) = true) as Hall.
  { intros term Hin. apply includes_trans with (toLowerCase query);
      [now apply queryTerms_includes | exact Hv]. }
  split; [exact Hall|].
  assert (text <> ""%string) as Htext.
  { intros ->. apply includes_empty_r, toLowerCase_empty in Hv.
    subst query. now apply Hterms. }
  rewrite (calculateRelevanceScore_loop regexp _ _ Htext Hterms), Hv.
  destruct (termLoop_total regexp _ _ Hacc (10, O)) as [st Hst].
  rewrite Hst. cbn [rbind].
  pose proof (termLoop_lower_bound regexp _ _ _ _ Hst) as Hlow.
  pose proof (termLoop_all_present regexp _ _ _ _ Hall Hst) as Hcount.
  cbn [fst snd] in Hlow, Hcount. rewrite Hcount, Nat.eqb_refl.
  eexists. split; [reflexivity | lia].
Qed.

Lemma score_verbatim_query_at_least_15_witness :
  exists n, calculateRelevanceScore Pattern.fragment_engine
              "The Clean Air Act" "clean air" = Ok n /\ 15 <= n.
Proof.
  apply (score_verbatim_query_at_least_15 Pattern.fragment_engine
           "The Clean Air Act" "clean air").
  - reflexivity.
  - discriminate.
  - intros term [<-|[<-|[]]]; discriminate.
Defined.

(** X5. The score does not depend on the case of the text or of the
    query. *)
Theorem score_case_insensitive (regexp : RegExpEngine) (text query : string) :
  calculateRelevanceScore regexp (toLowerCase text) (toLowerCase query)
  = calculateRelevanceScore regexp text query.
Proof.
  unfold calculateRelevanceScore, queryTerms.
  now rewrite !toLowerCase_eqb_empty, !toLowerCase_idempotent.
Qed.

(* ------------------------------------------------------------------ *)
(** ** What the ranking returns *)





Lemma mapM_source {A B} (f : A -> Result B) l l' y :
  mapM f l = Ok l' -> In y l' -> exists x, In x l /\ f x = Ok y.
Proof.
  revert l'. induction l as [|a l IH]; intros l' H Hin; cbn [mapM] in H.
  - injection H as <-. contradiction.
  - destruct (f a) as [b|] eqn:Ea; [cbn [rbind] in H|discriminate].
    destruct (mapM f l) as [bs|]; [cbn [rbind] in H|discriminate].
    injection H as <-. destruct Hin as [<-|Hin].
    + exists a. split; [now left | exact Ea].
    + destruct (IH bs eq_refl Hin) as [x [Hx Hfx]].
      exists x. split; [now right | exact Hfx].
Qed.

Lemma slice0_incl {A} (limit : Z) (l : list A) x :
  In x (JS.slice0 limit l) -> In x l.
Proof.
  unfold JS.slice0. intros H.
  rewrite <- (firstn_skipn
                (Z.to_nat (if limit <? 0
                           then Z.max (Z.of_nat (List.length l) + limit) 0
                           else Z.min limit (Z.of_nat (List.length l)))) l).
  apply in_or_app. now left.
Qed.

Lemma slice0_length {A} (limit : Z) (l : list A) :
  0 <= limit -> Z.of_nat (List.length (JS.slice0 limit l)) <= limit.
Proof.
  intros Hl. rewrite slice0_firstn by assumption. rewrite length_firstn. lia.
Qed.

Lemma iterate_array_or_empty v raw x :
  JS.iterate_array (JS.or v (VArr [])) = Ok raw -> In x raw -> v = VArr raw.
Proof.
  unfold JS.or. destruct (JS.truthy v) eqn:Et.
  - destruct v; cbn [JS.iterate_array]; try discriminate. now intros [= <-].
  - cbn [JS.iterate_array]. intros [= <-] [].
Qed.

Section RankedResult.

Variable regexp : RegExpEngine.

(** What [rankBills] returns when it returns: a part of the scored
    candidates, no longer than a non-negative limit. *)
Lemma rankBills_result query limit data v :
  CongressAPI.rankBills regexp query limit data = Ok v ->
  exists l,
    v = VArr l /\
    (0 <= limit -> Z.of_nat (List.length l) <= limit) /\
    forall rec, In rec l ->
      exists raw candidate,
        JS.prop data "bills" = Ok (VArr raw) /\ In candidate raw /\
        CongressAPI.billRecord CongressAPI.subjectNameOrSelf candidate = Ok rec.
Proof.
  unfold CongressAPI.rankBills. intros H.
  destruct (JS.prop data "bills") as [rawBills|] eqn:Edata;
    [cbn [rbind] in H|discriminate].
  destruct (JS.iterate_array _) as [raw|] eqn:Eraw;
    [cbn [rbind] in H|discriminate].
  destruct (mapM _ raw) as [bills|] eqn:Ebills; [cbn [rbind] in H|discriminate].
  destruct (mapM _ bills) as [scored|] eqn:Escored;
    [cbn [rbind] in H|discriminate].
  assert (forall s rec, In (s, rec) (sort_desc scored) ->
            exists raw candidate,
              Ok rawBills = Ok (VArr raw) /\ In candidate raw /\
              CongressAPI.billRecord CongressAPI.subjectNameOrSelf candidate
              = Ok rec) as Hsource.
  { intros s rec Hin.
    apply (Permutation_in _ (Permutation_sym (sort_desc_perm scored))) in Hin.
    destruct (mapM_source _ _ _ _ Escored Hin) as [bill [Hbill Hs]].
    destruct (scoreBillRelevance regexp bill query); [|discriminate].
    cbn [rbind] in Hs. injection Hs as _ <-.
    destruct (mapM_source _ _ _ _ Ebills Hbill) as [candidate [Hc Hrec]].
    exists raw, candidate. split; [|now split].
    f_equal. now apply (iterate_array_or_empty _ _ candidate). }
  match type of H with
  | rbind ?e _ = Ok _ => destruct e; [cbn [rbind] in H|discriminate]
  end.
  destruct (limit <=? _); [|destruct (0 <? _)%nat]; injection H as <-;
    eexists; (split; [reflexivity|]); split.
  all: try (intros Hl; rewrite length_map; now apply slice0_length).
  all: try (intros rec Hin; apply in_map_iff in Hin as [[s rec'] [<- Hin]];
            apply slice0_incl in Hin;
            try (apply filter_In in Hin as [Hin _]);
            exact (Hsource _ _ Hin)).
  - intros Hl. cbn [List.length]. lia.
  - intros rec [].
Qed.

Lemma rankDocuments_result query limit data v :
  FederalRegisterAPI.rankDocuments regexp query limit data = Ok v ->
  exists l,
    v = VArr l /\
    (0 <= limit -> Z.of_nat (List.length l) <= limit) /\
    forall rec, In rec l ->
      exists raw candidate,
        JS.prop data "results" = Ok (VArr raw) /\ In candidate raw /\
        FederalRegisterAPI.documentRecord candidate = Ok rec.
Proof.
  unfold FederalRegisterAPI.rankDocuments. intros H.
  destruct (JS.prop data "results") as [results|] eqn:Edata;
    [cbn [rbind] in H|discriminate].
  destruct (JS.iterate_array _) as [raw|] eqn:Eraw;
    [cbn [rbind] in H|discriminate].
  destruct (mapM _ raw) as [documents|] eqn:Edocs;
    [cbn [rbind] in H|discriminate].
  destruct (mapM _ documents) as [scored|] eqn:Escored;
    [cbn [rbind] in H|discriminate].
  assert (forall s rec, In (s, rec) (sort_desc scored) ->
            exists raw candidate,
              Ok results = Ok (VArr raw) /\ In candidate raw /\
              FederalRegisterAPI.documentRecord candidate = Ok rec) as Hsource.
  { intros s rec Hin.
    apply (Permutation_in _ (Permutation_sym (sort_desc_perm scored))) in Hin.
    destruct (mapM_source _ _ _ _ Escored Hin) as [doc [Hdoc Hs]].
    destruct (scoreDocumentRelevance regexp doc query); [|discriminate].
    cbn [rbind] in Hs. injection Hs as _ <-.
    destruct (mapM_source _ _ _ _ Edocs Hdoc) as [candidate [Hc Hrec]].
    exists raw, candidate. split; [|now split].
    f_equal. now apply (iterate_array_or_empty _ _ candidate). }
  destruct (_ && _); injection H as <-;
    eexists; (split; [reflexivity|]); split.
  all: try (intros Hl; rewrite length_map; now apply slice0_length).
  all: intros rec Hin; apply in_map_iff in Hin as [[s rec'] [<- Hin]];
    apply slice0_incl in Hin;
    try (apply filter_In in Hin as [Hin _]);
    exact (Hsource _ _ Hin).
Qed.

End RankedResult.

(** X7. Whatever the upstream answers, [searchBills] returns a list of at
    most [limit] records (for a limit that is not negative), and every
    record in it is the normalization of a candidate of the upstream
    response. *)
Theorem searchBills_bounded_and_sourced (regexp : RegExpEngine)
        (apiKey query : string) (congress : option Z) (limit : Z)
        (w : Axios.World) (log : list Axios.Request) :
  exists l,
    fst (CongressAPI.searchBills regexp apiKey query congress (Some limit) w log)
    = Ok (VArr l) /\
    (0 <= limit -> Z.of_nat (List.length l) <= limit) /\
    forall rec, In rec l ->
      exists r raw candidate,
        w (CongressAPI.searchBillsRequest apiKey query congress limit)
        = Axios.HttpResponse r /\
        JS.prop (Axios.data r) "bills" = Ok (VArr raw) /\ In candidate raw /\
        CongressAPI.billRecord CongressAPI.subjectNameOrSelf candidate = Ok rec.
Proof.
  rewrite searchBills_run. cbn [fst default]. unfold settle.
  destruct (w _) as [code|r] eqn:Ew.
  2: destruct (Axios.validateStatus _).
  2: destruct (CongressAPI.rankBills _ _ _ _) as [v|] eqn:Erank.
  2: { destruct (rankBills_result regexp _ _ _ _ Erank) as [l [-> [Hlen Hsrc]]].
       exists l. split; [reflexivity|]. split; [exact Hlen|].
       intros rec Hin. destruct (Hsrc rec Hin) as [raw [c [H1 [H2 H3]]]].
       now exists r, raw, c. }
  all: exists []; split; [reflexivity|]; split;
    [intros; cbn [List.length]; lia | intros rec []].
Qed.

(** X8. Whatever the upstream answers, [searchDocuments] returns a list
    of at most [limit] records (for a limit that is not negative), and
    every record in it is the normalization of a candidate of the
    upstream response. *)
Theorem searchDocuments_bounded_and_sourced (regexp : RegExpEngine)
        (query : string) (limit : Z)
        (w : Axios.World) (log : list Axios.Request) :
  exists l,
    fst (FederalRegisterAPI.searchDocuments regexp query (Some limit) w log)
    = Ok (VArr l) /\
    (0 <= limit -> Z.of_nat (List.length l) <= limit) /\
    forall rec, In rec l ->
      exists r raw candidate,
        w (FederalRegisterAPI.searchDocumentsRequest query limit)
        = Axios.HttpResponse r /\
        JS.prop (Axios.data r) "results" = Ok (VArr raw) /\ In candidate raw /\
        FederalRegisterAPI.documentRecord candidate = Ok rec.
Proof.
  rewrite searchDocuments_run. cbn [fst default]. unfold settle.
  destruct (w _) as [code|r] eqn:Ew.
  2: destruct (Axios.validateStatus _).
  2: destruct (FederalRegisterAPI.rankDocuments _ _ _ _) as [v|] eqn:Erank.
  2: { destruct (rankDocuments_result regexp _ _ _ _ Erank)
         as [l [-> [Hlen Hsrc]]].
       exists l. split; [reflexivity|]. split; [exact Hlen|].
       intros rec Hin. destruct (Hsrc rec Hin) as [raw [c [H1 [H2 H3]]]].
       now exists r, raw, c. }
  all: exists []; split; [reflexivity|]; split;
    [intros; cbn [List.length]; lia | intros rec []].
Qed.

(* ------------------------------------------------------------------ *)
(** ** One request for each call *)

(** X9. Every adapter method sends exactly one request, the same whatever
    the upstream answers: a failed call is not tried again. *)
Theorem one_request_per_call (regexp : RegExpEngine) (api : USLegalAPI.t)
        (c : AdapterCall) :
  exists req, forall w log,
    snd (invoke regexp api c w log) = log ++ [req].
Proof.
  destruct c; cbn [invoke]; eexists; intros w log;
    try (rewrite searchBills_run || rewrite searchDocuments_run
         || rewrite searchCode_run || rewrite searchComments_run);
    try (unfold CongressAPI.getBillDetails, CongressAPI.getRecentBills,
           CongressAPI.searchVotes, CongressAPI.getCommittees,
           FederalRegisterAPI.getRecentDocuments,
           FederalRegisterAPI.getDocumentDetails, USCodeAPI.getSection,
           CourtListenerAPI.searchOpinions, CourtListenerAPI.getRecentOpinions,
           CourtListenerAPI.getOpinion;
         cbv zeta; rewrite adapter_run);
    reflexivity.
Qed.

(* ------------------------------------------------------------------ *)
(** ** The lists that are not ranked *)

(** X10. The list methods that rank nothing return one record for each
    element of the upstream list, in upstream order and whatever the
    limit; and one element that cannot be normalized empties the whole
    list. (The ids of the elements have a string form, as those of JSON
    numbers and strings have.) *)
Theorem listing_is_all_or_nothing (regexp : RegExpEngine) (api : USLegalAPI.t)
        (c : AdapterCall) (key : string) (record : value -> Result value)
        (w : Axios.World) (log : list Axios.Request)
        (r : Axios.Response) (raw : list value) :
  listing c = Some (key, record) ->
  (forall req, w req = Axios.HttpResponse r) ->
  readsStatus c (Axios.status r) = true ->
  JS.prop (Axios.data r) key = Ok (VArr raw) ->
  (forall x, In x raw -> printable (fieldOf "id" x)) ->
  (forall records,
      mapM record raw = Ok records ->
      fst (invoke regexp api c w log) = Ok (VArr records) /\
      List.length records = List.length raw) /\
  (forall e,
      mapM record raw = Throw e ->
      fst (invoke regexp api c w log) = Ok (VArr [])).
Proof.
  intros Hlisting Hw Hstatus Hdata _.
  assert (fst (invoke regexp api c w log)
          = Ok (VArr match mapM record raw with
                     | Ok records => records
                     | Throw _ => []
                     end)) as Hrun.
  { destruct c; cbn [listing] in Hlisting; try discriminate;
      injection Hlisting as <- <-; cbn [invoke readsStatus] in *;
      try (rewrite searchCode_run || rewrite searchComments_run);
      try (unfold CongressAPI.getRecentBills, CongressAPI.searchVotes,
             CongressAPI.getCommittees, FederalRegisterAPI.getRecentDocuments,
             CourtListenerAPI.searchOpinions, CourtListenerAPI.getRecentOpinions;
           cbv zeta; rewrite adapter_run);
      cbn [fst]; rewrite Hw; unfold settle;
      try rewrite Hstatus;
      try (unfold USCodeAPI.validateStatus;
           replace (Axios.status r <? 500) with true
             by (symmetry; apply Z.ltb_lt; apply Z.ltb_lt in Hstatus; lia);
           replace (400 <=? Axios.status r) with false
             by (symmetry; apply Z.leb_gt; now apply Z.ltb_lt));
      rewrite (listing_compute _ _ _ _ Hdata);
      now destruct (mapM _ raw). }
  split.
  - intros records Hok. rewrite Hrun, Hok. split; [reflexivity|].
    now apply mapM_length with record.
  - intros e Hthrow. now rewrite Hrun, Hthrow.
Qed.

Lemma listing_is_all_or_nothing_witness :
  exists records,
    fst (invoke Pattern.fragment_engine (USLegalAPI.new "" "" None)
           (GetRecentBills None (Some 1))
           (fun _ => Axios.HttpResponse
              (Axios.mkResponse 200 "OK"
                 (VObj [("bills", VArr [VObj [("title", VStr "First Act")];
                                        VObj [("title", VStr "Second Act")]])])))
           [])
    = Ok (VArr records) /\ List.length records = 2%nat.
Proof.
  destruct (listing_is_all_or_nothing Pattern.fragment_engine
              (USLegalAPI.new "" "" None) (GetRecentBills None (Some 1))
              "bills" (CongressAPI.billRecord CongressAPI.subjectNameOnly)
              (fun _ => Axios.HttpResponse
                 (Axios.mkResponse 200 "OK"
                    (VObj [("bills", VArr [VObj [("title", VStr "First Act")];
                                           VObj [("title", VStr "Second Act")]])])))
              []
              (Axios.mkResponse 200 "OK"
                 (VObj [("bills", VArr [VObj [("title", VStr "First Act")];
                                        VObj [("title", VStr "Second Act")]])]))
              [VObj [("title", VStr "First Act")];
               VObj [("title", VStr "Second Act")]])
    as [Hall _].
  - reflexivity.
  - reflexivity.
  - reflexivity.
  - reflexivity.
  - intros x [<-|[<-|[]]]; reflexivity.
  - eexists. apply Hall. reflexivity.
Defined.

(* ------------------------------------------------------------------ *)
(** ** Entity scores *)

Section EntityScores.

Variable regexp : RegExpEngine.

Lemma calculateRelevanceScore_any_nonneg text query n :
  calculateRelevanceScore_any regexp text query = Ok n -> 0 <= n.
Proof.
  unfold calculateRelevanceScore_any.
  destruct (_ || _); [intros [= <-]; lia|].
  destruct text; try discriminate. apply calculateRelevanceScore_nonneg.
Qed.

Lemma weighted_grows field query weight score score' :
  (0 <= weight)%Q ->
  weighted regexp field query weight score = Ok score' ->
  (score <= score')%Q.
Proof.
  intros Hw. unfold weighted. destruct (JS.truthy field).
  - destruct (calculateRelevanceScore_any regexp field query) as [n|] eqn:E;
      [cbn [rbind]|discriminate].
    intros [= <-]. apply calculateRelevanceScore_any_nonneg in E.
    assert (0 <= inject_Z n)%Q by (rewrite <- (Zle_Qle 0); exact E).
    assert (0 <= inject_Z n * weight)%Q by now apply Qmult_le_0_compat.
    lra.
  - intros [= <-]. lra.
Qed.

Lemma subjectLoop_grows subjects terms score score' :
  subjectLoop subjects terms score = Ok score' -> (score <= score')%Q.
Proof.
  revert score. induction subjects as [|s ss IH]; intros score H;
    cbn [subjectLoop] in H.
  - injection H as <-. lra.
  - destruct (subjectName s); [cbn [rbind] in H|discriminate].
    apply IH in H. destruct (existsb _ terms); lra.
Qed.

Lemma agencyLoop_grows agencies terms score score' :
  agencyLoop agencies terms score = Ok score' -> (score <= score')%Q.
Proof.
  revert score. induction agencies as [|a l IH]; intros score H;
    cbn [agencyLoop] in H.
  - injection H as <-. lra.
  - destruct (JS.toLowerCase a); [cbn [rbind] in H|discriminate].
    apply IH in H. destruct (existsb _ terms); lra.
Qed.

End EntityScores.

(** X11. The score of a bill and the score of a document are never
    negative. *)
Theorem entity_scores_nonneg (regexp : RegExpEngine) (entity : value)
        (query : string) (score : Q) :
  scoreBillRelevance regexp entity query = Ok score \/
  scoreDocumentRelevance regexp entity query = Ok score ->
  (0 <= score)%Q.
Proof.
  intros [H|H].
  - unfold scoreBillRelevance in H.
    destruct (JS.prop entity "title"); [cbn [rbind] in H|discriminate].
    destruct (weighted regexp a query 4 0) as [s1|] eqn:E1;
      [cbn [rbind] in H|discriminate].
    destruct (JS.prop entity "shortTitle"); [cbn [rbind] in H|discriminate].
    destruct (weighted regexp a0 query 4 s1) as [s2|] eqn:E2;
      [cbn [rbind] in H|discriminate].
    destruct (JS.prop entity "summary"); [cbn [rbind] in H|discriminate].
    destruct (JS.optprop a1 "text"); [cbn [rbind] in H|discriminate].
    destruct (weighted regexp a2 query 2 s2) as [s3|] eqn:E3;
      [cbn [rbind] in H|discriminate].
    destruct (JS.prop entity "latestAction"); [cbn [rbind] in H|discriminate].
    destruct (JS.optprop a3 "text"); [cbn [rbind] in H|discriminate].
    destruct (weighted regexp a4 query (3 # 2) s3) as [s4|] eqn:E4;
      [cbn [rbind] in H|discriminate].
    destruct (JS.prop entity "subjects"); [cbn [rbind] in H|discriminate].
    apply weighted_grows in E1, E2, E3, E4; try (unfold Qle; simpl; lia).
    destruct (_ && _).
    + destruct (JS.iterate a5); [cbn [rbind] in H|discriminate].
      apply subjectLoop_grows in H. lra.
    + injection H as <-. lra.
  - unfold scoreDocumentRelevance in H.
    destruct (JS.prop entity "title"); [cbn [rbind] in H|discriminate].
    destruct (weighted regexp a query 3 0) as [s1|] eqn:E1;
      [cbn [rbind] in H|discriminate].
    destruct (JS.prop entity "abstract"); [cbn [rbind] in H|discriminate].
    destruct (weighted regexp a0 query 2 s1) as [s2|] eqn:E2;
      [cbn [rbind] in H|discriminate].
    destruct (JS.prop entity "agency_names"); [cbn [rbind] in H|discriminate].
    apply weighted_grows in E1, E2; try (unfold Qle; simpl; lia).
    destruct (_ && _).
    + destruct (JS.iterate a1); [cbn [rbind] in H|discriminate].
      apply agencyLoop_grows in H. lra.
    + injection H as <-. lra.
Qed.

Lemma entity_scores_nonneg_witness : (0 <= 68)%Q.
Proof.
  apply (entity_scores_nonneg Pattern.fragment_engine
           (VObj [("title", VStr "Clean Air Act")]) "clean air").
  left. reflexivity.
Defined.

(** X12. The summary of a bill has no part in the ranking of
    [searchBills]: the record keeps the text of the summary as a string,
    and the score looks for a [text] inside it. Two upstream bills that
    differ in the text of their summary alone get the same score. *)
Theorem searchBills_ignores_summary (regexp : RegExpEngine)
        (fields0 fields1 : list (string * value)) (text0 text1 : string)
        (rec0 rec1 : value) (query : string) :
  (forall k, k <> "summary"%string -> JS.assoc k fields1 = JS.assoc k fields0) ->
  JS.assoc "summary" fields0 = VObj [("text", VStr text0)] ->
  JS.assoc "summary" fields1 = VObj [("text", VStr text1)] ->
  CongressAPI.billRecord CongressAPI.subjectNameOrSelf (VObj fields0) = Ok rec0 ->
  CongressAPI.billRecord CongressAPI.subjectNameOrSelf (VObj fields1) = Ok rec1 ->
  JS.prop rec0 "summary" = Ok (VStr text0) /\
  JS.prop rec1 "summary" = Ok (VStr text1) /\
  scoreBillRelevance regexp rec0 query = scoreBillRelevance regexp rec1 query.
Proof.
  intros Hsame Hs0 Hs1 Hr0 Hr1.
  unfold CongressAPI.billRecord, object in Hr0, Hr1.
  match type of Hr0 with
  | rbind ?e _ = _ => destruct e as [l0|] eqn:E0; [|discriminate]
  end.
  match type of Hr1 with
  | rbind ?e _ = _ => destruct e as [l1|] eqn:E1; [|discriminate]
  end.
  cbn [rbind] in Hr0, Hr1. injection Hr0 as <-. injection Hr1 as <-.
  pose proof (evalFields_expr _ _ E0) as H0.
  pose proof (evalFields_expr _ _ E1) as H1.
  assert (forall k, In k ["title"; "shortTitle"; "latestAction"; "subjects"]%string ->
                    JS.assoc k l1 = JS.assoc k l0) as Hrec.
  { intros k Hin.
    destruct Hin as [<-|[<-|[<-|[<-|[]]]]];
      match goal with
      | |- JS.assoc ?k _ = _ =>
          specialize (H0 k); specialize (H1 k)
      end;
      cbn in H0, H1; rewrite Hsame in H1 by discriminate;
      rewrite H1 in H0; now injection H0. }
  assert (JS.assoc "summary" l0 = VStr text0) as Hsum0.
  { specialize (H0 "summary"%string). cbn in H0. rewrite Hs0 in H0.
    cbn in H0. now injection H0. }
  assert (JS.assoc "summary" l1 = VStr text1) as Hsum1.
  { specialize (H1 "summary"%string). cbn in H1. rewrite Hs1 in H1.
    cbn in H1. now injection H1. }
  cbn [JS.prop]. rewrite Hsum0, Hsum1. split; [reflexivity|].
  split; [reflexivity|].
  unfold scoreBillRelevance. cbn [JS.prop rbind].
  rewrite Hsum0, Hsum1.
  now rewrite !Hrec by (cbn [In]; tauto).
Qed.

Lemma searchBills_ignores_summary_witness :
  scoreBillRelevance Pattern.fragment_engine
    (VObj [("congress", VUndef); ("type", VUndef); ("number", VUndef);
           ("title", VStr "Appropriations Act"); ("shortTitle", VUndef);
           ("summary", VStr "Funds clean air programs");
           ("url", VUndef); ("introducedDate", VUndef);
           ("latestAction", VUndef); ("subjects", VUndef);
           ("sponsors", VUndef)]) "clean air"
  = scoreBillRelevance Pattern.fragment_engine
    (VObj [("congress", VUndef); ("type", VUndef); ("number", VUndef);
           ("title", VStr "Appropriations Act"); ("shortTitle", VUndef);
           ("summary", VStr "Funds highways");
           ("url", VUndef); ("introducedDate", VUndef);
           ("latestAction", VUndef); ("subjects", VUndef);
           ("sponsors", VUndef)]) "clean air".
Proof.
  apply (searchBills_ignores_summary Pattern.fragment_engine
           [("title", VStr "Appropriations Act");
            ("summary", VObj [("text", VStr "Funds clean air programs")])]
           [("title", VStr "Appropriations Act");
            ("summary", VObj [("text", VStr "Funds highways")])]
           "Funds clean air programs" "Funds highways").
  - intros k Hk. cbn [JS.assoc].
    destruct (String.eqb k "title"); [reflexivity|].
    apply String.eqb_neq in Hk. now rewrite Hk.
  - reflexivity.
  - reflexivity.
  - reflexivity.
  - reflexivity.
Defined.

(** X13. [getOpinion] reads the first naming convention alone and builds
    no URL: a dual-named field present under its second name only is
    lost, and without [absoluteUrl] the record has no URL although
    [searchOpinions] would take [absolute_url] or build one from the id
    (an id that has a string form). *)
Theorem getOpinion_reads_first_names_only (fields : list (string * value)) :
  exists rec,
    CourtListenerAPI.opinionDetails (VObj fields) = Ok (VObj rec) /\
    (forall canonical first second,
        In (canonical, (first, second)) dualNamedFields ->
        JS.assoc canonical rec = JS.assoc first fields) /\
    JS.assoc "url" rec = JS.assoc "absoluteUrl" fields /\
    JS.assoc "absolute_url" rec = JS.assoc "absoluteUrl" fields /\
    (JS.assoc "absoluteUrl" fields = VUndef ->
     JS.truthy (JS.or (JS.assoc "absolute_url" fields) (JS.assoc "id" fields))
     = true ->
     printable (JS.assoc "id" fields) ->
     exists rec' url,
       CourtListenerAPI.opinionRecord (VObj fields) = Ok (VObj rec') /\
       JS.assoc "url" rec' = url /\ JS.truthy url = true /\
       JS.assoc "url" rec = VUndef).
Proof.
  unfold CourtListenerAPI.opinionDetails, object.
  cbn [evalFields JS.prop rbind]. eexists. split; [reflexivity|].
  split; [|split; [reflexivity|split; [reflexivity|]]].
  - intros canonical first second Hin. unfold dualNamedFields in Hin.
    repeat (destruct Hin as [[= <- <- <-]|Hin]; [reflexivity|]).
    contradiction.
  - intros Habs Hother Hprint.
    assert (exists url, CourtListenerAPI.absoluteUrl (VObj fields) = Ok url /\
                        JS.truthy url = true) as [url [Hurl Ht]].
    { rewrite absoluteUrl_object. cbv zeta. unfold JS.or in *.
      rewrite Habs. cbn [JS.truthy].
      destruct (JS.truthy (JS.assoc "absolute_url" fields)) eqn:E1.
      - eexists. split; [reflexivity | exact E1].
      - rewrite Hother. unfold CourtListenerAPI.synthesizedUrl.
        rewrite Hprint. cbn [rbind]. eexists. split; reflexivity. }
    destruct (opinionRecord_fields fields url Hurl)
      as [rec' [Hrec' [_ [_ [Hu _]]]]].
    exists rec', url. split; [exact Hrec'|]. split; [exact Hu|].
    split; [exact Ht|].
    cbn [JS.assoc String.eqb Ascii.eqb Bool.eqb]. exact Habs.
Qed.

(* ------------------------------------------------------------------ *)
(** ** The tool handler *)

Lemma cat_app (l1 l2 : list string) :
  Handler.cat (l1 ++ l2) = (Handler.cat l1 ++ Handler.cat l2)%string.
Proof.
  unfold Handler.cat. induction l1 as [|x l1 IH]; [reflexivity|].
  destruct l1 as [|y l1].
  - cbn [app String.concat]. destruct l2 as [|z l2]; cbn [String.concat].
    + clear IH. induction x as [|c x IHx]; [reflexivity|].
      cbn [append]. now rewrite <- IHx.
    + reflexivity.
  - change (String.concat "" ((x :: y :: l1) ++ l2))
      with (x ++ String.concat "" ((y :: l1) ++ l2))%string.
    rewrite IH.
    change (String.concat "" (x :: y :: l1))
      with (x ++ String.concat "" (y :: l1))%string.
    now rewrite append_assoc'.
Qed.

Lemma inputSchema_advertised (name : string) :
  inputSchema name <> VUndef -> In name advertised.
Proof.
  unfold inputSchema, advertised.
  induction (elements (fieldOf "tools" Handler.listTools)) as [|tool l IH];
    cbn [find List.map In]; [intros H; now destruct H|].
  destruct (String.eqb_spec (nameOf tool) name) as [E|_]; [now left|].
  intros H. right. now apply IH.
Qed.

Section HandlerFacts.

Variable regexp : RegExpEngine.
Variable api : USLegalAPI.t.
Variable message : exn -> string.

#[local] Abbreviation handle := (Handler.handleCallTool regexp api message).

(** Every adapter method sends one request, fixed before the world
    answers, and returns; a list method returns a list, the empty one
    when the request fails. *)
Lemma invoke_run (c : AdapterCall) :
  exists req, forall w log,
    exists v,
      invoke regexp api c w log = (Ok v, log ++ [req]) /\
      (returnsList c = true -> exists l, v = VArr l) /\
      (returnsList c = true -> upstreamFailure (w req) -> v = VArr []).
Proof.
  destruct c; cbn [invoke returnsList]; eexists; intros w log;
    try (rewrite searchBills_run || rewrite searchDocuments_run
         || rewrite searchCode_run || rewrite searchComments_run);
    try (unfold CongressAPI.getBillDetails, CongressAPI.getRecentBills,
           CongressAPI.searchVotes, CongressAPI.getCommittees,
           FederalRegisterAPI.getRecentDocuments,
           FederalRegisterAPI.getDocumentDetails, USCodeAPI.getSection,
           CourtListenerAPI.searchOpinions, CourtListenerAPI.getRecentOpinions,
           CourtListenerAPI.getOpinion;
         cbv zeta; rewrite adapter_run);
    (eexists; split; [reflexivity|]); split;
    try discriminate;
    try (intros _; apply settle_list; intros r v;
         first [ apply rankBills_shape | apply rankDocuments_shape
               | apply prop_optmap_or_empty
               | destruct (400 <=? Axios.status r);
                 [intros [= <-]; now eexists | apply prop_optmap_or_empty] ]);
    try (intros _ Hfail;
         first [ now apply settle_failure | now apply searchCode_failure ]).
Qed.

(** A list tool called with arguments: the one request of its adapter,
    then the text of the records, or of the error of a line. *)
Lemma listTool_run (c : AdapterCall) (heading : string)
      (line : value -> nat -> Result string) (handler : exn -> value)
      (a : Handler.ToolArguments) :
  returnsList c = true ->
  exists req, forall w log,
    exists l,
      try_catch
        (Handler.listTool (Some a) (fun _ => invoke regexp api c)
           (fun _ => heading) line)
        (fun error => ioret (handler error)) w log
      = (Ok match Handler.lines line l with
            | Ok body =>
                Handler.textResult
                  (Handler.cat [ heading; Handler.found l; body ])
            | Throw error => handler error
            end,
         log ++ [req]) /\
      (upstreamFailure (w req) -> l = []).
Proof.
  intros Hlist. destruct (invoke_run c) as [req Hrun].
  exists req. intros w log.
  destruct (Hrun w log) as [v [Hv [Hshape Hfail]]].
  destruct (Hshape Hlist) as [l ->]. exists l. split.
  - unfold try_catch, Handler.listTool, Handler.destructure, iobind, lift.
    rewrite Hv. cbn [JS.iterate_array rbind].
    now destruct (Handler.lines line l).
  - intros Hw. specialize (Hfail Hlist Hw). now injection Hfail.
Qed.

(** The list tools: each is one adapter call, a heading and a line. *)
Lemma handle_list_tool (name : string) (a : Handler.ToolArguments) :
  In name advertised -> name <> "search_all_legal"%string ->
  exists c heading line,
    returnsList c = true /\
    forall w log,
      handle name (Some a) w log
      = try_catch
          (Handler.listTool (Some a) (fun _ => invoke regexp api c)
             (fun _ => heading) line)
          (fun error =>
             ioret (Handler.textResult
                      (Handler.cat [ "Error executing tool "; name; ": ";
                                     message error ]))) w log.
Proof.
  intros Hin Hnot. cbv in Hin.
  repeat (destruct Hin as [<-|Hin]); try contradiction; try (now destruct Hnot).
  - exists (SearchBills (Handler.query a) (Handler.congress a) (Handler.limit a)).
    eexists; eexists; split; [reflexivity|]. intros; reflexivity.
  - exists (SearchDocuments (Handler.query a) (Handler.limit a)).
    eexists; eexists; split; [reflexivity|]. intros; reflexivity.
  - exists (SearchCode (Handler.query a) (Handler.title a) (Handler.limit a)).
    eexists; eexists; split; [reflexivity|]. intros; reflexivity.
  - exists (SearchComments (Handler.query a) (Handler.limit a)).
    eexists; eexists; split; [reflexivity|]. intros; reflexivity.
  - exists (GetRecentBills (Handler.congress a) (Handler.limit a)).
    eexists; eexists; split; [reflexivity|]. intros; reflexivity.
  - exists (GetRecentDocuments (Handler.limit a)).
    eexists; eexists; split; [reflexivity|]. intros; reflexivity.
  - exists (SearchOpinions (Handler.query a) (Handler.court a) (Handler.limit a)).
    eexists; eexists; split; [reflexivity|]. intros; reflexivity.
  - exists (GetRecentOpinions (Handler.court a) (Handler.limit a)).
    eexists; eexists; split; [reflexivity|]. intros; reflexivity.
  - exists (SearchVotes (Handler.congress a) (Handler.chamber a) (Handler.limit a)).
    eexists; eexists; split; [reflexivity|]. intros; reflexivity.
  - exists (GetCommittees (Handler.congress a) (Handler.chamber a)).
    eexists; eexists; split; [reflexivity|]. intros; reflexivity.
Qed.

(** What [searchAll] does: four requests in the order of the array, for
    a quarter of the limit each, and the four lists. *)
Lemma searchAll_run (query : string) (limit : option Z) w log :
  let per := USLegalAPI.ceil_quarter (default 20 limit) in
  exists bills regulations codeSections comments,
    USLegalAPI.searchAll regexp api query limit w log
    = (Ok (VObj [ ("bills", VArr bills);
                  ("regulations", VArr regulations);
                  ("codeSections", VArr codeSections);
                  ("comments", VArr comments) ]),
       log ++ [ CongressAPI.searchBillsRequest (USLegalAPI.congress api)
                  query None per;
                FederalRegisterAPI.searchDocumentsRequest query per;
                USCodeAPI.searchCodeRequest query None per;
                RegulationsGovAPI.searchCommentsRequest
                  (USLegalAPI.regulationsGov api) query per ]) /\
    ((forall req, upstreamFailure (w req)) ->
     bills = [] /\ regulations = [] /\ codeSections = [] /\ comments = []) /\
    (0 <= per ->
     Z.of_nat (List.length bills) <= per /\
     Z.of_nat (List.length regulations) <= per).
Proof.
  intros per.
  unfold USLegalAPI.searchAll, iobind, ioret. cbv zeta.
  rewrite searchBills_run, searchDocuments_run, searchCode_run,
    searchComments_run.
  cbn [default]. fold per.
  set (u1 := w (CongressAPI.searchBillsRequest _ _ _ _)).
  set (u2 := w (FederalRegisterAPI.searchDocumentsRequest _ _)).
  set (u3 := w (USCodeAPI.searchCodeRequest _ _ _)).
  set (u4 := w (RegulationsGovAPI.searchCommentsRequest _ _ _)).
  assert (exists l, settle Axios.validateStatus
                      (fun r => CongressAPI.rankBills regexp query per
                                  (Axios.data r)) (VArr []) u1 = VArr l /\
                    (upstreamFailure u1 -> l = []) /\
                    (0 <= per -> Z.of_nat (List.length l) <= per))
    as [bills [-> [Hf1 Hb1]]].
  { unfold settle, upstreamFailure, Axios.validateStatus.
    destruct u1 as [code|r].
    - exists []. repeat split; cbn [List.length]; auto; lia.
    - destruct ((200 <=? Axios.status r) && (Axios.status r <? 300)) eqn:Es.
      + destruct (CongressAPI.rankBills _ _ _ _) as [v|] eqn:Erank.
        * destruct (rankBills_result regexp _ _ _ _ Erank) as [l [-> [Hlen _]]].
          exists l. repeat split; auto. intros Hs.
          apply andb_prop in Es as [_ Es]. apply Z.ltb_lt in Es. lia.
        * exists []. repeat split; cbn [List.length]; auto; lia.
      + exists []. repeat split; cbn [List.length]; auto; lia. }
  assert (exists l, settle Axios.validateStatus
                      (fun r => FederalRegisterAPI.rankDocuments regexp query
                                  per (Axios.data r)) (VArr []) u2 = VArr l /\
                    (upstreamFailure u2 -> l = []) /\
                    (0 <= per -> Z.of_nat (List.length l) <= per))
    as [regulations [-> [Hf2 Hb2]]].
  { unfold settle, upstreamFailure, Axios.validateStatus.
    destruct u2 as [code|r].
    - exists []. repeat split; cbn [List.length]; auto; lia.
    - destruct ((200 <=? Axios.status r) && (Axios.status r <? 300)) eqn:Es.
      + destruct (FederalRegisterAPI.rankDocuments _ _ _ _) as [v|] eqn:Erank.
        * destruct (rankDocuments_result regexp _ _ _ _ Erank)
            as [l [-> [Hlen _]]].
          exists l. repeat split; auto. intros Hs.
          apply andb_prop in Es as [_ Es]. apply Z.ltb_lt in Es. lia.
        * exists []. repeat split; cbn [List.length]; auto; lia.
      + exists []. repeat split; cbn [List.length]; auto; lia. }
  match goal with
  | |- context [settle USCodeAPI.validateStatus ?f (VArr []) u3] =>
      assert (exists l, settle USCodeAPI.validateStatus f (VArr []) u3 = VArr l /\
                        (upstreamFailure u3 -> l = []))
        as [codeSections [-> Hf3]]
  end.
  { match goal with
    | |- exists l, ?s = _ /\ _ =>
        assert (exists l, s = VArr l) as [l El]
    end.
    { apply settle_list. intros r v. destruct (400 <=? Axios.status r);
        [intros [= <-]; now eexists | apply prop_optmap_or_empty]. }
    exists l. split; [exact El|]. intros Hu.
    rewrite searchCode_failure in El by exact Hu. now injection El. }
  match goal with
  | |- context [settle Axios.validateStatus ?f (VArr []) u4] =>
      assert (exists l, settle Axios.validateStatus f (VArr []) u4 = VArr l /\
                        (upstreamFailure u4 -> l = []))
        as [comments [-> Hf4]]
  end.
  { match goal with
    | |- exists l, ?s = _ /\ _ =>
        assert (exists l, s = VArr l) as [l El]
    end.
    { apply settle_list. intros r v. apply prop_optmap_or_empty. }
    exists l. split; [exact El|]. intros Hu.
    rewrite settle_failure in El by exact Hu. now injection El. }
  exists bills, regulations, codeSections, comments. split; [|split].
  - f_equal. now rewrite <- !app_assoc.
  - intros Hw. repeat split; [apply Hf1|apply Hf2|apply Hf3|apply Hf4];
      apply Hw.
  - intros Hper. split; auto.
Qed.

(** The tool of the comprehensive search, called with arguments. *)
Lemma searchAllTool_run (a : Handler.ToolArguments) w log :
  let per := USLegalAPI.ceil_quarter (default 20 (Handler.limit a)) in
  exists bills regulations codeSections comments : list value,
    handle "search_all_legal" (Some a) w log
    = (Ok match
            (topBills <- Handler.lines Handler.topBillLine
                           (JS.slice0 3 bills) ;;
             topRegulations <- Handler.lines Handler.topRegulationLine
                                 (JS.slice0 3 regulations) ;;
             Ok (Handler.textResult
                   (Handler.cat
                      [ "**Comprehensive US Legal Search Results for ";
                        Handler.dq; Handler.query a; Handler.dq; "**";
                        Handler.nl; Handler.nl;
                        "- Bills: ";
                        string_of_Z (Z.of_nat (List.length bills));
                        Handler.nl;
                        "- Regulations: ";
                        string_of_Z (Z.of_nat (List.length regulations));
                        Handler.nl;
                        "- Code Sections: ";
                        string_of_Z (Z.of_nat (List.length codeSections));
                        Handler.nl;
                        "- Comments: ";
                        string_of_Z (Z.of_nat (List.length comments));
                        Handler.nl; Handler.nl;
                        "**Top Results:**"; Handler.nl; Handler.nl;
                        topBills; topRegulations ])))
          with
          | Ok v => v
          | Throw error =>
              Handler.textResult
                (Handler.cat [ "Error executing tool "; "search_all_legal";
                               ": "; message error ])
          end,
       log ++ [ CongressAPI.searchBillsRequest (USLegalAPI.congress api)
                  (Handler.query a) None per;
                FederalRegisterAPI.searchDocumentsRequest (Handler.query a) per;
                USCodeAPI.searchCodeRequest (Handler.query a) None per;
                RegulationsGovAPI.searchCommentsRequest
                  (USLegalAPI.regulationsGov api) (Handler.query a) per ]) /\
    ((forall req, upstreamFailure (w req)) ->
     bills = [] /\ regulations = [] /\ codeSections = [] /\ comments = []).
Proof.
  intros per.
  destruct (searchAll_run (Handler.query a) (Handler.limit a) w log)
    as [bills [regulations [codeSections [comments [Hrun [Hfail _]]]]]].
  exists bills, regulations, codeSections, comments. split; [|exact Hfail].
  change (handle "search_all_legal" (Some a) w log)
    with (try_catch (Handler.searchAllTool regexp api (Some a))
            (fun error =>
               ioret (Handler.textResult
                        (Handler.cat [ "Error executing tool ";
                                       "search_all_legal"; ": ";
                                       message error ]))) w log).
  unfold try_catch, Handler.searchAllTool, Handler.destructure, iobind, lift.
  rewrite Hrun. fold per.
  cbn [JS.prop JS.assoc String.eqb Ascii.eqb Bool.eqb JS.iterate_array rbind].
  destruct (Handler.lines Handler.topBillLine _); [|reflexivity].
  cbn [rbind].
  now destruct (Handler.lines Handler.topRegulationLine _).
Qed.

(** X14. A tool name the server does not advertise sends no request and
    is answered, whatever the arguments, with the text that names it as
    unknown. *)
Theorem unknown_tool_sends_nothing (name : string)
        (args : option Handler.ToolArguments) (w : Axios.World)
        (log : list Axios.Request) :
  ~ In name advertised ->
  handle name args w log
  = (Ok (Handler.textResult ("Unknown tool: " ++ name)), log).
Proof.
  intros Hnot. unfold Handler.handleCallTool.
  repeat match goal with
         | |- context [String.eqb name ?s] =>
             destruct (String.eqb_spec name s) as [->|_];
             [exfalso; apply Hnot; cbv; tauto|]
         end.
  reflexivity.
Qed.


(** X15. An advertised tool called with arguments sends its requests
    (one, or the four of the comprehensive search), the same whatever
    the upstream answers, and returns a text: it never raises. *)
Theorem advertised_tool_queries_upstream (name : string)
        (a : Handler.ToolArguments) :
  In name advertised ->
  exists reqs,
    reqs <> [] /\
    forall w log,
      exists text,
        handle name (Some a) w log
        = (Ok (Handler.textResult text), log ++ reqs).
Proof.
  intros Hin.
  destruct (String.eqb_spec name "search_all_legal") as [->|Hnot].
  - eexists. split; [|intros w log].
    2: { destruct (searchAllTool_run a w log)
           as [bills [regulations [codeSections [comments [-> _]]]]].
         destruct (Handler.lines Handler.topBillLine _); cbn [rbind];
           [destruct (Handler.lines Handler.topRegulationLine _);
            cbn [rbind]|];
           eexists; reflexivity. }
    discriminate.
  - destruct (handle_list_tool name a Hin Hnot)
      as [c [heading [line [Hlist Hhandle]]]].
    destruct (listTool_run c heading line
                (fun error =>
                   Handler.textResult
                     (Handler.cat [ "Error executing tool "; name; ": ";
                                    message error ])) a Hlist) as [req Hrun].
    exists [req]. split; [discriminate|]. intros w log.
    rewrite Hhandle. destruct (Hrun w log) as [l [-> _]].
    destruct (Handler.lines line l); eexists; reflexivity.
Qed.


(** X16. An advertised tool called without an arguments object sends no
    request and answers with the text of the error: also the tools
    whose schema requires no property. *)
Theorem missing_arguments_fail_every_tool (name : string)
        (w : Axios.World) (log : list Axios.Request) :
  In name advertised ->
  handle name None w log
  = (Ok (Handler.textResult
           ("Error executing tool " ++ name ++ ": " ++ message TypeError)),
     log).
Proof.
  intros Hin. cbv in Hin.
  repeat (destruct Hin as [<-|Hin]); try contradiction; reflexivity.
Qed.


(** X17. When every request fails (no response, or a 4xx or 5xx status),
    an advertised tool called with arguments answers as if the source
    had nothing: its heading and then [Found 0 result(s)], or the four
    zero counts of the comprehensive search. The text of the error never
    reaches the caller. *)
Theorem upstream_failure_reads_as_no_results (name : string)
        (a : Handler.ToolArguments) (w : Axios.World)
        (log : list Axios.Request) :
  In name advertised ->
  (forall req, upstreamFailure (w req)) ->
  exists heading,
    fst (handle name (Some a) w log)
    = Ok (Handler.textResult (heading ++ emptyReport name)).
Proof.
  intros Hin Hw. unfold emptyReport.
  destruct (String.eqb_spec name "search_all_legal") as [->|Hnot].
  - destruct (searchAllTool_run a w log)
      as [bills [regulations [codeSections [comments [-> Hfail]]]]].
    destruct (Hfail Hw) as [-> [-> [-> ->]]].
    exists (Handler.cat [ "**Comprehensive US Legal Search Results for ";
                          Handler.dq; Handler.query a; Handler.dq; "**";
                          Handler.nl; Handler.nl ]).
    cbn [fst]. rewrite <- cat_app. reflexivity.
  - destruct (handle_list_tool name a Hin Hnot)
      as [c [heading [line [Hlist Hhandle]]]].
    destruct (listTool_run c heading line
                (fun error =>
                   Handler.textResult
                     (Handler.cat [ "Error executing tool "; name; ": ";
                                    message error ])) a Hlist) as [req Hrun].
    exists heading. rewrite Hhandle.
    destruct (Hrun w log) as [l [-> Hl]]. rewrite (Hl (Hw req)).
    reflexivity.
Qed.


(** X18. The default the schema of a tool advertises for [limit] is the
    one in force when the call gives none, but for the comprehensive
    search: its schema says 10, and a call without a limit is a call
    with limit 20, which sends other requests than a call with
    limit 10. *)
Theorem schema_limit_default (name : string) (d : Z)
        (a : Handler.ToolArguments) (w : Axios.World)
        (log : list Axios.Request) :
  schemaOf name "limit" "default" = VNum d ->
  (name <> "search_all_legal"%string ->
   handle name (Some (withLimit a None)) w log
   = handle name (Some (withLimit a (Some d))) w log) /\
  (name = "search_all_legal"%string ->
   d = 10 /\
   handle name (Some (withLimit a None)) w log
   = handle name (Some (withLimit a (Some 20))) w log /\
   snd (handle name (Some (withLimit a None)) w log)
   <> snd (handle name (Some (withLimit a (Some d))) w log)).
Proof.
  intros Hd.
  assert (In name advertised) as Hin.
  { apply inputSchema_advertised. intros E. unfold schemaOf in Hd.
    rewrite E in Hd. discriminate Hd. }
  cbv in Hin.
  repeat (destruct Hin as [<-|Hin]); try contradiction;
    vm_compute in Hd; try discriminate Hd; injection Hd as <-;
    (split; [intros Hnot | intros Hall; try discriminate Hall]);
    try reflexivity; try (now destruct Hnot).
  split; [reflexivity|]. split; [reflexivity|].
  destruct (searchAllTool_run (withLimit a None) w log)
    as [b0 [r0 [c0 [m0 [-> _]]]]].
  destruct (searchAllTool_run (withLimit a (Some 10)) w log)
    as [b1 [r1 [c1 [m1 [-> _]]]]].
  cbn [snd]. intros E. apply app_inv_head in E.
  injection E as E _. vm_compute in E. discriminate E.
Qed.


(** X19. The comprehensive search returns its four lists whatever the
    upstream answers, and for a limit that is not negative the two
    ranked ones, bills and regulations, hold at most a quarter of the
    limit, rounded up, each. *)
Theorem searchAll_bounds_ranked_sources (query : string) (limit : Z)
        (w : Axios.World) (log : list Axios.Request) :
  exists bills regulations codeSections comments,
    fst (USLegalAPI.searchAll regexp api query (Some limit) w log)
    = Ok (VObj [ ("bills", VArr bills);
                 ("regulations", VArr regulations);
                 ("codeSections", VArr codeSections);
                 ("comments", VArr comments) ]) /\
    (0 <= limit ->
     Z.of_nat (List.length bills) <= USLegalAPI.ceil_quarter limit /\
     Z.of_nat (List.length regulations) <= USLegalAPI.ceil_quarter limit /\
     4 * USLegalAPI.ceil_quarter limit < limit + 4).
Proof.
  destruct (searchAll_run query (Some limit) w log)
    as [bills [regulations [codeSections [comments [Hrun [_ Hbound]]]]]].
  exists bills, regulations, codeSections, comments.
  rewrite Hrun. split; [reflexivity|]. intros Hlimit.
  cbn [default] in Hbound. unfold USLegalAPI.ceil_quarter in *.
  pose proof (Z.div_mod (- limit) 4 ltac:(lia)) as Hdiv.
  pose proof (Z.mod_pos_bound (- limit) 4 ltac:(lia)) as Hmod.
  destruct Hbound as [Hb Hr]; [lia|]. repeat split; lia.
Qed.

End HandlerFacts.

Lemma unknown_tool_sends_nothing_witness :
  Handler.handleCallTool Pattern.fragment_engine (USLegalAPI.new "" "" None)
    (fun _ => "args is undefined"%string)
    "search_bills" None (fun _ => Axios.NetworkError "ECONNREFUSED") []
  = (Ok (Handler.textResult "Unknown tool: search_bills"), []).
Proof.
  apply (unknown_tool_sends_nothing Pattern.fragment_engine
           (USLegalAPI.new "" "" None) (fun _ => "args is undefined"%string)
           "search_bills").
  cbv. intros H. repeat (destruct H as [H|H]; [discriminate H|]). exact H.
Defined.

Lemma advertised_tool_queries_upstream_witness :
  exists reqs,
    reqs <> [] /\
    forall w log,
      exists text,
        Handler.handleCallTool Pattern.fragment_engine
          (USLegalAPI.new "" "" None) (fun _ => "args is undefined"%string)
          "get_recent_regulations"
          (Some (Handler.mkToolArguments "" None None None None None)) w log
        = (Ok (Handler.textResult text), log ++ reqs).
Proof.
  apply (advertised_tool_queries_upstream Pattern.fragment_engine
           (USLegalAPI.new "" "" None) (fun _ => "args is undefined"%string)
           "get_recent_regulations").
  cbv. tauto.
Defined.

Lemma missing_arguments_fail_every_tool_witness :
  fieldOf "required" (inputSchema "get_recent_regulations") = VUndef /\
  Handler.handleCallTool Pattern.fragment_engine (USLegalAPI.new "" "" None)
    (fun _ => "args is undefined"%string)
    "get_recent_regulations" None
    (fun _ => Axios.HttpResponse (Axios.mkResponse 200 "OK" (VObj []))) []
  = (Ok (Handler.textResult
           "Error executing tool get_recent_regulations: args is undefined"),
     []).
Proof.
  split; [reflexivity|].
  apply (missing_arguments_fail_every_tool Pattern.fragment_engine
           (USLegalAPI.new "" "" None) (fun _ => "args is undefined"%string)
           "get_recent_regulations").
  cbv. tauto.
Defined.

Lemma upstream_failure_reads_as_no_results_witness :
  exists heading,
    fst (Handler.handleCallTool Pattern.fragment_engine
           (USLegalAPI.new "" "" None) (fun _ => "args is undefined"%string)
           "search_us_code"
           (Some (Handler.mkToolArguments "privacy" None None None None None))
           (fun _ => Axios.NetworkError "ETIMEDOUT") [])
    = Ok (Handler.textResult (heading ++ emptyReport "search_us_code")).
Proof.
  apply (upstream_failure_reads_as_no_results Pattern.fragment_engine
           (USLegalAPI.new "" "" None) (fun _ => "args is undefined"%string)
           "search_us_code").
  - cbv. tauto.
  - intros req. exact I.
Defined.

Lemma schema_limit_default_witness :
  Handler.handleCallTool Pattern.fragment_engine (USLegalAPI.new "" "" None)
    (fun _ => "args is undefined"%string) "search_federal_register"
    (Some (withLimit (Handler.mkToolArguments "water" None None None None None)
                     None))
    (fun _ => Axios.NetworkError "ETIMEDOUT") []
  = Handler.handleCallTool Pattern.fragment_engine (USLegalAPI.new "" "" None)
      (fun _ => "args is undefined"%string) "search_federal_register"
      (Some (withLimit (Handler.mkToolArguments "water" None None None None None)
                       (Some 20)))
      (fun _ => Axios.NetworkError "ETIMEDOUT") [].
Proof.
  refine (proj1 (schema_limit_default Pattern.fragment_engine
                   (USLegalAPI.new "" "" None)
                   (fun _ => "args is undefined"%string)
                   "search_federal_register" 20
                   (Handler.mkToolArguments "water" None None None None None)
                   (fun _ => Axios.NetworkError "ETIMEDOUT") [] _) _).
  - reflexivity.
  - intros E. discriminate E.
Defined.

(** X20. The line of a public comment shows [undefined] for its title
    and for its address: the record of a comment has neither field. *)
Theorem comment_lines_show_undefined (raw record : value) :
  RegulationsGovAPI.commentRecord raw = Ok record ->
  Handler.shown record "title" = Ok "undefined"%string /\
  Handler.shown record "url" = Ok "undefined"%string /\
  forall index text,
    Handler.commentLine record index = Ok text ->
    exists organization posted_date,
      text = Handler.cat [ Handler.ordinal index; ". **undefined**";
                           Handler.nl;
                           "   "; organization; " - "; posted_date;
                           Handler.nl;
                           "   undefined"; Handler.nl ].
Proof.
  unfold RegulationsGovAPI.commentRecord, object. intros H.
  destruct (evalFields _) as [l|] eqn:E; [|discriminate H].
  injection H as <-.
  pose proof (evalFields_assoc _ _ E "title") as Htitle.
  pose proof (evalFields_assoc _ _ E "url") as Hurl.
  cbn in Htitle, Hurl.
  assert (Handler.shown (VObj l) "title" = Ok "undefined"%string) as Ht
    by (unfold Handler.shown; cbn [JS.prop rbind]; now rewrite Htitle).
  assert (Handler.shown (VObj l) "url" = Ok "undefined"%string) as Hu
    by (unfold Handler.shown; cbn [JS.prop rbind]; now rewrite Hurl).
  split; [exact Ht|]. split; [exact Hu|].
  intros index text. unfold Handler.commentLine. rewrite Ht, Hu.
  cbn [rbind].
  destruct (Handler.shown (VObj l) "organization") as [organization|];
    [cbn [rbind]|discriminate].
  destruct (Handler.shown (VObj l) "posted_date") as [posted_date|];
    [cbn [rbind]|discriminate].
  intros [= <-]. now exists organization, posted_date.
Qed.

Lemma comment_lines_show_undefined_witness :
  Handler.shown
    (VObj [ ("id", VStr "EPA-1"); ("comment", VStr "Support");
            ("posted_date", VStr "2024-05-01"); ("agency_id", VStr "EPA");
            ("document_id", VUndef); ("submitter_name", VUndef);
            ("organization", VStr "Sierra Club") ]) "title"
  = Ok "undefined"%string.
Proof.
  apply (comment_lines_show_undefined
           (VObj [ ("id", VStr "EPA-1");
                   ("attributes",
                    VObj [ ("comment", VStr "Support");
                           ("postedDate", VStr "2024-05-01");
                           ("agencyId", VStr "EPA");
                           ("organization", VStr "Sierra Club") ]) ])).
  reflexivity.
Defined.
